(** * stride-db: repositories, auth provider and sync connector

    A shallow embedding of the TypeScript data layer:

    - [Auth]         : [SupabaseAuthProvider] (sign-in and session mapping);
    - [Connector]    : [SupabaseConnector] ([fetchCredentials], [uploadData]);
    - [Sql]          : the part of the SQLite/Drizzle handle the repositories
                       use (insert, update-where, find-first on one table
                       with a primary key);
    - [ProjectRepo]  : [ProjectRepository] and its mappers;
    - [TaskTypeRepo] : [TaskTypeRepository] and its mappers;
    - [ProjectMappers], [TaskTypeMappers] : the mappers as calls, each
                       with its call of [now()].

    Asynchronous calls are sequential here: every [await] is a bind of the
    state-and-exception monad [M]. *)

From Stdlib Require Import ZArith.
From stdpp Require Import base option strings list gmap.
From stdpp Require Import sorting.

Open Scope Z_scope.
Open Scope string_scope.
Open Scope list_scope.

(** ** Exceptions and outcomes *)

(** What a JavaScript [throw] carries in this code base. *)
Inductive Exn : Type :=
| AuthError (message : string)        (* error object of the auth backend *)
| PostgrestError (message : string)   (* error object of the remote store *)
| SqliteError (message : string)      (* constraint failure of the local store *)
| EngineError (message : string)      (* failure inside the sync engine *)
| JsError (message : string).         (* [new Error(message)] *)

Inductive Outcome (A : Type) : Type :=
| Return (a : A)
| Throw (e : Exn).
Arguments Return {A} a.
Arguments Throw {A} e.

(** State-and-exception monad: a call runs on a store [S], leaves a store
    and either returns or throws. *)
Definition M (S A : Type) : Type := S -> S * Outcome A.

Definition ret {S A} (a : A) : M S A := fun s => (s, Return a).
Definition throw {S A} (e : Exn) : M S A := fun s => (s, Throw e).
Definition bind {S A B} (m : M S A) (k : A -> M S B) : M S B :=
  fun s => match m s with
           | (s', Return a) => k a s'
           | (s', Throw e) => (s', Throw e)
           end.
(** [try { m } catch (e) { h e }] *)
Definition try_catch {S A} (m : M S A) (h : Exn -> M S A) : M S A :=
  fun s => match m s with
           | (s', Return a) => (s', Return a)
           | (s', Throw e) => h e s'
           end.

(** [await call(...)] of a backend call that does not reject: it answers
    with a value (for the hosted services, a [{ data, error }] object). *)
Definition answer {S A} (f : S -> S * A) : M S A :=
  fun s => let (s', a) := f s in (s', Return a).

Declare Scope js_scope.
Delimit Scope js_scope with js.
Notation "'let*' x ':=' m 'in' k" := (bind m (fun x => k))
  (at level 10, x name, m at level 200, k at level 200,
   format "'[v' 'let*'  x  ':='  m  'in' '/' k ']'") : js_scope.
Notation "'do' m 'in' k" := (bind m (fun _ => k))
  (at level 10, m at level 200, k at level 200,
   format "'[v' 'do'  m  'in' '/' k ']'") : js_scope.
Open Scope js_scope.

(** JavaScript truthiness of an optional number: [undefined], [null] and [0]
    are falsy. *)
Definition truthy_number (n : option Z) : option Z :=
  match n with
  | Some 0 => None
  | Some n => Some n
  | None => None
  end.

(** A JavaScript [Date]: an instant as epoch milliseconds, or the Invalid
    Date. *)
Inductive Date : Type :=
| Instant (ms : Z)
| InvalidDate.

(** [new Date(ms)]: a time value beyond 8.64e15 ms on either side of the
    epoch gives the Invalid Date; nothing is thrown. *)
Definition new_Date (ms : Z) : Date :=
  if Z.leb (Z.abs ms) 8640000000000000 then Instant ms else InvalidDate.

(** [x ? new Date(x * 1000) : undefined], for [x] a whole number of epoch
    seconds, as the auth service issues them. *)
Definition date_of_epoch_seconds (expires_at : option Z) : option Date :=
  match truthy_number expires_at with
  | Some n => Some (new_Date (n * 1000))
  | None => None
  end.

(** The session object of the hosted auth service, as far as this code
    reads it. *)
Record SupabaseUser : Type := {
  su_id : string;
  su_email : option string;
  su_user_metadata : option (gmap string string);
}.

Record SupabaseSession : Type := {
  user : SupabaseUser;
  access_token : string;
  refresh_token : option string;
  expires_at : option Z;
}.

(** [{ data: { session }, error }], the answer of the auth calls
    [signInWithPassword] and [getSession]. *)
Record AuthResponse : Type := {
  data_session : option SupabaseSession;
  error : option Exn;
}.

(** [for (const x of xs) { body x }] *)
Fixpoint for_of {S A} (xs : list A) (body : A -> M S unit) : M S unit :=
  match xs with
  | [] => ret tt
  | x :: rest => do body x in for_of rest body
  end.

(** ** Auth provider *)
Module Auth.

Record SignInCredentials : Type := {
  email : string;
  password : string;
}.

Record AuthUser : Type := {
  id : string;
  user_email : option string;
  firstName : option string;
  lastName : option string;
  avatarUrl : option string;
  timezone : string;
}.

Record AuthSession : Type := {
  session_user : AuthUser;
  accessToken : string;
  refreshToken : option string;
  expiresAt : option Date;
}.

(** [session.user.user_metadata?.key] *)
Definition metadata (u : SupabaseUser) (key : string) : option string :=
  m ← su_user_metadata u; m !! key.

Definition mapSession (session : SupabaseSession) : AuthSession :=
  {| session_user :=
       {| id := su_id (user session);
          user_email := su_email (user session);
          firstName := metadata (user session) "first_name";
          lastName := metadata (user session) "last_name";
          avatarUrl := metadata (user session) "avatar_url";
          timezone := "" |};
     accessToken := access_token session;
     refreshToken := refresh_token session;
     expiresAt := date_of_epoch_seconds (expires_at session) |}.

Section Provider.
(** The auth backend: its state and its password sign-in call. *)
Variable Backend : Type.
Variable signInWithPassword : SignInCredentials -> Backend -> Backend * AuthResponse.

Definition signIn (credentials : SignInCredentials) : M Backend AuthSession :=
  let* r := answer (signInWithPassword
                      {| email := email credentials;
                         password := password credentials |}) in
  match error r with
  | Some e => throw e
  | None =>
      match data_session r with
      | None => throw (JsError "No session returned")
      | Some session => ret (mapSession session)
      end
  end.
End Provider.

Section Sessions.
(** The other calls of the auth backend; each answers and does not reject. *)
Variable Backend : Type.
Variable auth_signOut : Backend -> Backend * option Exn.
Variable auth_getSession : Backend -> Backend * AuthResponse.
Variable auth_refreshSession : Backend -> Backend * AuthResponse.

Definition signOut : M Backend unit :=
  let* _ := answer auth_signOut in
  ret tt.

Definition getCurrentSession : M Backend (option AuthSession) :=
  let* r := answer auth_getSession in
  ret (match data_session r with
       | Some session => Some (mapSession session)
       | None => None
       end).

Definition refreshSession : M Backend (option AuthSession) :=
  let* r := answer auth_refreshSession in
  match error r with
  | Some e => throw e
  | None =>
      ret (match data_session r with
           | Some session => Some (mapSession session)
           | None => None
           end)
  end.
End Sessions.

End Auth.

(** ** Sync connector *)
Module Connector.

Record PowerSyncCredentials : Type := {
  endpoint : string;
  token : string;
  expiresAt : option Date;
}.

(** One queued local mutation ([CrudEntry] of the sync engine). *)
Inductive UpdateType : Type := PUT | PATCH | DELETE.

Record CrudEntry : Type := {
  op : UpdateType;
  table : string;
  id : string;
  opData : option (gmap string string);
}.

(** A pending batch; its [complete()] method is the engine call [complete]
    below. *)
Record CrudTransaction : Type := {
  crud : list CrudEntry;
  transactionId : option Z;
}.

(** The three write primitives used on the remote store. *)
Inductive RemoteCall : Type :=
| Upsert (table : string) (values : gmap string string) (onConflict : string)
| Update (table : string) (values : option (gmap string string))
         (column value : string)
| Delete (table : string) (column value : string).

(** What an observer of one upload sees, in order. *)
Inductive Event : Type :=
| Called (c : RemoteCall)
| Completed (t : CrudTransaction)
| ConsoleError (msg : string) (e : Exn).

Section SupabaseConnector.
(** Collaborators: the auth backend, the remote store and the sync engine's
    local database. A remote call never rejects; it answers with an
    optional error object. *)
Variable powersyncUrl : string.
Variable Auth : Type.
Variable getSession : Auth -> Auth * AuthResponse.
Variable Remote : Type.
Variable remote_exec : RemoteCall -> Remote -> Remote * option Exn.
Variable Local : Type.
Variable getNextCrudTransaction : M Local (option CrudTransaction).
Variable complete : CrudTransaction -> M Local unit.

Record World : Type := {
  remote : Remote;
  local : Local;
  trace : list Event;
}.

Definition fetchCredentials : M Auth (option PowerSyncCredentials) :=
  let* r := answer getSession in
  match error r with
  | Some e => throw e
  | None =>
      match data_session r with
      | None => ret None
      | Some session =>
          ret (Some {| endpoint := powersyncUrl;
                       token := access_token session;
                       expiresAt := date_of_epoch_seconds (expires_at session) |})
      end
  end.

(** [await this.supabase.from(table)...]: the call reaches the remote store
    and is observed. *)
Definition call (c : RemoteCall) : M World (option Exn) :=
  answer (fun w =>
    let (r, err) := remote_exec c (remote w) in
    ({| remote := r; local := local w; trace := trace w ++ [Called c] |}, err)).

Definition on_local {A} (m : M Local A) : M World A :=
  fun w =>
    let (l, o) := m (local w) in
    ({| remote := remote w; local := l; trace := trace w |}, o).

Definition transaction_complete (t : CrudTransaction) : M World unit :=
  fun w =>
    let (l, o) := complete t (local w) in
    ({| remote := remote w; local := l; trace := trace w ++ [Completed t] |}, o).

Definition console_error (msg : string) (e : Exn) : M World unit :=
  fun w =>
    ({| remote := remote w; local := local w;
        trace := trace w ++ [ConsoleError msg e] |}, Return tt).

(** [if (error) throw error;] *)
Definition throw_if (error : option Exn) : M World unit :=
  match error with
  | Some e => throw e
  | None => ret tt
  end.

(** [{ ...record, id: op.id }]; spreading [undefined] adds nothing. *)
Definition with_id (record : option (gmap string string)) (i : string)
  : gmap string string :=
  <["id" := i]> (default ∅ record).

(** The remote call one queued operation is turned into. *)
Definition remote_call (o : CrudEntry) : RemoteCall :=
  let table := table o in
  let record := opData o in
  match op o with
  | PUT => Upsert table (with_id record (id o)) "id"
  | PATCH => Update table record "id" (id o)
  | DELETE => Delete table "id" (id o)
  end.

(** Body of the loop of [uploadData]. *)
Definition upload_op (o : CrudEntry) : M World unit :=
  let table := table o in
  let record := opData o in
  match op o with
  | PUT =>
      let* error := call (Upsert table (with_id record (id o)) "id") in
      throw_if error
  | PATCH =>
      let* error := call (Update table record "id" (id o)) in
      throw_if error
  | DELETE =>
      let* error := call (Delete table "id" (id o)) in
      throw_if error
  end.

Definition uploadData : M World unit :=
  let* transaction := on_local getNextCrudTransaction in
  match transaction with
  | None => ret tt
  | Some transaction =>
      try_catch
        (do for_of (crud transaction) upload_op in
         transaction_complete transaction)
        (fun error =>
           do console_error "Upload failed, will retry:" error in
           throw error)
  end.

(** The remote store accepts the calls [cs] one after the other, none
    answering with an error, and goes from [r] to [r']. *)
Inductive accepted : list RemoteCall -> Remote -> Remote -> Prop :=
| accepted_nil r : accepted [] r r
| accepted_cons c cs r r1 r2 :
    remote_exec c r = (r1, None) ->
    accepted cs r1 r2 ->
    accepted (c :: cs) r r2.

(** The remote calls of a batch, in the order of its operations. *)
Definition remote_calls (ops : list CrudEntry) : list RemoteCall :=
  map remote_call ops.

End SupabaseConnector.

Arguments remote {Remote Local} w.
Arguments local {Remote Local} w.
Arguments trace {Remote Local} w.

End Connector.

(** ** The database handle *)

(** What a repository needs from the injected handle for one table:
    [db.insert(t).values(row)], [db.update(t).set(patch).where(cond)] and
    [db.query.t.findFirst({ where: cond })]. *)
Class TableHandle (DB Row Patch : Type) : Type := {
  db_insert : Row -> M DB unit;
  db_update : Patch -> (Row -> bool) -> M DB unit;
  db_findFirst : (Row -> bool) -> M DB (option Row);
}.

(** [db.query.t.findMany({ where, orderBy })], where [orderBy] is read as
    "this row may come before that one", [db.select().from(t).where(cond)]
    and [db.delete(t).where(cond)]. *)
Class TableQueries (DB Row : Type) : Type := {
  db_findMany : (Row -> bool) -> (Row -> Row -> bool) -> M DB (list Row);
  db_select : (Row -> bool) -> M DB (list Row);
  db_delete : (Row -> bool) -> M DB unit;
}.

(** The local SQLite store behind the handle: a table is the list of its
    rows in insertion order, and the column [key] is the one the schema
    declares [primaryKey()]. A refused statement fails as a whole. *)
Module Sql.

Section Table.
Context {Row Patch : Type}.
Variable primary_key : string.    (* its name in messages: [table.column] *)
Variable key : Row -> string.
Variable apply_patch : Patch -> Row -> Row.

Definition keys (tbl : list Row) : list string := map key tbl.

(** What the store throws when a statement would repeat a key. *)
Definition unique_failed : Exn :=
  SqliteError (String.append "UNIQUE constraint failed: " primary_key).

(** [INSERT INTO t VALUES row]: refused when the key is taken. *)
Definition insert (row : Row) : M (list Row) unit :=
  fun tbl =>
    if bool_decide (key row ∈ keys tbl)
    then (tbl, Throw unique_failed)
    else (tbl ++ [row], Return tt).

(** The rows after [SET patch WHERE cond], before constraints are checked. *)
Definition updated (patch : Patch) (cond : Row -> bool) (tbl : list Row)
  : list Row :=
  map (fun r => if cond r then apply_patch patch r else r) tbl.

(** [UPDATE t SET patch WHERE cond]. A statement that leaves every key as it
    was is never refused; one that writes keys is refused, and writes
    nothing, when it would leave two rows with one key. *)
Definition update (patch : Patch) (cond : Row -> bool) : M (list Row) unit :=
  fun tbl =>
    let tbl' := updated patch cond tbl in
    if bool_decide (keys tbl' = keys tbl) || bool_decide (NoDup (keys tbl'))
    then (tbl', Return tt)
    else (tbl, Throw unique_failed).

Definition findFirst (cond : Row -> bool) : M (list Row) (option Row) :=
  fun tbl => (tbl, Return (List.find cond tbl)).

Definition handle : TableHandle (list Row) Row Patch :=
  {| db_insert := insert; db_update := update; db_findFirst := findFirst |}.

End Table.

Section Queries.
Context {Row : Type}.

(** [SELECT ... WHERE cond]: the matching rows in table order. *)
Definition select (cond : Row -> bool) : M (list Row) (list Row) :=
  fun tbl => (tbl, Return (List.filter cond tbl)).

(** The order of an [ORDER BY], as a relation. *)
Definition ordered (before : Row -> Row -> bool) : relation Row :=
  fun a b => before a b = true.

#[global] Instance ordered_dec (before : Row -> Row -> bool)
  : RelDecision (ordered before) :=
  fun a b => bool_eq_dec (before a b) true.

(** [x] put into the sorted [rows], ahead of the first row it may come
    before. *)
Fixpoint place (before : Row -> Row -> bool) (x : Row) (rows : list Row)
  : list Row :=
  match rows with
  | [] => [x]
  | y :: rest =>
      if before x y then x :: y :: rest else y :: place before x rest
  end.

(** [ORDER BY]: a stable sort, so rows the order does not tell apart stay
    in table order. *)
Definition order_by (before : Row -> Row -> bool) (rows : list Row)
  : list Row :=
  foldr (place before) [] rows.

(** [SELECT ... WHERE cond ORDER BY ...]: the matching rows, sorted. *)
Definition findMany (cond : Row -> bool) (before : Row -> Row -> bool)
  : M (list Row) (list Row) :=
  fun tbl =>
    (tbl, Return (order_by before (List.filter cond tbl))).

(** [DELETE FROM t WHERE cond] *)
Definition delete (cond : Row -> bool) : M (list Row) unit :=
  fun tbl => (List.filter (fun r => negb (cond r)) tbl, Return tt).

Definition queries : TableQueries (list Row) Row :=
  {| db_findMany := findMany; db_select := select; db_delete := delete |}.

End Queries.

End Sql.

(** [a === b] on strings and on booleans, as [eq(column, value)] tests it. *)
Definition eq_str (a b : string) : bool := bool_decide (a = b).
Definition eq_bool (a b : bool) : bool := Bool.eqb a b.

(** [value ?? old]: a key absent from a partial object leaves the column. *)
Definition set_or_keep {A} (value : option A) (old : A) : A := default old value.

(** ** Project repository *)
Module ProjectRepo.

(** [ProjectRow]: the columns of table [projects]. Timestamps are text. *)
Record ProjectRow : Type := {
  row_id : string;
  row_workspaceId : string;
  row_userId : string;
  row_name : string;
  row_description : option string;
  row_color : option string;
  row_completionPercentage : Z;
  row_createdAt : string;
  row_updatedAt : string;
  row_deleted : bool;
}.

(** [Partial<ProjectRow>]: what [.set(...)] receives. *)
Record ProjectPatch : Type := {
  set_id : option string;
  set_workspaceId : option string;
  set_userId : option string;
  set_name : option string;
  set_description : option (option string);
  set_color : option (option string);
  set_completionPercentage : option Z;
  set_createdAt : option string;
  set_updatedAt : option string;
  set_deleted : option bool;
}.

(** The domain type [Project]. *)
Record Project : Type := {
  id : string;
  workspaceId : string;
  userId : string;
  name : string;
  description : option string;
  color : option string;
  completionPercentage : Z;
}.

(** [Omit<Project, 'id'>] *)
Record NewProject : Type := {
  new_workspaceId : string;
  new_userId : string;
  new_name : string;
  new_description : option string;
  new_color : option string;
  new_completionPercentage : Z;
}.

(** [Partial<Project>] *)
Record PartialProject : Type := {
  upd_id : option string;
  upd_workspaceId : option string;
  upd_userId : option string;
  upd_name : option string;
  upd_description : option (option string);
  upd_color : option (option string);
  upd_completionPercentage : option Z;
}.

(** [Omit<NewProjectRow, 'id'>] *)
Record InsertRow : Type := {
  ins_workspaceId : string;
  ins_userId : string;
  ins_name : string;
  ins_description : option string;
  ins_color : option string;
  ins_completionPercentage : Z;
  ins_createdAt : string;
  ins_updatedAt : string;
  ins_deleted : bool;
}.

Definition apply_patch (p : ProjectPatch) (r : ProjectRow) : ProjectRow :=
  {| row_id := set_or_keep (set_id p) (row_id r);
     row_workspaceId := set_or_keep (set_workspaceId p) (row_workspaceId r);
     row_userId := set_or_keep (set_userId p) (row_userId r);
     row_name := set_or_keep (set_name p) (row_name r);
     row_description := set_or_keep (set_description p) (row_description r);
     row_color := set_or_keep (set_color p) (row_color r);
     row_completionPercentage :=
       set_or_keep (set_completionPercentage p) (row_completionPercentage r);
     row_createdAt := set_or_keep (set_createdAt p) (row_createdAt r);
     row_updatedAt := set_or_keep (set_updatedAt p) (row_updatedAt r);
     row_deleted := set_or_keep (set_deleted p) (row_deleted r) |}.

(** The SQLite table behind the handle. *)
#[export] Instance sqlite : TableHandle (list ProjectRow) ProjectRow ProjectPatch :=
  Sql.handle "projects.id" row_id apply_patch.

(** *** Mappers. [now()] of [../db/utils] reads the clock; its reading is
    the argument [now]. *)

Definition toDomain (row : ProjectRow) : Project :=
  {| id := row_id row;
     workspaceId := row_workspaceId row;
     userId := row_userId row;
     name := row_name row;
     description := row_description row;
     color := row_color row;
     completionPercentage := row_completionPercentage row |}.

Definition toDbInsert (now : string) (project : NewProject) : InsertRow :=
  let timestamp := now in
  {| ins_workspaceId := new_workspaceId project;
     ins_userId := new_userId project;
     ins_name := new_name project;
     ins_description := new_description project;
     ins_color := new_color project;
     ins_completionPercentage := new_completionPercentage project;
     ins_createdAt := timestamp;
     ins_updatedAt := timestamp;
     ins_deleted := false |}.

Definition toDbUpdate (now : string) (project : PartialProject) : ProjectPatch :=
  {| set_id := upd_id project;
     set_workspaceId := upd_workspaceId project;
     set_userId := upd_userId project;
     set_name := upd_name project;
     set_description := upd_description project;
     set_color := upd_color project;
     set_completionPercentage := upd_completionPercentage project;
     set_createdAt := None;
     set_updatedAt := Some now;
     set_deleted := None |}.

(** [{ id, ...dbProject }] *)
Definition values (i : string) (dbProject : InsertRow) : ProjectRow :=
  {| row_id := i;
     row_workspaceId := ins_workspaceId dbProject;
     row_userId := ins_userId dbProject;
     row_name := ins_name dbProject;
     row_description := ins_description dbProject;
     row_color := ins_color dbProject;
     row_completionPercentage := ins_completionPercentage dbProject;
     row_createdAt := ins_createdAt dbProject;
     row_updatedAt := ins_updatedAt dbProject;
     row_deleted := ins_deleted dbProject |}.

(** [{ deleted: true, updatedAt: now() }] *)
Definition deleted_patch (now : string) : ProjectPatch :=
  {| set_id := None; set_workspaceId := None; set_userId := None;
     set_name := None; set_description := None; set_color := None;
     set_completionPercentage := None; set_createdAt := None;
     set_updatedAt := Some now; set_deleted := Some true |}.

(** *** Repository. [generateId()] of [../db/utils] is the argument
    [generatedId]. *)
Section Repository.
Context {DB : Type} {H : TableHandle DB ProjectRow ProjectPatch}.

Definition findById (i : string) : M DB (option Project) :=
  let* row := db_findFirst
                (fun r => eq_str (row_id r) i && eq_bool (row_deleted r) false) in
  ret (match row with Some row => Some (toDomain row) | None => None end).

Definition create (generatedId now : string) (project : NewProject)
  : M DB Project :=
  let i := generatedId in
  let dbProject := toDbInsert now project in
  do db_insert (values i dbProject) in
  let* created := findById i in
  match created with
  | None => throw (JsError "Failed to create project")
  | Some created => ret created
  end.

Definition update (now : string) (i : string) (updates : PartialProject)
  : M DB Project :=
  let dbUpdates := toDbUpdate now updates in
  do db_update dbUpdates
       (fun r => eq_str (row_id r) i && eq_bool (row_deleted r) false) in
  let* updated := findById i in
  match updated with
  | None => throw (JsError "Project not found or was deleted")
  | Some updated => ret updated
  end.

Definition delete (now : string) (i : string) : M DB unit :=
  db_update (deleted_patch now) (fun r => eq_str (row_id r) i).

End Repository.

#[export] Instance sqlite_queries : TableQueries (list ProjectRow) ProjectRow :=
  Sql.queries.

(** [desc(projects.createdAt)]: text compared byte by byte. *)
Definition desc_createdAt (a b : ProjectRow) : bool :=
  String.leb (row_createdAt b) (row_createdAt a).

Section Queries.
Context {DB : Type} {Q : TableQueries DB ProjectRow}.

Definition findByUserId (u : string) : M DB (list Project) :=
  let* rows := db_findMany
                 (fun r => eq_str (row_userId r) u && eq_bool (row_deleted r) false)
                 desc_createdAt in
  ret (map toDomain rows).

Definition findByWorkspaceId (w : string) : M DB (list Project) :=
  let* rows := db_findMany
                 (fun r => eq_str (row_workspaceId r) w && eq_bool (row_deleted r) false)
                 desc_createdAt in
  ret (map toDomain rows).

Definition count (u : string) : M DB nat :=
  let* result := db_select
                   (fun r => eq_str (row_userId r) u && eq_bool (row_deleted r) false) in
  ret (length result).

Definition countByWorkspace (w : string) : M DB nat :=
  let* result := db_select
                   (fun r => eq_str (row_workspaceId r) w && eq_bool (row_deleted r) false) in
  ret (length result).

End Queries.

(** *** Vocabulary of the specification *)

(** A direct query by id that ignores the [deleted] flag. *)
Definition selectById (i : string) (tbl : list ProjectRow) : option ProjectRow :=
  List.find (fun r => eq_str (row_id r) i) tbl.

(** [{ field: v }]: a partial update with a single key. *)
Inductive FieldUpdate : Type :=
| SetId (v : string)
| SetWorkspaceId (v : string)
| SetUserId (v : string)
| SetName (v : string)
| SetDescription (v : option string)
| SetColor (v : option string)
| SetCompletionPercentage (v : Z).

Definition no_updates : PartialProject :=
  {| upd_id := None; upd_workspaceId := None; upd_userId := None;
     upd_name := None; upd_description := None; upd_color := None;
     upd_completionPercentage := None |}.

Definition single (f : FieldUpdate) : PartialProject :=
  match f with
  | SetId v =>
      {| upd_id := Some v; upd_workspaceId := None; upd_userId := None;
         upd_name := None; upd_description := None; upd_color := None;
         upd_completionPercentage := None |}
  | SetWorkspaceId v =>
      {| upd_id := None; upd_workspaceId := Some v; upd_userId := None;
         upd_name := None; upd_description := None; upd_color := None;
         upd_completionPercentage := None |}
  | SetUserId v =>
      {| upd_id := None; upd_workspaceId := None; upd_userId := Some v;
         upd_name := None; upd_description := None; upd_color := None;
         upd_completionPercentage := None |}
  | SetName v =>
      {| upd_id := None; upd_workspaceId := None; upd_userId := None;
         upd_name := Some v; upd_description := None; upd_color := None;
         upd_completionPercentage := None |}
  | SetDescription v =>
      {| upd_id := None; upd_workspaceId := None; upd_userId := None;
         upd_name := None; upd_description := Some v; upd_color := None;
         upd_completionPercentage := None |}
  | SetColor v =>
      {| upd_id := None; upd_workspaceId := None; upd_userId := None;
         upd_name := None; upd_description := None; upd_color := Some v;
         upd_completionPercentage := None |}
  | SetCompletionPercentage v =>
      {| upd_id := None; upd_workspaceId := None; upd_userId := None;
         upd_name := None; upd_description := None; upd_color := None;
         upd_completionPercentage := Some v |}
  end.

(** The update names the key [id] and gives it a value other than [i]. *)
Definition renames (i : string) (f : FieldUpdate) : bool :=
  match f with
  | SetId v => negb (eq_str v i)
  | _ => false
  end.

(** The row [r] with the one field named by [f] replaced and every other
    column as it was. *)
Definition with_field (f : FieldUpdate) (r : ProjectRow) : ProjectRow :=
  match f with
  | SetId v =>
      {| row_id := v; row_workspaceId := row_workspaceId r;
         row_userId := row_userId r; row_name := row_name r;
         row_description := row_description r; row_color := row_color r;
         row_completionPercentage := row_completionPercentage r;
         row_createdAt := row_createdAt r; row_updatedAt := row_updatedAt r;
         row_deleted := row_deleted r |}
  | SetWorkspaceId v =>
      {| row_id := row_id r; row_workspaceId := v;
         row_userId := row_userId r; row_name := row_name r;
         row_description := row_description r; row_color := row_color r;
         row_completionPercentage := row_completionPercentage r;
         row_createdAt := row_createdAt r; row_updatedAt := row_updatedAt r;
         row_deleted := row_deleted r |}
  | SetUserId v =>
      {| row_id := row_id r; row_workspaceId := row_workspaceId r;
         row_userId := v; row_name := row_name r;
         row_description := row_description r; row_color := row_color r;
         row_completionPercentage := row_completionPercentage r;
         row_createdAt := row_createdAt r; row_updatedAt := row_updatedAt r;
         row_deleted := row_deleted r |}
  | SetName v =>
      {| row_id := row_id r; row_workspaceId := row_workspaceId r;
         row_userId := row_userId r; row_name := v;
         row_description := row_description r; row_color := row_color r;
         row_completionPercentage := row_completionPercentage r;
         row_createdAt := row_createdAt r; row_updatedAt := row_updatedAt r;
         row_deleted := row_deleted r |}
  | SetDescription v =>
      {| row_id := row_id r; row_workspaceId := row_workspaceId r;
         row_userId := row_userId r; row_name := row_name r;
         row_description := v; row_color := row_color r;
         row_completionPercentage := row_completionPercentage r;
         row_createdAt := row_createdAt r; row_updatedAt := row_updatedAt r;
         row_deleted := row_deleted r |}
  | SetColor v =>
      {| row_id := row_id r; row_workspaceId := row_workspaceId r;
         row_userId := row_userId r; row_name := row_name r;
         row_description := row_description r; row_color := v;
         row_completionPercentage := row_completionPercentage r;
         row_createdAt := row_createdAt r; row_updatedAt := row_updatedAt r;
         row_deleted := row_deleted r |}
  | SetCompletionPercentage v =>
      {| row_id := row_id r; row_workspaceId := row_workspaceId r;
         row_userId := row_userId r; row_name := row_name r;
         row_description := row_description r; row_color := row_color r;
         row_completionPercentage := v;
         row_createdAt := row_createdAt r; row_updatedAt := row_updatedAt r;
         row_deleted := row_deleted r |}
  end.

(** The row [r] with [updatedAt] restamped. *)
Definition restamped (now : string) (r : ProjectRow) : ProjectRow :=
  {| row_id := row_id r; row_workspaceId := row_workspaceId r;
     row_userId := row_userId r; row_name := row_name r;
     row_description := row_description r; row_color := row_color r;
     row_completionPercentage := row_completionPercentage r;
     row_createdAt := row_createdAt r; row_updatedAt := now;
     row_deleted := row_deleted r |}.

(** The row [r] flagged deleted, with [updatedAt] restamped. *)
Definition flagged (now : string) (r : ProjectRow) : ProjectRow :=
  {| row_id := row_id r; row_workspaceId := row_workspaceId r;
     row_userId := row_userId r; row_name := row_name r;
     row_description := row_description r; row_color := row_color r;
     row_completionPercentage := row_completionPercentage r;
     row_createdAt := row_createdAt r; row_updatedAt := now;
     row_deleted := true |}.

(** The domain object a [NewProject] becomes under the id [i]. *)
Definition as_project (i : string) (project : NewProject) : Project :=
  {| id := i;
     workspaceId := new_workspaceId project;
     userId := new_userId project;
     name := new_name project;
     description := new_description project;
     color := new_color project;
     completionPercentage := new_completionPercentage project |}.

End ProjectRepo.

(** ** Task type repository *)
Module TaskTypeRepo.

(** [TaskTypeRow]: the columns of table [task_types]. *)
Record TaskTypeRow : Type := {
  row_id : string;
  row_workspaceId : option string;
  row_userId : string;
  row_name : string;
  row_icon : option string;
  row_color : option string;
  row_isDefault : bool;
  row_displayOrder : Z;
  row_createdAt : string;
}.

(** [Partial<TaskTypeRow>] *)
Record TaskTypePatch : Type := {
  set_id : option string;
  set_workspaceId : option (option string);
  set_userId : option string;
  set_name : option string;
  set_icon : option (option string);
  set_color : option (option string);
  set_isDefault : option bool;
  set_displayOrder : option Z;
  set_createdAt : option string;
}.

(** The domain type [TaskType]. *)
Record TaskType : Type := {
  id : string;
  workspaceId : option string;
  userId : string;
  name : string;
  icon : option string;
  color : option string;
  isDefault : bool;
  displayOrder : Z;
}.

(** [Omit<TaskType, 'id'>] *)
Record NewTaskType : Type := {
  new_workspaceId : option string;
  new_userId : string;
  new_name : string;
  new_icon : option string;
  new_color : option string;
  new_isDefault : bool;
  new_displayOrder : Z;
}.

(** [Partial<TaskType>] *)
Record PartialTaskType : Type := {
  upd_id : option string;
  upd_workspaceId : option (option string);
  upd_userId : option string;
  upd_name : option string;
  upd_icon : option (option string);
  upd_color : option (option string);
  upd_isDefault : option bool;
  upd_displayOrder : option Z;
}.

(** [Omit<NewTaskTypeRow, 'id'>] *)
Record InsertRow : Type := {
  ins_workspaceId : option string;
  ins_userId : string;
  ins_name : string;
  ins_icon : option string;
  ins_color : option string;
  ins_isDefault : bool;
  ins_displayOrder : Z;
  ins_createdAt : string;
}.

Definition apply_patch (p : TaskTypePatch) (r : TaskTypeRow) : TaskTypeRow :=
  {| row_id := set_or_keep (set_id p) (row_id r);
     row_workspaceId := set_or_keep (set_workspaceId p) (row_workspaceId r);
     row_userId := set_or_keep (set_userId p) (row_userId r);
     row_name := set_or_keep (set_name p) (row_name r);
     row_icon := set_or_keep (set_icon p) (row_icon r);
     row_color := set_or_keep (set_color p) (row_color r);
     row_isDefault := set_or_keep (set_isDefault p) (row_isDefault r);
     row_displayOrder := set_or_keep (set_displayOrder p) (row_displayOrder r);
     row_createdAt := set_or_keep (set_createdAt p) (row_createdAt r) |}.

#[export] Instance sqlite : TableHandle (list TaskTypeRow) TaskTypeRow TaskTypePatch :=
  Sql.handle "task_types.id" row_id apply_patch.

(** *** Mappers *)

Definition toDomain (row : TaskTypeRow) : TaskType :=
  {| id := row_id row;
     workspaceId := row_workspaceId row;
     userId := row_userId row;
     name := row_name row;
     icon := row_icon row;
     color := row_color row;
     isDefault := row_isDefault row;
     displayOrder := row_displayOrder row |}.

Definition toDbInsert (now : string) (taskType : NewTaskType) : InsertRow :=
  {| ins_workspaceId := new_workspaceId taskType;
     ins_userId := new_userId taskType;
     ins_name := new_name taskType;
     ins_icon := new_icon taskType;
     ins_color := new_color taskType;
     ins_isDefault := new_isDefault taskType;
     ins_displayOrder := new_displayOrder taskType;
     ins_createdAt := now |}.

(** [return taskType;]: the same object, read as a partial row. *)
Definition toDbUpdate (taskType : PartialTaskType) : TaskTypePatch :=
  {| set_id := upd_id taskType;
     set_workspaceId := upd_workspaceId taskType;
     set_userId := upd_userId taskType;
     set_name := upd_name taskType;
     set_icon := upd_icon taskType;
     set_color := upd_color taskType;
     set_isDefault := upd_isDefault taskType;
     set_displayOrder := upd_displayOrder taskType;
     set_createdAt := None |}.

(** [{ isDefault: b }] *)
Definition isDefault_patch (b : bool) : TaskTypePatch :=
  {| set_id := None; set_workspaceId := None; set_userId := None;
     set_name := None; set_icon := None; set_color := None;
     set_isDefault := Some b; set_displayOrder := None;
     set_createdAt := None |}.

(** *** Repository *)
Section Repository.
Context {DB : Type} {H : TableHandle DB TaskTypeRow TaskTypePatch}.

Definition findById (i : string) : M DB (option TaskType) :=
  let* row := db_findFirst (fun r => eq_str (row_id r) i) in
  ret (match row with Some row => Some (toDomain row) | None => None end).

Definition findDefault (u : string) : M DB (option TaskType) :=
  let* row := db_findFirst
                (fun r => eq_str (row_userId r) u && eq_bool (row_isDefault r) true) in
  ret (match row with Some row => Some (toDomain row) | None => None end).

Definition setDefault (u : string) (taskTypeId : string) : M DB unit :=
  (* Unset all defaults for user *)
  do db_update (isDefault_patch false) (fun r => eq_str (row_userId r) u) in
  (* Set the new default *)
  db_update (isDefault_patch true) (fun r => eq_str (row_id r) taskTypeId).

End Repository.

#[export] Instance sqlite_queries : TableQueries (list TaskTypeRow) TaskTypeRow :=
  Sql.queries.

(** [{ displayOrder: i }] *)
Definition displayOrder_patch (i : Z) : TaskTypePatch :=
  {| set_id := None; set_workspaceId := None; set_userId := None;
     set_name := None; set_icon := None; set_color := None;
     set_isDefault := None; set_displayOrder := Some i;
     set_createdAt := None |}.

(** No key of the partial row is defined. *)
Definition no_values (p : TaskTypePatch) : bool :=
  match p with
  | {| set_id := None; set_workspaceId := None; set_userId := None;
       set_name := None; set_icon := None; set_color := None;
       set_isDefault := None; set_displayOrder := None;
       set_createdAt := None |} => true
  | _ => false
  end.

(** [[asc(taskTypes.displayOrder), asc(taskTypes.name)]] *)
Definition asc_displayOrder_name (a b : TaskTypeRow) : bool :=
  Z.ltb (row_displayOrder a) (row_displayOrder b)
  || (Z.eqb (row_displayOrder a) (row_displayOrder b)
      && String.leb (row_name a) (row_name b)).

(** JavaScript truthiness of an optional string: [undefined] and [""] are
    falsy. *)
Definition truthy_string (s : option string) : option string :=
  match s with
  | Some "" => None
  | Some s => Some s
  | None => None
  end.

(** [isNull(column)] and [eq(column, value)] on a nullable column: a null
    column is equal to nothing. *)
Definition isNull {A} (column : option A) : bool :=
  match column with None => true | Some _ => false end.
Definition eq_nullable (column : option string) (value : string) : bool :=
  match column with Some c => eq_str c value | None => false end.

Section Queries.
Context {DB : Type} {H : TableHandle DB TaskTypeRow TaskTypePatch}
        {Q : TableQueries DB TaskTypeRow}.

(** The [where] of [findByUser]. *)
Definition findByUser_conditions (u : string) (workspaceId : option string)
  : TaskTypeRow -> bool :=
  match truthy_string workspaceId with
  | Some w =>
      fun r => (eq_str (row_userId r) u && isNull (row_workspaceId r))
               || eq_nullable (row_workspaceId r) w
  | None =>
      fun r => eq_str (row_userId r) u && isNull (row_workspaceId r)
  end.

Definition findByUser (u : string) (workspaceId : option string)
  : M DB (list TaskType) :=
  let conditions := findByUser_conditions u workspaceId in
  let* rows := db_findMany conditions asc_displayOrder_name in
  ret (map toDomain rows).

Definition findByWorkspace (w : string) : M DB (list TaskType) :=
  let* rows := db_findMany (fun r => eq_nullable (row_workspaceId r) w)
                 asc_displayOrder_name in
  ret (map toDomain rows).

(** [{ id, ...dbTaskType }] *)
Definition values (i : string) (dbTaskType : InsertRow) : TaskTypeRow :=
  {| row_id := i;
     row_workspaceId := ins_workspaceId dbTaskType;
     row_userId := ins_userId dbTaskType;
     row_name := ins_name dbTaskType;
     row_icon := ins_icon dbTaskType;
     row_color := ins_color dbTaskType;
     row_isDefault := ins_isDefault dbTaskType;
     row_displayOrder := ins_displayOrder dbTaskType;
     row_createdAt := ins_createdAt dbTaskType |}.

Definition create (generatedId now : string) (taskType : NewTaskType)
  : M DB TaskType :=
  let i := generatedId in
  let dbTaskType := toDbInsert now taskType in
  do db_insert (values i dbTaskType) in
  let* created := findById i in
  match created with
  | None => throw (JsError "Failed to create task type")
  | Some created => ret created
  end.

(** [db.update(t).set(values).where(cond)] with values that may hold no
    key: the query builder throws before any statement is run. *)
Definition set_where (values : TaskTypePatch) (cond : TaskTypeRow -> bool)
  : M DB unit :=
  if no_values values
  then throw (JsError "No values to set")
  else db_update values cond.

Definition update (i : string) (updates : PartialTaskType) : M DB TaskType :=
  let dbUpdates := toDbUpdate updates in
  do set_where dbUpdates (fun r => eq_str (row_id r) i) in
  let* updated := findById i in
  match updated with
  | None => throw (JsError "Task type not found")
  | Some updated => ret updated
  end.

Definition delete (i : string) : M DB unit :=
  db_delete (fun r => eq_str (row_id r) i).

(** The loop of [reorder] from index [i] on. *)
Fixpoint reorder_from (i : Z) (taskTypeIds : list string) : M DB unit :=
  match taskTypeIds with
  | [] => ret tt
  | taskTypeId :: rest =>
      do db_update (displayOrder_patch i)
           (fun r => eq_str (row_id r) taskTypeId) in
      reorder_from (i + 1) rest
  end.

Definition reorder (taskTypeIds : list string) : M DB unit :=
  reorder_from 0 taskTypeIds.

End Queries.

(** The task types of user [u] flagged as default, in table order. *)
Definition defaults_of (u : string) (tbl : list TaskTypeRow) : list TaskTypeRow :=
  filter (fun r => row_userId r = u ∧ row_isDefault r = true) tbl.

(** *** Vocabulary of the specification *)

(** The row [r] with [isDefault] replaced. *)
Definition with_isDefault (b : bool) (r : TaskTypeRow) : TaskTypeRow :=
  {| row_id := row_id r; row_workspaceId := row_workspaceId r;
     row_userId := row_userId r; row_name := row_name r;
     row_icon := row_icon r; row_color := row_color r;
     row_isDefault := b; row_displayOrder := row_displayOrder r;
     row_createdAt := row_createdAt r |}.

(** What the two statements of [setDefault u t] make of a row: flagged when
    its id is [t], unflagged when it is another row of [u], else as it was. *)
Definition marked (u t : string) (r : TaskTypeRow) : TaskTypeRow :=
  if eq_str (row_id r) t then with_isDefault true r
  else if eq_str (row_userId r) u then with_isDefault false r
  else r.

(** The row [r] with [displayOrder] replaced. *)
Definition with_displayOrder (n : Z) (r : TaskTypeRow) : TaskTypeRow :=
  {| row_id := row_id r; row_workspaceId := row_workspaceId r;
     row_userId := row_userId r; row_name := row_name r;
     row_icon := row_icon r; row_color := row_color r;
     row_isDefault := row_isDefault r; row_displayOrder := n;
     row_createdAt := row_createdAt r |}.

(** The last position at which [i] occurs in [ids], counted from 0. *)
Fixpoint last_index (i : string) (ids : list string) : option nat :=
  match ids with
  | [] => None
  | x :: rest =>
      match last_index i rest with
      | Some n => Some (S n)
      | None => if eq_str x i then Some 0%nat else None
      end
  end.

(** What [reorder ids] makes of a row: its [displayOrder] becomes the last
    position of its id in [ids]; a row whose id is not listed is as it was. *)
Definition reordered (ids : list string) (r : TaskTypeRow) : TaskTypeRow :=
  match last_index (row_id r) ids with
  | Some n => with_displayOrder (Z.of_nat n) r
  | None => r
  end.

(** The domain object a [NewTaskType] becomes under the id [i]. *)
Definition as_taskType (i : string) (taskType : NewTaskType) : TaskType :=
  {| id := i;
     workspaceId := new_workspaceId taskType;
     userId := new_userId taskType;
     name := new_name taskType;
     icon := new_icon taskType;
     color := new_color taskType;
     isDefault := new_isDefault taskType;
     displayOrder := new_displayOrder taskType |}.

(** [{}]: a partial task type with no key. *)
Definition no_updates : PartialTaskType :=
  {| upd_id := None; upd_workspaceId := None; upd_userId := None;
     upd_name := None; upd_icon := None; upd_color := None;
     upd_isDefault := None; upd_displayOrder := None |}.

End TaskTypeRepo.

(** * The mappers as calls
    A mapper as the source runs it: in a state of the program and of its
    surroundings (the clock, the database, the network, the console), here
    [World]. A call leaves a world and returns or throws. [now()] is
    imported from [../db/utils], which is not among the sources: it is any
    call on the world that yields a string. *)
Module ProjectMappers.
Section Calls.
Variable World : Type.
Variable now : M World string.

Definition toDomain (row : ProjectRepo.ProjectRow) : M World ProjectRepo.Project :=
  ret (ProjectRepo.toDomain row).

Definition toDbInsert (project : ProjectRepo.NewProject)
  : M World ProjectRepo.InsertRow :=
  let* timestamp := now in
  ret (ProjectRepo.toDbInsert timestamp project).

Definition toDbUpdate (project : ProjectRepo.PartialProject)
  : M World ProjectRepo.ProjectPatch :=
  let* updatedAt := now in
  ret (ProjectRepo.toDbUpdate updatedAt project).

End Calls.
End ProjectMappers.

Module TaskTypeMappers.
Section Calls.
Variable World : Type.
Variable now : M World string.

Definition toDomain (row : TaskTypeRepo.TaskTypeRow) : M World TaskTypeRepo.TaskType :=
  ret (TaskTypeRepo.toDomain row).

Definition toDbInsert (taskType : TaskTypeRepo.NewTaskType)
  : M World TaskTypeRepo.InsertRow :=
  let* createdAt := now in
  ret (TaskTypeRepo.toDbInsert createdAt taskType).

Definition toDbUpdate (taskType : TaskTypeRepo.PartialTaskType)
  : M World TaskTypeRepo.TaskTypePatch :=
  ret (TaskTypeRepo.toDbUpdate taskType).

End Calls.
End TaskTypeMappers.

(** ** Sample data *)
Module Sample.

Definition alice : SupabaseSession :=
  {| user := {| su_id := "u1"; su_email := Some "alice@example.org";
                su_user_metadata := Some {[ "first_name" := "Alice" ]} |};
     access_token := "jwt-1";
     refresh_token := Some "r-1";
     expires_at := Some 1700000000 |}.

(** An auth backend that answers every call with the response it holds. *)
Definition replying (c : Auth.SignInCredentials) (b : AuthResponse)
  : AuthResponse * AuthResponse := (b, b).

Definition session_of (b : AuthResponse) : AuthResponse * AuthResponse := (b, b).

(** A remote store that logs the calls it accepts and refuses every delete. *)
Definition no_delete (c : Connector.RemoteCall) (r : list Connector.RemoteCall)
  : list Connector.RemoteCall * option Exn :=
  match c with
  | Connector.Delete _ _ _ => (r, Some (PostgrestError "permission denied"))
  | _ => (r ++ [c], None)
  end.

(** A remote store that accepts and logs every call. *)
Definition permissive (c : Connector.RemoteCall) (r : list Connector.RemoteCall)
  : list Connector.RemoteCall * option Exn :=
  (r ++ [c], None).

(** A sync engine whose local database is the queue of pending batches. *)
Definition next_batch : M (list Connector.CrudTransaction)
                          (option Connector.CrudTransaction) :=
  fun q => (q, Return (head q)).

Definition pop_batch (t : Connector.CrudTransaction)
  : M (list Connector.CrudTransaction) unit :=
  fun q => (tail q, Return tt).

Definition create_A : Connector.CrudEntry :=
  {| Connector.op := Connector.PUT; Connector.table := "projects";
     Connector.id := "A"; Connector.opData := Some {[ "name" := "Alpha" ]} |}.
Definition update_A : Connector.CrudEntry :=
  {| Connector.op := Connector.PATCH; Connector.table := "projects";
     Connector.id := "A"; Connector.opData := Some {[ "name" := "Beta" ]} |}.
Definition delete_A : Connector.CrudEntry :=
  {| Connector.op := Connector.DELETE; Connector.table := "projects";
     Connector.id := "A"; Connector.opData := None |}.

Definition batch_A : Connector.CrudTransaction :=
  {| Connector.crud := [create_A; update_A; delete_A];
     Connector.transactionId := Some 1 |}.

Definition world_A : Connector.World (list Connector.RemoteCall)
                       (list Connector.CrudTransaction) :=
  {| Connector.remote := []; Connector.local := [batch_A];
     Connector.trace := [] |}.

(** Two projects of one user, and the input of the repository tests. *)
Definition p1 : ProjectRepo.ProjectRow :=
  {| ProjectRepo.row_id := "p1"; ProjectRepo.row_workspaceId := "workspace_1";
     ProjectRepo.row_userId := "user_1"; ProjectRepo.row_name := "Test Project";
     ProjectRepo.row_description := None; ProjectRepo.row_color := None;
     ProjectRepo.row_completionPercentage := 0;
     ProjectRepo.row_createdAt := "2024-01-01T00:00:00.000Z";
     ProjectRepo.row_updatedAt := "2024-01-01T00:00:00.000Z";
     ProjectRepo.row_deleted := false |}.

Definition p2 : ProjectRepo.ProjectRow :=
  {| ProjectRepo.row_id := "p2"; ProjectRepo.row_workspaceId := "workspace_1";
     ProjectRepo.row_userId := "user_1"; ProjectRepo.row_name := "Other";
     ProjectRepo.row_description := Some "second"; ProjectRepo.row_color := None;
     ProjectRepo.row_completionPercentage := 40;
     ProjectRepo.row_createdAt := "2024-01-02T00:00:00.000Z";
     ProjectRepo.row_updatedAt := "2024-01-02T00:00:00.000Z";
     ProjectRepo.row_deleted := false |}.

Definition test_project : ProjectRepo.NewProject :=
  {| ProjectRepo.new_workspaceId := "workspace_1";
     ProjectRepo.new_userId := "user_1";
     ProjectRepo.new_name := "Test Project";
     ProjectRepo.new_description := None; ProjectRepo.new_color := None;
     ProjectRepo.new_completionPercentage := 0 |}.

(** A handle whose inserts do not reach the table the reads see. *)
Definition detached
  : TableHandle (list ProjectRepo.ProjectRow) ProjectRepo.ProjectRow
      ProjectRepo.ProjectPatch :=
  {| db_insert := fun _ => ret tt;
     db_update := Sql.update "projects.id" ProjectRepo.row_id ProjectRepo.apply_patch;
     db_findFirst := Sql.findFirst |}.

(** Task types of two users: ["ua"] owns [a1] (default) and [a2], ["ub"]
    owns [b1] (default) and [b2]. *)
Definition task_type (i u : string) (d : bool) : TaskTypeRepo.TaskTypeRow :=
  {| TaskTypeRepo.row_id := i; TaskTypeRepo.row_workspaceId := None;
     TaskTypeRepo.row_userId := u; TaskTypeRepo.row_name := i;
     TaskTypeRepo.row_icon := None; TaskTypeRepo.row_color := None;
     TaskTypeRepo.row_isDefault := d; TaskTypeRepo.row_displayOrder := 0;
     TaskTypeRepo.row_createdAt := "2024-01-01T00:00:00.000Z" |}.

Definition a1 := task_type "a1" "ua" true.
Definition a2 := task_type "a2" "ua" false.
Definition b1 := task_type "b1" "ub" true.
Definition b2 := task_type "b2" "ub" false.
Definition task_types : list TaskTypeRepo.TaskTypeRow := [a1; a2; b1; b2].

(** An engine with nothing pending, and one whose completion fails. *)
Definition world_idle : Connector.World (list Connector.RemoteCall)
                          (list Connector.CrudTransaction) :=
  {| Connector.remote := []; Connector.local := []; Connector.trace := [] |}.

Definition stuck_batch (t : Connector.CrudTransaction)
  : M (list Connector.CrudTransaction) unit :=
  fun q => (q, Throw (EngineError "database is locked")).

(** A create whose queued record carries an id of its own. *)
Definition create_B : Connector.CrudEntry :=
  {| Connector.op := Connector.PUT; Connector.table := "projects";
     Connector.id := "B";
     Connector.opData := Some {[ "id" := "stale"; "name" := "Beta" ]} |}.

(** A workspace task type of ["ub"], and a new personal one for ["ua"]. *)
Definition w1 : TaskTypeRepo.TaskTypeRow :=
  {| TaskTypeRepo.row_id := "w1"; TaskTypeRepo.row_workspaceId := Some "workspace_1";
     TaskTypeRepo.row_userId := "ub"; TaskTypeRepo.row_name := "Review";
     TaskTypeRepo.row_icon := None; TaskTypeRepo.row_color := None;
     TaskTypeRepo.row_isDefault := false; TaskTypeRepo.row_displayOrder := 0;
     TaskTypeRepo.row_createdAt := "2024-01-01T00:00:00.000Z" |}.

Definition new_default : TaskTypeRepo.NewTaskType :=
  {| TaskTypeRepo.new_workspaceId := None; TaskTypeRepo.new_userId := "ua";
     TaskTypeRepo.new_name := "Bug"; TaskTypeRepo.new_icon := None;
     TaskTypeRepo.new_color := None; TaskTypeRepo.new_isDefault := true;
     TaskTypeRepo.new_displayOrder := 2 |}.

(** A world made of a clock and a projects table. The clock is the list of
    the readings it will give; [now()] takes the next one. *)
Definition ticking
  : M (list string * list ProjectRepo.ProjectRow) string :=
  fun w => match w.1 with
           | reading :: later => ((later, w.2), Return reading)
           | [] => (w, Throw (JsError "clock stopped"))
           end.

End Sample.

(** * Properties *)

(** ** Auth provider *)
Module AuthProps.
Import Auth.

Section Provider.
Variable Backend : Type.
Variable signInWithPassword : SignInCredentials -> Backend -> Backend * AuthResponse.

Lemma signIn_runs_backend_once credentials b :
  (signIn Backend signInWithPassword credentials b).1
  = (signInWithPassword {| email := email credentials;
                           password := password credentials |} b).1.
Proof.
  unfold signIn, bind, answer.
  destruct (signInWithPassword _ b) as [b' r]; simpl.
  destruct (error r); [reflexivity|].
  destruct (data_session r); reflexivity.
Qed.

(** C7. [signIn] throws in exactly two cases: the backend answers with an
    error (that error is thrown), or it answers without error and without
    session (a "No session returned" error is thrown). In the only other
    case it returns the mapped session; the result is never null. *)
Theorem signIn_fails_in_exactly_two_cases credentials b :
  let r := (signInWithPassword {| email := email credentials;
                                  password := password credentials |} b).2 in
  let out := (signIn Backend signInWithPassword credentials b).2 in
  (exists e, error r = Some e /\ out = Throw e)
  \/ (error r = None /\ data_session r = None
      /\ out = Throw (JsError "No session returned"))
  \/ (exists session, error r = None /\ data_session r = Some session
      /\ out = Return (mapSession session)).
Proof.
  unfold signIn, bind, answer.
  destruct (signInWithPassword _ b) as [b' r]; simpl.
  destruct (error r) as [e|] eqn:He.
  - left. exists e. split; reflexivity.
  - destruct (data_session r) as [session|] eqn:Hs.
    + right; right. exists session. repeat split; reflexivity.
    + right; left. repeat split; reflexivity.
Qed.

End Provider.

Example signIn_backend_error :
  signIn _ Sample.replying {| email := "a"; password := "b" |}
    {| data_session := None; error := Some (AuthError "Invalid login credentials") |}
  = ({| data_session := None; error := Some (AuthError "Invalid login credentials") |},
     Throw (AuthError "Invalid login credentials")).
Proof. reflexivity. Qed.

Example signIn_no_session :
  (signIn _ Sample.replying {| email := "a"; password := "b" |}
     {| data_session := None; error := None |}).2
  = Throw (JsError "No session returned").
Proof. reflexivity. Qed.

Example signIn_session :
  (signIn _ Sample.replying {| email := "a"; password := "b" |}
     {| data_session := Some Sample.alice; error := None |}).2
  = Return {| session_user :=
                {| id := "u1"; user_email := Some "alice@example.org";
                   firstName := Some "Alice"; lastName := None;
                   avatarUrl := None; timezone := "" |};
              accessToken := "jwt-1"; refreshToken := Some "r-1";
              expiresAt := Some (Instant 1700000000000) |}.
Proof. vm_compute. reflexivity. Qed.

End AuthProps.

(** ** Sync connector *)
Module ConnectorProps.
Import Connector.

Section Credentials.
Variable powersyncUrl : string.
Variable Auth : Type.
Variable getSession : Auth -> Auth * AuthResponse.

(** C6. [fetchCredentials] returns null, and does not throw, when the
    session lookup answers without error and without session; with a session
    it returns a credential whose token is the session's access token; and
    when the lookup answers with an error, that error is thrown. *)
Theorem fetchCredentials_outcome auth :
  let r := (getSession auth).2 in
  let out := (fetchCredentials powersyncUrl Auth getSession auth).2 in
  (exists e, error r = Some e /\ out = Throw e)
  \/ (error r = None /\ data_session r = None /\ out = Return None)
  \/ (exists session c,
        error r = None /\ data_session r = Some session
        /\ out = Return (Some c)
        /\ token c = access_token session
        /\ endpoint c = powersyncUrl
        /\ expiresAt c = date_of_epoch_seconds (expires_at session)).
Proof.
  unfold fetchCredentials, bind, answer.
  destruct (getSession auth) as [auth' r]; simpl.
  destruct (error r) as [e|] eqn:He.
  - left. exists e. split; reflexivity.
  - destruct (data_session r) as [session|] eqn:Hs.
    + right; right. eexists session, _. repeat split; reflexivity.
    + right; left. repeat split; reflexivity.
Qed.

End Credentials.

Example fetchCredentials_signed_out :
  fetchCredentials "https://sync.example" _ Sample.session_of
    {| data_session := None; error := None |}
  = ({| data_session := None; error := None |}, Return None).
Proof. reflexivity. Qed.

Example fetchCredentials_signed_in :
  (fetchCredentials "https://sync.example" _ Sample.session_of
     {| data_session := Some Sample.alice; error := None |}).2
  = Return (Some {| endpoint := "https://sync.example"; token := "jwt-1";
                    expiresAt := Some (Instant 1700000000000) |}).
Proof. reflexivity. Qed.

Example fetchCredentials_lookup_error :
  (fetchCredentials "https://sync.example" _ Sample.session_of
     {| data_session := None; error := Some (AuthError "network") |}).2
  = Throw (AuthError "network").
Proof. reflexivity. Qed.

Section Upload.
Variable Remote : Type.
Variable remote_exec : RemoteCall -> Remote -> Remote * option Exn.
Variable Local : Type.
Variable getNextCrudTransaction : M Local (option CrudTransaction).
Variable complete : CrudTransaction -> M Local unit.

#[local] Abbreviation World := (World Remote Local).
#[local] Abbreviation upload_op := (upload_op Remote remote_exec Local).
#[local] Abbreviation uploadData :=
  (uploadData Remote remote_exec Local getNextCrudTransaction complete).
#[local] Abbreviation accepted := (accepted Remote remote_exec).
#[local] Abbreviation call := (call Remote remote_exec Local).

(** Each operation is one remote call: create is an upsert keyed by id,
    update a patch of the row with that id, delete a delete of that row. *)
Lemma upload_op_call (o : CrudEntry) :
  upload_op o = (let* error := call (remote_call o) in throw_if Remote Local error).
Proof. unfold Connector.upload_op, remote_call. destruct (op o); reflexivity. Qed.

Lemma remote_call_PUT t i d :
  remote_call {| op := PUT; table := t; id := i; opData := d |}
  = Upsert t (<["id" := i]> (default ∅ d)) "id".
Proof. reflexivity. Qed.

Lemma remote_call_PATCH t i d :
  remote_call {| op := PATCH; table := t; id := i; opData := d |}
  = Update t d "id" i.
Proof. reflexivity. Qed.

Lemma remote_call_DELETE t i d :
  remote_call {| op := DELETE; table := t; id := i; opData := d |}
  = Delete t "id" i.
Proof. reflexivity. Qed.

Lemma upload_op_ok (o : CrudEntry) (w : World) r :
  remote_exec (remote_call o) (remote w) = (r, None) ->
  upload_op o w
  = ({| remote := r; local := local w;
        trace := trace w ++ [Called (remote_call o)] |}, Return tt).
Proof.
  intros Hex. rewrite upload_op_call.
  unfold bind, Connector.call, answer. rewrite Hex. reflexivity.
Qed.

Lemma upload_op_error (o : CrudEntry) (w : World) r e :
  remote_exec (remote_call o) (remote w) = (r, Some e) ->
  upload_op o w
  = ({| remote := r; local := local w;
        trace := trace w ++ [Called (remote_call o)] |}, Throw e).
Proof.
  intros Hex. rewrite upload_op_call.
  unfold bind, Connector.call, answer. rewrite Hex. reflexivity.
Qed.

(** The loop on a batch the remote store accepts: every call is made, in
    the order of the batch. *)
Lemma for_of_accepted (ops : list CrudEntry) : forall (w : World) r',
  accepted (remote_calls ops) (remote w) r' ->
  for_of ops upload_op w
  = ({| remote := r'; local := local w;
        trace := trace w ++ map Called (remote_calls ops) |}, Return tt).
Proof.
  induction ops as [|o ops IH]; intros w r' Hacc; simpl in *.
  - inversion Hacc; subst. destruct w; simpl. rewrite app_nil_r. reflexivity.
  - inversion Hacc as [|c cs r0 r1 r2 Hex Hrest]; subst.
    unfold bind. rewrite (upload_op_ok _ _ _ Hex).
    rewrite (IH {| remote := r1; local := local w;
                   trace := trace w ++ [Called (remote_call o)] |} r' Hrest).
    simpl.
    rewrite <- app_assoc. reflexivity.
Qed.

(** The loop stops at the first call the remote store refuses. *)
Lemma for_of_refused (pre : list CrudEntry) o post : forall (w : World) r1 r2 e,
  accepted (remote_calls pre) (remote w) r1 ->
  remote_exec (remote_call o) r1 = (r2, Some e) ->
  for_of (pre ++ o :: post) upload_op w
  = ({| remote := r2; local := local w;
        trace := trace w ++ map Called (remote_calls (pre ++ [o])) |}, Throw e).
Proof.
  induction pre as [|p pre IH]; intros w r1 r2 e Hacc Hex; simpl in *.
  - inversion Hacc; subst.
    unfold bind. rewrite (upload_op_error _ _ _ _ Hex). reflexivity.
  - inversion Hacc as [|c cs r0 r1' r2' Hex1 Hrest]; subst.
    unfold bind. rewrite (upload_op_ok _ _ _ Hex1).
    rewrite (IH {| remote := r1'; local := local w;
                   trace := trace w ++ [Called (remote_call p)] |}
                r1 r2 e Hrest Hex).
    simpl.
    rewrite <- app_assoc. reflexivity.
Qed.

Lemma uploadData_no_batch (w : World) l :
  getNextCrudTransaction (local w) = (l, Return None) ->
  uploadData w = ({| remote := remote w; local := l; trace := trace w |}, Return tt).
Proof.
  intros Hnext. unfold Connector.uploadData, bind, on_local.
  rewrite Hnext. reflexivity.
Qed.

(** C1. For a pending batch [t] handed to [uploadData]:
    - when the remote store accepts every call, the calls made are exactly
      the batch's operations in their original order (create as upsert by
      id, update as patch by id, delete as delete by id) and the batch is
      then completed;
    - when the remote store refuses the call of some operation, the calls
      made are those of the operations up to and including that one, in
      order; [complete] is not called (no completion is observed and the
      engine's local state stays as reading the batch left it), the error
      is logged and thrown again to the caller;
    - the call of an operation is an upsert of the record with its id,
      on conflict of [id], for a create; a patch of the row of that id for
      an update; a delete of the row of that id for a delete. *)
Theorem uploadData_replays_in_order_or_aborts (w : World) l (t : CrudTransaction) :
  getNextCrudTransaction (local w) = (l, Return (Some t)) ->
  (forall r' l',
      accepted (remote_calls (crud t)) (remote w) r' ->
      complete t l = (l', Return tt) ->
      uploadData w
      = ({| remote := r'; local := l';
            trace := trace w ++ map Called (remote_calls (crud t))
                             ++ [Completed t] |}, Return tt))
  /\ (forall pre o post r1 r2 e,
      crud t = pre ++ o :: post ->
      accepted (remote_calls pre) (remote w) r1 ->
      remote_exec (remote_call o) r1 = (r2, Some e) ->
      let w' := (uploadData w).1 in
      uploadData w
      = ({| remote := r2; local := l;
            trace := trace w ++ map Called (remote_calls (pre ++ [o]))
                             ++ [ConsoleError "Upload failed, will retry:" e] |},
         Throw e)
      /\ local w' = l
      /\ (forall t', Completed t' ∈ trace w' -> Completed t' ∈ trace w))
  /\ (forall tb i d,
      remote_call {| op := PUT; table := tb; id := i; opData := d |}
      = Upsert tb (<["id" := i]> (default ∅ d)) "id"
      /\ remote_call {| op := PATCH; table := tb; id := i; opData := d |}
         = Update tb d "id" i
      /\ remote_call {| op := DELETE; table := tb; id := i; opData := d |}
         = Delete tb "id" i).
Proof.
  intros Hnext. split; [|split].
  3: { intros tb i d. split; [apply remote_call_PUT|].
       split; [apply remote_call_PATCH|apply remote_call_DELETE]. }
  - intros r' l' Hacc Hdone.
    unfold Connector.uploadData, bind, on_local, try_catch. rewrite Hnext.
    set (w1 := {| remote := remote w; local := l; trace := trace w |}).
    rewrite (for_of_accepted (crud t) w1 r' Hacc).
    unfold transaction_complete; simpl. rewrite Hdone.
    rewrite <- app_assoc. reflexivity.
  - intros pre o post r1 r2 e Hcrud Hacc Hex.
    assert (Hrun : uploadData w
      = ({| remote := r2; local := l;
            trace := trace w ++ map Called (remote_calls (pre ++ [o]))
                             ++ [ConsoleError "Upload failed, will retry:" e] |},
         Throw e)).
    { unfold Connector.uploadData, bind, on_local, try_catch. rewrite Hnext.
      set (w1 := {| remote := remote w; local := l; trace := trace w |}).
      rewrite Hcrud.
      rewrite (for_of_refused pre o post w1 r1 r2 e Hacc Hex).
      unfold console_error, throw; simpl.
      rewrite <- app_assoc. reflexivity. }
    simpl. rewrite Hrun. simpl. split; [reflexivity|]. split; [reflexivity|].
    intros t' Hin.
    apply elem_of_app in Hin as [Hin|Hin]; [exact Hin|].
    apply elem_of_app in Hin as [Hin|Hin].
    + apply list_elem_of_fmap in Hin as (c & Hc & _). discriminate Hc.
    + apply list_elem_of_singleton in Hin. discriminate Hin.
Qed.

End Upload.

(** At the batch [create A; update A; delete A] with the delete refused:
    the upload throws the remote error and leaves the queue as it was. *)
Lemma uploadData_replays_in_order_or_aborts_witness :
  let run := Connector.uploadData _ Sample.no_delete _ Sample.next_batch
               Sample.pop_batch Sample.world_A in
  run.2 = Throw (PostgrestError "permission denied")
  /\ local run.1 = [Sample.batch_A]
  /\ (forall t', Completed t' ∈ trace run.1 -> Completed t' ∈ []).
Proof.
  destruct (uploadData_replays_in_order_or_aborts
              _ Sample.no_delete _ Sample.next_batch Sample.pop_batch
              Sample.world_A [Sample.batch_A] Sample.batch_A eq_refl)
    as (_ & Hfail & _).
  destruct (Hfail [Sample.create_A; Sample.update_A] Sample.delete_A []
              [Upsert "projects" (<["id" := "A"]> {[ "name" := "Alpha" ]}) "id";
               Update "projects" (Some {[ "name" := "Beta" ]}) "id" "A"]
              [Upsert "projects" (<["id" := "A"]> {[ "name" := "Alpha" ]}) "id";
               Update "projects" (Some {[ "name" := "Beta" ]}) "id" "A"]
              (PostgrestError "permission denied") eq_refl)
    as (Hrun & Hlocal & Hcompl).
  - eapply accepted_cons; [reflexivity|].
    eapply accepted_cons; [reflexivity|].
    apply accepted_nil.
  - reflexivity.
  - simpl. split; [|split].
    + exact (f_equal snd Hrun).
    + exact Hlocal.
    + exact Hcompl.
Defined.

(** The batch [create A; update A; delete A] against a remote store that
    refuses deletes: three calls in order, no completion, the error thrown,
    and the batch still first in the queue. *)
Example uploadData_create_update_delete_refused :
  Connector.uploadData _ Sample.no_delete _ Sample.next_batch Sample.pop_batch
    Sample.world_A
  = ({| remote := [Upsert "projects" {[ "id" := "A"; "name" := "Alpha" ]} "id";
                   Update "projects" (Some {[ "name" := "Beta" ]}) "id" "A"];
        local := [Sample.batch_A];
        trace := [Called (Upsert "projects" {[ "id" := "A"; "name" := "Alpha" ]} "id");
                  Called (Update "projects" (Some {[ "name" := "Beta" ]}) "id" "A");
                  Called (Delete "projects" "id" "A");
                  ConsoleError "Upload failed, will retry:"
                    (PostgrestError "permission denied")] |},
     Throw (PostgrestError "permission denied")).
Proof. vm_compute. reflexivity. Qed.

Example uploadData_create_update_delete_accepted :
  (Connector.uploadData _ Sample.permissive _ Sample.next_batch Sample.pop_batch
     Sample.world_A).2 = Return tt
  /\ local (Connector.uploadData _ Sample.permissive _ Sample.next_batch
              Sample.pop_batch Sample.world_A).1 = [].
Proof. vm_compute. split; reflexivity. Qed.

End ConnectorProps.

(** ** The SQLite table *)
Module SqlProps.

Section Table.
Context {Row Patch : Type}.
Variable primary_key : string.
Variable key : Row -> string.
Variable apply_patch : Patch -> Row -> Row.

#[local] Abbreviation keys := (Sql.keys key).
#[local] Abbreviation updated := (Sql.updated apply_patch).
#[local] Abbreviation update := (Sql.update primary_key key apply_patch).

Lemma updated_length patch cond (tbl : list Row) :
  length (updated patch cond tbl) = length tbl.
Proof. unfold Sql.updated. apply length_map. Qed.

Lemma updated_lookup patch cond (tbl : list Row) k :
  updated patch cond tbl !! k
  = (fun r => if cond r then apply_patch patch r else r) <$> tbl !! k.
Proof. unfold Sql.updated. apply (list_lookup_fmap _ tbl k). Qed.

(** No row matches: the statement changes nothing. *)
Lemma updated_none patch cond (tbl : list Row) :
  (forall r, r ∈ tbl -> cond r = false) ->
  updated patch cond tbl = tbl.
Proof.
  unfold Sql.updated. induction tbl as [|r tbl IH]; intros Hno; simpl.
  - reflexivity.
  - rewrite (Hno r) by apply list_elem_of_here.
    f_equal. apply IH. intros r' Hin. apply Hno. by apply list_elem_of_further.
Qed.

(** Only the row at position [k] matches: it alone is rewritten. *)
Lemma updated_one patch cond (tbl : list Row) k r :
  tbl !! k = Some r ->
  cond r = true ->
  (forall j r', tbl !! j = Some r' -> j <> k -> cond r' = false) ->
  updated patch cond tbl = <[k := apply_patch patch r]> tbl.
Proof.
  intros Hk Hc Hothers. apply list_eq. intros j.
  rewrite updated_lookup.
  destruct (decide (j = k)) as [->|Hne].
  - rewrite Hk; simpl. rewrite Hc.
    rewrite list_lookup_insert_eq; [reflexivity|].
    by eapply lookup_lt_Some.
  - rewrite list_lookup_insert_ne by congruence.
    destruct (tbl !! j) as [r'|] eqn:Hj; simpl; [|reflexivity].
    by rewrite (Hothers j r' Hj Hne).
Qed.

(** A patch that leaves the key of every row it rewrites is never refused. *)
Lemma update_keeps_keys patch cond (tbl : list Row) :
  (forall r, key (apply_patch patch r) = key r) ->
  update patch cond tbl = (updated patch cond tbl, Return tt).
Proof.
  intros Hkey. unfold Sql.update.
  assert (Hsame : keys (updated patch cond tbl) = keys tbl).
  { unfold Sql.keys, Sql.updated. rewrite List.map_map.
    apply List.map_ext. intros r. destruct (cond r); [apply Hkey|reflexivity]. }
  rewrite bool_decide_eq_true_2 by exact Hsame. reflexivity.
Qed.

Lemma update_no_match patch cond (tbl : list Row) :
  (forall r, r ∈ tbl -> cond r = false) ->
  update patch cond tbl = (tbl, Return tt).
Proof.
  intros Hno. unfold Sql.update. rewrite (updated_none _ _ _ Hno).
  rewrite bool_decide_eq_true_2 by reflexivity. reflexivity.
Qed.

(** With a primary key, the position of a row is determined by its key. *)
Lemma key_position (tbl : list Row) j k r r' :
  NoDup (keys tbl) ->
  tbl !! j = Some r' -> tbl !! k = Some r -> key r' = key r -> j = k.
Proof.
  intros Hnd Hj Hk Heq.
  apply (NoDup_lookup (keys tbl) j k (key r) Hnd).
  - change (keys tbl) with (key <$> tbl).
    rewrite list_lookup_fmap, Hj. simpl. by f_equal.
  - change (keys tbl) with (key <$> tbl).
    rewrite list_lookup_fmap, Hk. reflexivity.
Qed.

Lemma find_first_match (cond : Row -> bool) (tbl : list Row) k r :
  tbl !! k = Some r ->
  cond r = true ->
  (forall j r', tbl !! j = Some r' -> j <> k -> cond r' = false) ->
  List.find cond tbl = Some r.
Proof.
  revert k. induction tbl as [|x tbl IH]; intros k Hk Hc Hothers.
  - discriminate.
  - destruct k as [|k]; simpl in *.
    + injection Hk as ->. by rewrite Hc.
    + rewrite (Hothers 0%nat x eq_refl) by discriminate.
      apply (IH k Hk Hc). intros j r' Hj Hne.
      apply (Hothers (S j) r' Hj). congruence.
Qed.

Lemma find_no_match (cond : Row -> bool) (tbl : list Row) :
  (forall r, r ∈ tbl -> cond r = false) ->
  List.find cond tbl = None.
Proof.
  induction tbl as [|x tbl IH]; intros Hno; simpl; [reflexivity|].
  rewrite (Hno x) by apply list_elem_of_here.
  apply IH. intros r Hin. apply Hno. by apply list_elem_of_further.
Qed.

(** [find] through a rewriting that neither gains nor loses matches. *)
Lemma find_map (cond cond' : Row -> bool) (g : Row -> Row) (tbl : list Row) :
  (forall r, cond' (g r) = cond r) ->
  List.find cond' (map g tbl) = g <$> List.find cond tbl.
Proof.
  intros Hc. induction tbl as [|x tbl IH]; simpl; [reflexivity|].
  rewrite Hc. destruct (cond x); [reflexivity|exact IH].
Qed.

Lemma insert_fresh (row : Row) (tbl : list Row) :
  key row ∉ keys tbl ->
  Sql.insert primary_key key row tbl = (tbl ++ [row], Return tt).
Proof.
  intros Hfresh. unfold Sql.insert.
  rewrite bool_decide_eq_false_2 by exact Hfresh. reflexivity.
Qed.

Lemma insert_taken (row : Row) (tbl : list Row) :
  key row ∈ keys tbl ->
  Sql.insert primary_key key row tbl = (tbl, Throw (Sql.unique_failed primary_key)).
Proof.
  intros Htaken. unfold Sql.insert.
  rewrite bool_decide_eq_true_2 by exact Htaken. reflexivity.
Qed.

Lemma find_app_no_match (cond : Row -> bool) (tbl rest : list Row) :
  (forall r, r ∈ tbl -> cond r = false) ->
  List.find cond (tbl ++ rest) = List.find cond rest.
Proof.
  induction tbl as [|x tbl IH]; intros Hno; simpl; [reflexivity|].
  rewrite (Hno x) by apply list_elem_of_here.
  apply IH. intros r Hin. apply Hno. by apply list_elem_of_further.
Qed.

Lemma key_elem_of (tbl : list Row) r : r ∈ tbl -> key r ∈ keys tbl.
Proof. intros Hin. apply list_elem_of_fmap. by exists r. Qed.

End Table.

End SqlProps.

(** ** Project repository on the SQLite table *)
Module ProjectProps.
Import ProjectRepo.

#[local] Abbreviation by_id i := (fun r : ProjectRow => eq_str (row_id r) i).
#[local] Abbreviation live i :=
  (fun r : ProjectRow => eq_str (row_id r) i && eq_bool (row_deleted r) false).

Lemma eq_str_true a b : eq_str a b = true <-> a = b.
Proof. unfold eq_str. apply bool_decide_eq_true. Qed.

Lemma eq_str_false a b : eq_str a b = false <-> a <> b.
Proof. unfold eq_str. apply bool_decide_eq_false. Qed.

Lemma eq_str_refl a : eq_str a a = true.
Proof. by apply eq_str_true. Qed.

Lemma live_true i r : live i r = true <-> row_id r = i /\ row_deleted r = false.
Proof.
  rewrite andb_true_iff, eq_str_true. unfold eq_bool.
  destruct (row_deleted r); simpl; intuition congruence.
Qed.

Lemma live_false i r : live i r = false <-> row_id r <> i \/ row_deleted r = true.
Proof.
  rewrite andb_false_iff, eq_str_false. unfold eq_bool.
  destruct (row_deleted r); simpl; intuition congruence.
Qed.

Lemma findById_sqlite i (tbl : list ProjectRow) :
  findById i tbl
  = (tbl, Return (toDomain <$> List.find (live i) tbl)).
Proof.
  unfold findById, bind; simpl. unfold Sql.findFirst.
  destruct (List.find _ tbl); reflexivity.
Qed.

Lemma flagged_patch now r : apply_patch (deleted_patch now) r = flagged now r.
Proof. reflexivity. Qed.

(** What [delete] leaves: every row with the id flagged, the others as they
    were, in place. *)
Lemma delete_sqlite now i (tbl : list ProjectRow) :
  delete now i tbl
  = (map (fun r => if by_id i r then flagged now r else r) tbl, Return tt).
Proof.
  unfold delete; simpl.
  rewrite SqlProps.update_keeps_keys by reflexivity.
  reflexivity.
Qed.

(** C10. [delete] does not throw, whatever the id: it returns on a table
    with no such row and on a row already flagged; the table keeps its
    length, and every row whose id differs from the argument stays in place
    unchanged (and no other row appears under a different id). *)
Theorem delete_never_raises now i (tbl : list ProjectRow) :
  (delete now i tbl).2 = Return tt
  /\ length (delete now i tbl).1 = length tbl
  /\ (forall k r, tbl !! k = Some r -> row_id r <> i ->
        (delete now i tbl).1 !! k = Some r)
  /\ (forall k r', (delete now i tbl).1 !! k = Some r' -> row_id r' <> i ->
        tbl !! k = Some r').
Proof.
  rewrite delete_sqlite; simpl.
  split; [reflexivity|]. split; [apply length_map|]. split.
  - intros k r Hk Hne.
    rewrite (list_lookup_fmap _ tbl k), Hk; simpl.
    apply eq_str_false in Hne. by rewrite Hne.
  - intros k r' Hk Hne.
    rewrite (list_lookup_fmap _ tbl k) in Hk.
    destruct (tbl !! k) as [r|]; simpl in Hk; [|discriminate].
    injection Hk as <-.
    destruct (eq_str (row_id r) i) eqn:Hid; [|reflexivity].
    apply eq_str_true in Hid. simpl in Hne. contradiction.
Qed.

(** C3. After [delete] of the id of a stored row, [findById] returns null,
    while a query by id that ignores the flag still resolves to that row,
    now with [deleted] true and [updatedAt] restamped, its other columns as
    before. *)
Theorem delete_is_soft now i (tbl : list ProjectRow) r :
  selectById i tbl = Some r ->
  let tbl' := (delete now i tbl).1 in
  (delete now i tbl).2 = Return tt
  /\ findById i tbl' = (tbl', Return None)
  /\ selectById i tbl' = Some (flagged now r)
  /\ row_deleted (flagged now r) = true
  /\ row_updatedAt (flagged now r) = now
  /\ length tbl' = length tbl.
Proof.
  intros Hsel. rewrite delete_sqlite; simpl.
  split; [reflexivity|]. split; [|split; [|split; [|split]]].
  - rewrite findById_sqlite.
    rewrite SqlProps.find_no_match; [reflexivity|].
    intros r' Hin. apply list_elem_of_fmap in Hin as (x & -> & _).
    apply live_false.
    destruct (eq_str (row_id x) i) eqn:Hid.
    + right. reflexivity.
    + left. by apply eq_str_false.
  - unfold selectById in *.
    rewrite (SqlProps.find_map (by_id i) (by_id i)).
    + rewrite Hsel; simpl.
      apply List.find_some in Hsel as [_ Hid]. by rewrite Hid.
    + intros x. destruct (eq_str (row_id x) i) eqn:Hid; simpl; by rewrite Hid.
  - reflexivity.
  - reflexivity.
  - apply length_map.
Qed.

Lemma delete_is_soft_witness :
  let tbl' := (delete "2024-03-01T00:00:00.000Z" "p1" [Sample.p1; Sample.p2]).1 in
  findById "p1" tbl' = (tbl', Return None)
  /\ selectById "p1" tbl'
     = Some (flagged "2024-03-01T00:00:00.000Z" Sample.p1).
Proof.
  destruct (delete_is_soft "2024-03-01T00:00:00.000Z" "p1"
              [Sample.p1; Sample.p2] Sample.p1 eq_refl)
    as (_ & Hfind & Hsel & _).
  split; [exact Hfind|exact Hsel].
Defined.

Example delete_absent_id :
  delete "2024-03-01T00:00:00.000Z" "nope" [Sample.p1; Sample.p2]
  = ([Sample.p1; Sample.p2], Return tt).
Proof. reflexivity. Qed.

Example delete_twice :
  (do delete "2024-03-01T00:00:00.000Z" "p1" in
   delete "2024-03-02T00:00:00.000Z" "p1") [Sample.p1; Sample.p2]
  = ([flagged "2024-03-02T00:00:00.000Z" Sample.p1; Sample.p2], Return tt).
Proof. reflexivity. Qed.

Lemma values_toDomain i now project :
  toDomain (values i (toDbInsert now project)) = as_project i project.
Proof. reflexivity. Qed.

(** [create] on any handle: when the insert returns and the re-read finds
    nothing, a creation-failed error is thrown. *)
Lemma create_reread_nothing {DB} (H : TableHandle DB ProjectRow ProjectPatch)
    generatedId now project (db db1 db2 : DB) :
  db_insert (values generatedId (toDbInsert now project)) db = (db1, Return tt) ->
  db_findFirst (live generatedId) db1 = (db2, Return None) ->
  create generatedId now project db
  = (db2, Throw (JsError "Failed to create project")).
Proof.
  intros Hins Hread. unfold create, findById, bind.
  rewrite Hins, Hread. reflexivity.
Qed.

(** C4. With a generated id not yet in the table, [create] inserts the row
    and returns the domain object made of the input fields and that id; a
    following [findById] of the created id returns the same object. On any
    handle, when the insert returns and the re-read finds nothing, [create]
    throws "Failed to create project" and does not return null. *)
Theorem create_then_findById generatedId now project (tbl : list ProjectRow) :
  generatedId ∉ Sql.keys row_id tbl ->
  let row := values generatedId (toDbInsert now project) in
  let created := as_project generatedId project in
  create generatedId now project tbl = (tbl ++ [row], Return created)
  /\ findById (id created) (tbl ++ [row]) = (tbl ++ [row], Return (Some created))
  /\ (workspaceId created = new_workspaceId project
      /\ userId created = new_userId project
      /\ name created = new_name project
      /\ description created = new_description project
      /\ color created = new_color project
      /\ completionPercentage created = new_completionPercentage project)
  /\ (forall DB (H : TableHandle DB ProjectRow ProjectPatch) (db db1 db2 : DB),
        db_insert row db = (db1, Return tt) ->
        db_findFirst (live generatedId) db1 = (db2, Return None) ->
        create generatedId now project db
        = (db2, Throw (JsError "Failed to create project"))).
Proof.
  intros Hfresh row created.
  assert (Hread : findById generatedId (tbl ++ [row])
                  = (tbl ++ [row], Return (Some created))).
  { rewrite findById_sqlite.
    rewrite SqlProps.find_app_no_match.
    - simpl. rewrite eq_str_refl. reflexivity.
    - intros r Hin. apply live_false. left. intros Heq.
      apply Hfresh. rewrite <- Heq. by apply SqlProps.key_elem_of. }
  split; [|split; [exact Hread|split]].
  - unfold create, bind. simpl db_insert.
    rewrite SqlProps.insert_fresh by exact Hfresh.
    fold row. rewrite Hread. reflexivity.
  - repeat split; reflexivity.
  - intros DB H db db1 db2. apply create_reread_nothing.
Qed.

Lemma create_then_findById_witness :
  let row := values "p3" (toDbInsert "2024-03-01T00:00:00.000Z" Sample.test_project) in
  create "p3" "2024-03-01T00:00:00.000Z" Sample.test_project [Sample.p1; Sample.p2]
  = ([Sample.p1; Sample.p2; row], Return (as_project "p3" Sample.test_project))
  /\ create (H := Sample.detached) "p3" "2024-03-01T00:00:00.000Z"
       Sample.test_project [Sample.p1]
     = ([Sample.p1], Throw (JsError "Failed to create project")).
Proof.
  assert (Hfresh : "p3" ∉ Sql.keys row_id [Sample.p1; Sample.p2]).
  { apply (bool_decide_unpack _). vm_compute. exact I. }
  destruct (create_then_findById "p3" "2024-03-01T00:00:00.000Z"
              Sample.test_project [Sample.p1; Sample.p2] Hfresh)
    as (Hcreate & _ & _ & Hnothing).
  split; [exact Hcreate|].
  exact (Hnothing _ Sample.detached [Sample.p1] [Sample.p1] [Sample.p1]
           eq_refl eq_refl).
Defined.

(** A generated id that is already taken: the insert is refused and the
    error of the store is what [create] throws. *)
Example create_id_taken :
  create "p1" "2024-03-01T00:00:00.000Z" Sample.test_project [Sample.p1]
  = ([Sample.p1], Throw (SqliteError "UNIQUE constraint failed: projects.id")).
Proof. reflexivity. Qed.

Lemma update_sqlite now i updates (tbl : list ProjectRow) :
  update now i updates tbl
  = match Sql.update "projects.id" row_id apply_patch (toDbUpdate now updates) (live i) tbl with
    | (tbl', Return _) =>
        match findById i tbl' with
        | (tbl'', Return None) =>
            (tbl'', Throw (JsError "Project not found or was deleted"))
        | (tbl'', Return (Some updated)) => (tbl'', Return updated)
        | (tbl'', Throw e) => (tbl'', Throw e)
        end
    | (tbl', Throw e) => (tbl', Throw e)
    end.
Proof.
  unfold update, bind. simpl db_update.
  destruct (Sql.update _ _ _ _ _ tbl) as [tbl' [[]|e]]; [|reflexivity].
  destruct (findById i tbl') as [tbl'' [[p|]|e]]; reflexivity.
Qed.

Lemma single_patch now f r :
  apply_patch (toDbUpdate now (single f)) r = restamped now (with_field f r).
Proof. destruct f; reflexivity. Qed.

Lemma with_field_id i f r :
  renames i f = false -> row_id r = i -> row_id (with_field f r) = i.
Proof.
  destruct f; simpl; try (intros _ H; exact H).
  intros Hv _. apply negb_false_iff, eq_str_true in Hv. exact Hv.
Qed.

Lemma with_field_deleted f r : row_deleted (with_field f r) = row_deleted r.
Proof. destruct f; reflexivity. Qed.

Section OneRow.
(** A table with its primary key, and the one live row of id [i] in it. *)
Variable tbl : list ProjectRow.
Variable i : string.
Variable k : nat.
Variable r : ProjectRow.
Hypothesis Hkey : NoDup (Sql.keys row_id tbl).
Hypothesis Hk : tbl !! k = Some r.
Hypothesis Hid : row_id r = i.

Lemma others_not_live j r' : tbl !! j = Some r' -> j <> k -> live i r' = false.
Proof.
  intros Hj Hne. apply live_false. left. intros Heq. apply Hne.
  apply (SqlProps.key_position row_id tbl j k r r' Hkey Hj Hk). congruence.
Qed.

Lemma others_not_live_after j r' x :
  <[k := x]> tbl !! j = Some r' -> j <> k -> live i r' = false.
Proof.
  intros Hj Hne. rewrite list_lookup_insert_ne in Hj by congruence.
  by apply (others_not_live j).
Qed.

Lemma keys_insert x :
  Sql.keys row_id (<[k := x]> tbl) = <[k := row_id x]> (Sql.keys row_id tbl).
Proof. unfold Sql.keys. apply (list_fmap_insert row_id tbl k x). Qed.

Lemma keys_at : Sql.keys row_id tbl !! k = Some i.
Proof.
  change (Sql.keys row_id tbl) with (row_id <$> tbl).
  rewrite list_lookup_fmap, Hk. simpl. by f_equal.
Qed.

(** The statement of [update], before its constraint check. *)
Lemma updated_live now updates :
  row_deleted r = false ->
  Sql.updated apply_patch (toDbUpdate now updates) (live i) tbl
  = <[k := apply_patch (toDbUpdate now updates) r]> tbl.
Proof.
  intros Hlive. apply (SqlProps.updated_one apply_patch _ _ tbl k r Hk).
  - apply live_true. by split.
  - apply others_not_live.
Qed.

Lemma update_field now f :
  row_deleted r = false ->
  renames i f = false ->
  update now i (single f) tbl
  = (<[k := restamped now (with_field f r)]> tbl,
     Return (toDomain (with_field f r))).
Proof.
  intros Hlive Hsame. rewrite update_sqlite. unfold Sql.update.
  rewrite (updated_live now (single f) Hlive), single_patch.
  rewrite keys_insert. simpl row_id.
  rewrite (with_field_id i f r Hsame Hid).
  rewrite (list_insert_id _ _ _ keys_at).
  rewrite bool_decide_eq_true_2 by reflexivity. cbv beta iota delta [orb].
  rewrite findById_sqlite.
  rewrite (SqlProps.find_first_match (live i) _ k (restamped now (with_field f r))).
  - reflexivity.
  - apply list_lookup_insert_eq. by eapply lookup_lt_Some.
  - apply live_true. simpl. rewrite with_field_deleted.
    split; [by apply with_field_id|exact Hlive].
  - intros j r'. apply others_not_live_after.
Qed.

(** Renaming to the id of another row: the primary key refuses the
    statement and nothing is written. *)
Lemma update_id_taken now v :
  row_deleted r = false ->
  v <> i ->
  v ∈ Sql.keys row_id tbl ->
  update now i (single (SetId v)) tbl
  = (tbl, Throw (SqliteError "UNIQUE constraint failed: projects.id")).
Proof.
  intros Hlive Hne Hin. rewrite update_sqlite. unfold Sql.update.
  rewrite (updated_live now (single (SetId v)) Hlive), single_patch.
  rewrite keys_insert. simpl row_id.
  assert (Hlt : (k < length (Sql.keys row_id tbl))%nat)
    by (eapply lookup_lt_Some, keys_at).
  rewrite bool_decide_eq_false_2, bool_decide_eq_false_2; [reflexivity| |].
  - intros Hnd. apply list_elem_of_lookup in Hin as [j Hj].
    assert (j <> k) as Hjk.
    { intros ->. rewrite keys_at in Hj. congruence. }
    apply Hjk. apply (NoDup_lookup _ j k v Hnd).
    + rewrite list_lookup_insert_ne by congruence. exact Hj.
    + by apply list_lookup_insert_eq.
  - intros Heq. apply Hne.
    assert (Hv : <[k := v]> (Sql.keys row_id tbl) !! k = Some v)
      by (by apply list_lookup_insert_eq).
    rewrite Heq, keys_at in Hv. congruence.
Qed.

(** Renaming to an unused id: the row is rewritten, and the re-read by the
    old id finds nothing. *)
Lemma update_id_fresh now v :
  row_deleted r = false ->
  v <> i ->
  v ∉ Sql.keys row_id tbl ->
  update now i (single (SetId v)) tbl
  = (<[k := restamped now (with_field (SetId v) r)]> tbl,
     Throw (JsError "Project not found or was deleted")).
Proof.
  intros Hlive Hne Hfresh. rewrite update_sqlite. unfold Sql.update.
  rewrite (updated_live now (single (SetId v)) Hlive), single_patch.
  rewrite keys_insert. simpl row_id.
  assert (Hlt : (k < length (Sql.keys row_id tbl))%nat)
    by (eapply lookup_lt_Some, keys_at).
  rewrite (bool_decide_eq_true_2 (NoDup _)), orb_true_r.
  - cbv beta iota. rewrite findById_sqlite.
    rewrite SqlProps.find_no_match; [reflexivity|].
    intros r' Hin. apply list_elem_of_lookup in Hin as [j Hj].
    destruct (decide (j = k)) as [->|Hjk].
    + rewrite list_lookup_insert_eq in Hj by (by eapply lookup_lt_Some).
      injection Hj as <-. apply live_false. left. exact Hne.
    + by apply (others_not_live_after j r' _ Hj).
  - apply NoDup_alt. intros a b x Ha Hb.
    destruct (decide (a = k)) as [->|Hak]; destruct (decide (b = k)) as [->|Hbk].
    + reflexivity.
    + rewrite list_lookup_insert_eq in Ha by exact Hlt. injection Ha as <-.
      rewrite list_lookup_insert_ne in Hb by congruence.
      exfalso. apply Hfresh. apply list_elem_of_lookup. by exists b.
    + rewrite list_lookup_insert_eq in Hb by exact Hlt. injection Hb as <-.
      rewrite list_lookup_insert_ne in Ha by congruence.
      exfalso. apply Hfresh. apply list_elem_of_lookup. by exists a.
    + rewrite list_lookup_insert_ne in Ha by congruence.
      rewrite list_lookup_insert_ne in Hb by congruence.
      apply (NoDup_lookup _ a b x Hkey Ha Hb).
Qed.

End OneRow.

(** No live row of that id: nothing is written and not-found is thrown. *)
Lemma update_not_found now i updates (tbl : list ProjectRow) :
  (forall r, r ∈ tbl -> row_id r <> i \/ row_deleted r = true) ->
  update now i updates tbl
  = (tbl, Throw (JsError "Project not found or was deleted")).
Proof.
  intros Hno.
  assert (Hcond : forall r, r ∈ tbl -> live i r = false).
  { intros r Hin. apply live_false. by apply Hno. }
  rewrite update_sqlite.
  rewrite (SqlProps.update_no_match _ _ _ _ _ _ Hcond).
  rewrite findById_sqlite, (SqlProps.find_no_match _ _ Hcond). reflexivity.
Qed.

(** C5, as stated, fails in two ways. For the field [id]: renaming [p1]
    to the id of [p2] is refused by the primary key, nothing is changed and
    [updatedAt] stays; renaming [p1] to an unused id ends in not-found
    although the row was stored and live. For [updatedAt]: an update made
    while the clock still reads the stored stamp changes the name and
    leaves [updatedAt] where it was; one made at an earlier reading moves
    it back. *)
Lemma update_one_field_counterexample :
  update "2024-03-01T00:00:00.000Z" "p1" (single (SetId "p2")) [Sample.p1; Sample.p2]
  = ([Sample.p1; Sample.p2], Throw (SqliteError "UNIQUE constraint failed: projects.id"))
  /\ (update "2024-03-01T00:00:00.000Z" "p1" (single (SetId "p9"))
        [Sample.p1; Sample.p2]).2
     = Throw (JsError "Project not found or was deleted")
  /\ (exists r',
        update "2024-01-01T00:00:00.000Z" "p1" (single (SetName "Updated"))
          [Sample.p1; Sample.p2]
        = ([r'; Sample.p2], Return (toDomain r'))
        /\ row_name r' = "Updated"
        /\ row_updatedAt r' = row_updatedAt Sample.p1)
  /\ (exists r',
        update "2023-12-31T23:59:59.999Z" "p1" (single (SetName "Updated"))
          [Sample.p1; Sample.p2]
        = ([r'; Sample.p2], Return (toDomain r'))
        /\ String.ltb (row_updatedAt r') (row_updatedAt Sample.p1) = true).
Proof.
  split; [reflexivity|]. split; [reflexivity|]. split.
  - exists (restamped "2024-01-01T00:00:00.000Z" (with_field (SetName "Updated") Sample.p1)).
    repeat split.
  - exists (restamped "2023-12-31T23:59:59.999Z" (with_field (SetName "Updated") Sample.p1)).
    repeat split.
Qed.

(** C5, amended. On a table with its primary key:
    - for a stored, non-deleted row of id [i] and a single-field update that
      does not give [id] a new value, [update] rewrites that field of that
      row only, sets its [updatedAt] to the clock reading, leaves every
      other column and every other row as it was, and returns the re-read
      object;
    - when no stored row has id [i], or the one that has is deleted,
      [update] writes nothing and throws not-found, whatever the updates;
    - an update that gives [id] the id of another stored row is refused by
      the primary key, and nothing is written. *)
Theorem update_changes_one_field now i (tbl : list ProjectRow) :
  NoDup (Sql.keys row_id tbl) ->
  (forall k r f,
      tbl !! k = Some r -> row_id r = i -> row_deleted r = false ->
      renames i f = false ->
      exists r',
        update now i (single f) tbl = (<[k := r']> tbl, Return (toDomain (with_field f r)))
        /\ row_updatedAt r' = now
        /\ row_id r' = row_id (with_field f r)
        /\ row_workspaceId r' = row_workspaceId (with_field f r)
        /\ row_userId r' = row_userId (with_field f r)
        /\ row_name r' = row_name (with_field f r)
        /\ row_description r' = row_description (with_field f r)
        /\ row_color r' = row_color (with_field f r)
        /\ row_completionPercentage r' = row_completionPercentage (with_field f r)
        /\ row_createdAt r' = row_createdAt r
        /\ row_deleted r' = false
        /\ (forall j, j <> k -> <[k := r']> tbl !! j = tbl !! j))
  /\ (forall updates,
      (forall r, r ∈ tbl -> row_id r <> i \/ row_deleted r = true) ->
      update now i updates tbl
      = (tbl, Throw (JsError "Project not found or was deleted")))
  /\ (forall k r v,
      tbl !! k = Some r -> row_id r = i -> row_deleted r = false ->
      v <> i -> v ∈ Sql.keys row_id tbl ->
      update now i (single (SetId v)) tbl
      = (tbl, Throw (SqliteError "UNIQUE constraint failed: projects.id"))).
Proof.
  intros Hkey. split; [|split].
  - intros k r f Hk Hid Hlive Hsame.
    exists (restamped now (with_field f r)).
    split; [by apply update_field|].
    split; [reflexivity|].
    repeat (split; [reflexivity|]).
    split; [by destruct f|].
    split; [simpl; by rewrite with_field_deleted|].
    intros j Hne. apply list_lookup_insert_ne. congruence.
  - intros updates. apply update_not_found.
  - intros k r v Hk Hid Hlive Hne Hin.
    by apply (update_id_taken tbl i k r).
Qed.

Lemma update_changes_one_field_witness :
  (exists r',
     update "2024-03-01T00:00:00.000Z" "p1" (single (SetName "Updated"))
       [Sample.p1; Sample.p2]
     = ([r'; Sample.p2], Return (toDomain (with_field (SetName "Updated") Sample.p1)))
     /\ row_updatedAt r' = "2024-03-01T00:00:00.000Z"
     /\ row_name r' = "Updated")
  /\ update "2024-03-01T00:00:00.000Z" "p7" (single (SetName "Updated"))
       [Sample.p1; Sample.p2]
     = ([Sample.p1; Sample.p2], Throw (JsError "Project not found or was deleted"))
  /\ update "2024-03-01T00:00:00.000Z" "p1" (single (SetId "p2"))
       [Sample.p1; Sample.p2]
     = ([Sample.p1; Sample.p2],
        Throw (SqliteError "UNIQUE constraint failed: projects.id")).
Proof.
  assert (Hkey : NoDup (Sql.keys row_id [Sample.p1; Sample.p2])).
  { apply (bool_decide_unpack _). vm_compute. exact I. }
  split; [|split].
  - destruct (update_changes_one_field "2024-03-01T00:00:00.000Z" "p1"
                [Sample.p1; Sample.p2] Hkey) as (Hone & _ & _).
    destruct (Hone 0%nat Sample.p1 (SetName "Updated") eq_refl eq_refl eq_refl eq_refl)
      as (r' & Hrun & Hstamp & _ & _ & _ & Hname & _).
    exists r'. split; [exact Hrun|]. split; [exact Hstamp|exact Hname].
  - destruct (update_changes_one_field "2024-03-01T00:00:00.000Z" "p7"
                [Sample.p1; Sample.p2] Hkey) as (_ & Hnone & _).
    apply Hnone. intros r Hin. left.
    apply elem_of_cons in Hin as [->|Hin]; [discriminate|].
    apply elem_of_cons in Hin as [->|Hin]; [discriminate|].
    by apply elem_of_nil in Hin.
  - destruct (update_changes_one_field "2024-03-01T00:00:00.000Z" "p1"
                [Sample.p1; Sample.p2] Hkey) as (_ & _ & Htaken).
    apply (Htaken 0%nat Sample.p1 "p2" eq_refl eq_refl eq_refl).
    + discriminate.
    + apply list_elem_of_further, list_elem_of_here.
Defined.

(** The repository test: a created project is found, renamed, then deleted
    and no longer found. *)
Example repository_test :
  (let* created := create "p3" "2024-03-01T00:00:00.000Z" Sample.test_project in
   let* found := findById (id created) in
   let* updated := update "2024-03-02T00:00:00.000Z" (id created) (single (SetName "Updated")) in
   do delete "2024-03-03T00:00:00.000Z" (id created) in
   let* afterDelete := findById (id created) in
   ret (found, name updated, afterDelete)) []
  = ([flagged "2024-03-03T00:00:00.000Z"
        (restamped "2024-03-02T00:00:00.000Z"
           (with_field (SetName "Updated")
              (values "p3" (toDbInsert "2024-03-01T00:00:00.000Z" Sample.test_project))))],
     Return (Some (as_project "p3" Sample.test_project), "Updated", None)).
Proof. reflexivity. Qed.

End ProjectProps.

(** ** Task type repository on the SQLite table *)
Module TaskTypeProps.
Import TaskTypeRepo.

#[local] Abbreviation keys := (Sql.keys row_id).

Lemma str_true a b : eq_str a b = true <-> a = b.
Proof. unfold eq_str. apply bool_decide_eq_true. Qed.

Lemma str_false a b : eq_str a b = false <-> a <> b.
Proof. unfold eq_str. apply bool_decide_eq_false. Qed.

Lemma marked_id u t r : row_id (marked u t r) = row_id r.
Proof.
  unfold marked. destruct (eq_str (row_id r) t); [reflexivity|].
  destruct (eq_str (row_userId r) u); reflexivity.
Qed.

Lemma marked_userId u t r : row_userId (marked u t r) = row_userId r.
Proof.
  unfold marked. destruct (eq_str (row_id r) t); [reflexivity|].
  destruct (eq_str (row_userId r) u); reflexivity.
Qed.

Lemma marked_target u t r : row_id r = t -> marked u t r = with_isDefault true r.
Proof. intros Hid. unfold marked. apply str_true in Hid. by rewrite Hid. Qed.

Lemma marked_own u t r :
  row_id r <> t -> row_userId r = u -> marked u t r = with_isDefault false r.
Proof.
  intros Hid Hu. unfold marked.
  apply str_false in Hid. apply str_true in Hu. by rewrite Hid, Hu.
Qed.

Lemma marked_other u t r :
  row_id r <> t -> row_userId r <> u -> marked u t r = r.
Proof.
  intros Hid Hu. unfold marked.
  apply str_false in Hid. apply str_false in Hu. by rewrite Hid, Hu.
Qed.

(** The two statements of [setDefault] are never refused, and together
    rewrite each row in place as [marked] says. *)
Lemma setDefault_sqlite u t (tbl : list TaskTypeRow) :
  setDefault u t tbl = (map (marked u t) tbl, Return tt).
Proof.
  unfold setDefault, bind. simpl db_update.
  rewrite SqlProps.update_keeps_keys by reflexivity.
  rewrite SqlProps.update_keeps_keys by reflexivity.
  f_equal. unfold Sql.updated. rewrite List.map_map.
  apply List.map_ext. intros r. unfold marked.
  destruct (eq_str (row_userId r) u); simpl;
    destruct (eq_str (row_id r) t); reflexivity.
Qed.

Lemma filter_agree {A} (P Q : A -> Prop) `{!forall x, Decision (P x)}
    `{!forall x, Decision (Q x)} (l : list A) :
  (forall x, x ∈ l -> (P x <-> Q x)) -> filter P l = filter Q l.
Proof.
  induction l as [|x l IH]; intros Hpq; [reflexivity|].
  rewrite !filter_cons.
  assert (Hx : P x <-> Q x) by (apply Hpq, list_elem_of_here).
  rewrite IH by (intros y Hy; by apply Hpq, list_elem_of_further).
  destruct (decide (P x)), (decide (Q x)); tauto.
Qed.

Lemma filter_none {A} (P : A -> Prop) `{!forall x, Decision (P x)} (l : list A) :
  (forall x, x ∈ l -> ~ P x) -> filter P l = [].
Proof.
  induction l as [|x l IH]; intros Hno; [reflexivity|].
  rewrite filter_cons_False by apply Hno, list_elem_of_here.
  apply IH. intros y Hy. by apply Hno, list_elem_of_further.
Qed.

(** With a primary key, a query by id (and any further condition the row
    meets) selects the one row of that id. *)
Lemma filter_by_id (Q : TaskTypeRow -> Prop) `{!forall x, Decision (Q x)}
    (tbl : list TaskTypeRow) k r :
  NoDup (keys tbl) -> tbl !! k = Some r -> Q r ->
  filter (fun x => row_id x = row_id r /\ Q x) tbl = [r].
Proof.
  revert k. induction tbl as [|x tl IH]; intros k Hnd Hk Hq; [discriminate|].
  change (keys (x :: tl)) with (row_id x :: keys tl) in Hnd.
  apply NoDup_cons in Hnd as [Hx Hnd].
  destruct k as [|k]; simpl in Hk.
  - injection Hk as ->. rewrite filter_cons_True by (by split).
    f_equal. apply filter_none. intros y Hy [Hid _].
    apply Hx. rewrite <- Hid. by apply (SqlProps.key_elem_of row_id).
  - rewrite filter_cons_False; [by apply (IH k)|].
    intros [Hid _]. apply Hx. rewrite Hid.
    apply (SqlProps.key_elem_of row_id). by eapply list_elem_of_lookup_2.
Qed.

(** The defaults of the caller after [setDefault u t]: the rows of id [t]
    that [u] owns. *)
Lemma defaults_of_caller u t (tbl : list TaskTypeRow) :
  defaults_of u (map (marked u t) tbl)
  = map (with_isDefault true)
      (filter (fun x => row_id x = t /\ row_userId x = u) tbl).
Proof.
  unfold defaults_of. induction tbl as [|x tl IH]; [reflexivity|].
  simpl map. rewrite !filter_cons, IH.
  destruct (decide (row_id x = t)) as [Hid|Hid];
    destruct (decide (row_userId x = u)) as [Hu|Hu].
  - rewrite (marked_target u t x Hid).
    rewrite decide_True by (by split). rewrite decide_True by (by split).
    reflexivity.
  - rewrite (marked_target u t x Hid).
    rewrite decide_False by (simpl; tauto). rewrite decide_False by tauto.
    reflexivity.
  - rewrite (marked_own u t x Hid Hu).
    rewrite decide_False by (simpl; intros [_ ?]; discriminate).
    rewrite decide_False by tauto. reflexivity.
  - rewrite (marked_other u t x Hid Hu).
    rewrite decide_False by tauto. rewrite decide_False by tauto.
    reflexivity.
Qed.

(** The defaults of another user [v] after [setDefault u t]: those it had,
    and its rows of id [t]. *)
Lemma defaults_of_bystander u v t (tbl : list TaskTypeRow) :
  v <> u ->
  defaults_of v (map (marked u t) tbl)
  = map (marked u t)
      (filter (fun x => row_userId x = v
                        /\ (row_id x = t \/ row_isDefault x = true)) tbl).
Proof.
  intros Hvu. unfold defaults_of. induction tbl as [|x tl IH]; [reflexivity|].
  simpl map. rewrite !filter_cons, IH.
  destruct (decide (row_userId x = v)) as [Hv|Hv].
  - assert (Hu : row_userId x <> u) by congruence.
    destruct (decide (row_id x = t)) as [Hid|Hid].
    + rewrite (marked_target u t x Hid).
      rewrite decide_True by (by split). rewrite decide_True by tauto.
      simpl. by rewrite (marked_target u t x Hid).
    + rewrite (marked_other u t x Hid Hu).
      destruct (decide (row_isDefault x = true)) as [Hd|Hd].
      * rewrite decide_True by (by split). rewrite decide_True by tauto.
        simpl. by rewrite (marked_other u t x Hid Hu).
      * rewrite decide_False by tauto. rewrite decide_False by tauto.
        reflexivity.
  - rewrite decide_False by (rewrite marked_userId; tauto).
    rewrite decide_False by tauto. reflexivity.
Qed.

(** Counting the rows of [v] that are the target or already default. *)
Lemma count_with_target v t (tbl : list TaskTypeRow) : forall k r,
  NoDup (keys tbl) -> tbl !! k = Some r -> row_id r = t -> row_userId r = v ->
  length (filter (fun x => row_userId x = v
                           /\ (row_id x = t \/ row_isDefault x = true)) tbl)
  = (length (defaults_of v tbl) + (if row_isDefault r then 0 else 1))%nat.
Proof.
  unfold defaults_of.
  induction tbl as [|x tl IH]; intros k r Hnd Hk Hid Hv; [discriminate|].
  change (keys (x :: tl)) with (row_id x :: keys tl) in Hnd.
  apply NoDup_cons in Hnd as [Hx Hnd].
  rewrite !filter_cons.
  destruct k as [|k]; simpl in Hk.
  - injection Hk as ->.
    rewrite (filter_agree _ (fun x => row_userId x = v /\ row_isDefault x = true) tl).
    + rewrite decide_True by tauto.
      destruct (row_isDefault r) eqn:Hd.
      * rewrite decide_True by tauto. simpl. lia.
      * rewrite decide_False by (intros [_ ?]; discriminate). simpl. lia.
    + intros y Hy. split; [|tauto]. intros [Hyv [Hyt|Hyd]]; [|tauto].
      exfalso. apply Hx. rewrite Hid, <- Hyt.
      by apply (SqlProps.key_elem_of row_id).
  - assert (Hxt : row_id x <> t).
    { intros Hxt. apply Hx. rewrite Hxt, <- Hid.
      apply (SqlProps.key_elem_of row_id). by eapply list_elem_of_lookup_2. }
    specialize (IH k r Hnd Hk Hid Hv).
    destruct (decide (row_userId x = v /\ row_isDefault x = true)) as [Hd|Hd].
    + rewrite decide_True by tauto. simpl. lia.
    + rewrite decide_False by tauto. exact IH.
Qed.

(** C2. For a task type [t] owned by [u], one sequential call
    [setDefault u t] returns and leaves exactly one of [u]'s task types
    flagged default, the one of id [t]: every row of [u] is default if and
    only if its id is [t], and the defaults of [u] are that single row. *)
Theorem setDefault_leaves_one_default u t (tbl : list TaskTypeRow) k r :
  NoDup (keys tbl) ->
  tbl !! k = Some r -> row_id r = t -> row_userId r = u ->
  let tbl' := (setDefault u t tbl).1 in
  (setDefault u t tbl).2 = Return tt
  /\ defaults_of u tbl' = [with_isDefault true r]
  /\ tbl' !! k = Some (with_isDefault true r)
  /\ (forall r', r' ∈ tbl' -> row_userId r' = u ->
        (row_isDefault r' = true <-> row_id r' = t)).
Proof.
  intros Hnd Hk Hid Hu. rewrite setDefault_sqlite; simpl.
  split; [reflexivity|]. split; [|split].
  - rewrite defaults_of_caller.
    rewrite <- Hid. rewrite (filter_by_id (fun x => row_userId x = u) tbl k r Hnd Hk Hu).
    reflexivity.
  - rewrite (list_lookup_fmap _ tbl k), Hk. simpl.
    by rewrite (marked_target u t r Hid).
  - intros r' Hin Hr'. apply list_elem_of_fmap in Hin as (x & -> & Hx).
    rewrite marked_userId in Hr'. rewrite marked_id.
    destruct (decide (row_id x = t)) as [Hxt|Hxt].
    + rewrite (marked_target u t x Hxt). simpl. tauto.
    + rewrite (marked_own u t x Hxt Hr'). simpl. split; [discriminate|tauto].
Qed.

Lemma setDefault_leaves_one_default_witness :
  setDefault "ua" "a2" Sample.task_types
  = ([with_isDefault false Sample.a1; with_isDefault true Sample.a2;
      Sample.b1; Sample.b2], Return tt)
  /\ defaults_of "ua" (setDefault "ua" "a2" Sample.task_types).1
     = [with_isDefault true Sample.a2].
Proof.
  assert (Hkey : NoDup (keys Sample.task_types)).
  { apply (bool_decide_unpack _). vm_compute. exact I. }
  destruct (setDefault_leaves_one_default "ua" "a2" Sample.task_types 1%nat
              Sample.a2 Hkey eq_refl eq_refl eq_refl) as (_ & Hone & _).
  split; [reflexivity|exact Hone].
Defined.

(** C9, as stated, fails when the default that the other user already has
    is [t] itself: ["ub"] has the default [b1]; after [setDefault "ua" "b1"]
    it still has that one default, not two, and ["ua"] has none. *)
Lemma setDefault_foreign_counterexample :
  defaults_of "ub" Sample.task_types = [Sample.b1]
  /\ setDefault "ua" "b1" Sample.task_types
     = ([with_isDefault false Sample.a1; Sample.a2; Sample.b1; Sample.b2],
        Return tt)
  /\ defaults_of "ub" (setDefault "ua" "b1" Sample.task_types).1 = [Sample.b1]
  /\ defaults_of "ua" (setDefault "ua" "b1" Sample.task_types).1 = [].
Proof. repeat split; reflexivity. Qed.

(** C9, amended. The second statement of [setDefault] is keyed by id only.
    In every state, [setDefault u t] returns and rewrites the rows in place:
    every row of [u] whose id is not [t] ends with [isDefault] false, every
    row of id [t] ends with [isDefault] true whoever owns it, and the rows
    of other users with another id are unchanged. When [t] is the row of a
    different user [v] (in a table with its primary key), [u] ends with no
    default and [v] with the defaults it had plus [t] if [t] was not one of
    them; so when [v] had exactly one default and it was not [t], [v] ends
    with two. *)
Theorem setDefault_not_scoped_to_user u t (tbl : list TaskTypeRow) :
  let tbl' := (setDefault u t tbl).1 in
  (setDefault u t tbl).2 = Return tt
  /\ (forall k r, tbl !! k = Some r -> tbl' !! k = Some (marked u t r))
  /\ length tbl' = length tbl
  /\ (forall r', r' ∈ tbl' -> row_userId r' = u -> row_id r' <> t ->
        row_isDefault r' = false)
  /\ (forall r', r' ∈ tbl' -> row_id r' = t -> row_isDefault r' = true)
  /\ (forall r, r ∈ tbl -> row_userId r <> u -> row_id r <> t -> r ∈ tbl')
  /\ (forall v k r,
        NoDup (keys tbl) ->
        tbl !! k = Some r -> row_id r = t -> row_userId r = v -> v <> u ->
        defaults_of u tbl' = []
        /\ length (defaults_of v tbl')
           = (length (defaults_of v tbl) + (if row_isDefault r then 0 else 1))%nat
        /\ (forall d, defaults_of v tbl = [d] -> row_id d <> t ->
              length (defaults_of v tbl') = 2%nat
              /\ d ∈ defaults_of v tbl'
              /\ with_isDefault true r ∈ defaults_of v tbl')).
Proof.
  rewrite setDefault_sqlite; simpl.
  split; [reflexivity|]. split; [|split; [|split; [|split; [|split]]]].
  - intros k r Hk. rewrite (list_lookup_fmap _ tbl k), Hk. reflexivity.
  - apply length_map.
  - intros r' Hin Hu Hid. apply list_elem_of_fmap in Hin as (x & -> & Hx).
    rewrite marked_userId in Hu. rewrite marked_id in Hid.
    by rewrite (marked_own u t x Hid Hu).
  - intros r' Hin Hid. apply list_elem_of_fmap in Hin as (x & -> & Hx).
    rewrite marked_id in Hid. by rewrite (marked_target u t x Hid).
  - intros r Hin Hu Hid. apply list_elem_of_fmap.
    exists r. split; [|exact Hin]. by rewrite (marked_other u t r Hid Hu).
  - intros v k r Hnd Hk Hid Hv Hvu.
    assert (Hcount : length (defaults_of v (map (marked u t) tbl))
                     = (length (defaults_of v tbl)
                        + (if row_isDefault r then 0 else 1))%nat).
    { rewrite (defaults_of_bystander u v t tbl Hvu), length_map.
      by apply (count_with_target v t tbl k r). }
    assert (Hin_t : with_isDefault true r ∈ defaults_of v (map (marked u t) tbl)).
    { unfold defaults_of. apply list_elem_of_filter. split; [by split|].
      apply list_elem_of_fmap. exists r.
      split; [by rewrite (marked_target u t r Hid)|].
      by eapply list_elem_of_lookup_2. }
    split; [|split; [exact Hcount|]].
    + rewrite defaults_of_caller. rewrite filter_none; [reflexivity|].
      intros x Hx [Hxt Hxu]. apply Hvu.
      apply list_elem_of_lookup in Hx as [j Hj].
      assert (j = k) as ->
        by (apply (SqlProps.key_position row_id tbl j k r x Hnd Hj Hk); congruence).
      congruence.
    + intros d Hd Hdt.
      assert (Hd_in : d ∈ defaults_of v tbl) by (rewrite Hd; apply list_elem_of_here).
      unfold defaults_of in Hd_in.
      apply list_elem_of_filter in Hd_in as [[Hdv Hdd] Hd_tbl].
      assert (Hr : row_isDefault r = false).
      { destruct (row_isDefault r) eqn:Hrd; [|reflexivity].
        exfalso. apply Hdt.
        assert (Hr_in : r ∈ defaults_of v tbl).
        { unfold defaults_of. apply list_elem_of_filter.
          split; [by split|]. by eapply list_elem_of_lookup_2. }
        rewrite Hd in Hr_in. apply list_elem_of_singleton in Hr_in. by subst d. }
      split; [|split; [|exact Hin_t]].
      * rewrite Hcount, Hd, Hr. reflexivity.
      * unfold defaults_of. apply list_elem_of_filter. split; [by split|].
        apply list_elem_of_fmap. exists d. split; [|exact Hd_tbl].
        rewrite (marked_other u t d Hdt); [reflexivity|congruence].
Qed.

(** ["ub"] owns [b2] and has the default [b1]: after [setDefault "ua" "b2"]
    it has two defaults and ["ua"] has none. *)
Lemma setDefault_not_scoped_to_user_witness :
  defaults_of "ua" (setDefault "ua" "b2" Sample.task_types).1 = []
  /\ length (defaults_of "ub" (setDefault "ua" "b2" Sample.task_types).1) = 2%nat.
Proof.
  assert (Hkey : NoDup (keys Sample.task_types)).
  { apply (bool_decide_unpack _). vm_compute. exact I. }
  destruct (setDefault_not_scoped_to_user "ua" "b2" Sample.task_types)
    as (_ & _ & _ & _ & _ & _ & Hforeign).
  destruct (Hforeign "ub" 3%nat Sample.b2 Hkey eq_refl eq_refl eq_refl)
    as (Hnone & _ & Htwo); [discriminate|].
  destruct (Htwo Sample.b1 eq_refl) as (Hlen & _); [discriminate|].
  split; [exact Hnone|exact Hlen].
Defined.

End TaskTypeProps.

(** ** The mapping layer *)
Module MapperProps.

(** C8, as stated, fails for the mappers that stamp a time: two calls of
    [toDbInsert] (either repository) or of the project [toDbUpdate] on the
    same input, made at different clock readings, return different rows. *)
Lemma mappers_clock_counterexample :
  let project := Sample.test_project in
  let taskType :=
    {| TaskTypeRepo.new_workspaceId := None; TaskTypeRepo.new_userId := "ua"; TaskTypeRepo.new_name := "Bug";
       TaskTypeRepo.new_icon := None; TaskTypeRepo.new_color := None; TaskTypeRepo.new_isDefault := false;
       TaskTypeRepo.new_displayOrder := 0 |} in
  let monday := "2024-03-04T09:00:00.000Z" in
  let tuesday := "2024-03-05T09:00:00.000Z" in
  (ProjectRepo.ins_createdAt (ProjectRepo.toDbInsert monday project) = monday
   /\ ProjectRepo.ins_createdAt (ProjectRepo.toDbInsert tuesday project) = tuesday
   /\ ProjectRepo.toDbInsert monday project <> ProjectRepo.toDbInsert tuesday project)
  /\ (ProjectRepo.set_updatedAt (ProjectRepo.toDbUpdate monday ProjectRepo.no_updates) = Some monday
      /\ ProjectRepo.set_updatedAt (ProjectRepo.toDbUpdate tuesday ProjectRepo.no_updates) = Some tuesday
      /\ ProjectRepo.toDbUpdate monday ProjectRepo.no_updates <> ProjectRepo.toDbUpdate tuesday ProjectRepo.no_updates)
  /\ (TaskTypeRepo.ins_createdAt (TaskTypeRepo.toDbInsert monday taskType) = monday
      /\ TaskTypeRepo.ins_createdAt (TaskTypeRepo.toDbInsert tuesday taskType) = tuesday
      /\ TaskTypeRepo.toDbInsert monday taskType <> TaskTypeRepo.toDbInsert tuesday taskType).
Proof.
  simpl. repeat split; try reflexivity; intros Heq; discriminate Heq.
Qed.

Section Calls.
Variable World : Type.
Variable now : M World string.

(** C8, amended. In every world and for every input:
    - [toDomain] of both repositories and the task type [toDbUpdate]
      return, leave the world as it was, and give the same result in any
      two worlds;
    - the two [toDbInsert] and the project [toDbUpdate] do what their one
      call of [now()] does and nothing more: when it returns a reading they
      return, in the world it left, a row whose timestamp fields carry the
      reading and whose other fields are those of the input; when it throws
      they throw the same error;
    - two calls of one of these on the same input return the same row
      exactly when [now()] gave them the same reading. *)
Theorem mappers_only_read_the_clock :
  (forall w row,
      ProjectMappers.toDomain World row w
      = (w, Return {| ProjectRepo.id := ProjectRepo.row_id row;
                      ProjectRepo.workspaceId := ProjectRepo.row_workspaceId row;
                      ProjectRepo.userId := ProjectRepo.row_userId row;
                      ProjectRepo.name := ProjectRepo.row_name row;
                      ProjectRepo.description := ProjectRepo.row_description row;
                      ProjectRepo.color := ProjectRepo.row_color row;
                      ProjectRepo.completionPercentage :=
                        ProjectRepo.row_completionPercentage row |}))
  /\ (forall w row,
      TaskTypeMappers.toDomain World row w
      = (w, Return {| TaskTypeRepo.id := TaskTypeRepo.row_id row;
                      TaskTypeRepo.workspaceId := TaskTypeRepo.row_workspaceId row;
                      TaskTypeRepo.userId := TaskTypeRepo.row_userId row;
                      TaskTypeRepo.name := TaskTypeRepo.row_name row;
                      TaskTypeRepo.icon := TaskTypeRepo.row_icon row;
                      TaskTypeRepo.color := TaskTypeRepo.row_color row;
                      TaskTypeRepo.isDefault := TaskTypeRepo.row_isDefault row;
                      TaskTypeRepo.displayOrder := TaskTypeRepo.row_displayOrder row |}))
  /\ (forall w taskType,
      TaskTypeMappers.toDbUpdate World taskType w
      = (w, Return {| TaskTypeRepo.set_id := TaskTypeRepo.upd_id taskType;
                      TaskTypeRepo.set_workspaceId := TaskTypeRepo.upd_workspaceId taskType;
                      TaskTypeRepo.set_userId := TaskTypeRepo.upd_userId taskType;
                      TaskTypeRepo.set_name := TaskTypeRepo.upd_name taskType;
                      TaskTypeRepo.set_icon := TaskTypeRepo.upd_icon taskType;
                      TaskTypeRepo.set_color := TaskTypeRepo.upd_color taskType;
                      TaskTypeRepo.set_isDefault := TaskTypeRepo.upd_isDefault taskType;
                      TaskTypeRepo.set_displayOrder := TaskTypeRepo.upd_displayOrder taskType;
                      TaskTypeRepo.set_createdAt := None |}))
  /\ (forall w1 w2 row,
      (ProjectMappers.toDomain World row w1).2 = (ProjectMappers.toDomain World row w2).2)
  /\ (forall w1 w2 row,
      (TaskTypeMappers.toDomain World row w1).2 = (TaskTypeMappers.toDomain World row w2).2)
  /\ (forall w1 w2 taskType,
      (TaskTypeMappers.toDbUpdate World taskType w1).2
      = (TaskTypeMappers.toDbUpdate World taskType w2).2)
  /\ (forall w project,
      ProjectMappers.toDbInsert World now project w
      = match now w with
        | (w', Return timestamp) =>
            (w', Return {| ProjectRepo.ins_workspaceId := ProjectRepo.new_workspaceId project;
                           ProjectRepo.ins_userId := ProjectRepo.new_userId project;
                           ProjectRepo.ins_name := ProjectRepo.new_name project;
                           ProjectRepo.ins_description := ProjectRepo.new_description project;
                           ProjectRepo.ins_color := ProjectRepo.new_color project;
                           ProjectRepo.ins_completionPercentage :=
                             ProjectRepo.new_completionPercentage project;
                           ProjectRepo.ins_createdAt := timestamp;
                           ProjectRepo.ins_updatedAt := timestamp;
                           ProjectRepo.ins_deleted := false |})
        | (w', Throw e) => (w', Throw e)
        end)
  /\ (forall w project,
      ProjectMappers.toDbUpdate World now project w
      = match now w with
        | (w', Return timestamp) =>
            (w', Return {| ProjectRepo.set_id := ProjectRepo.upd_id project;
                           ProjectRepo.set_workspaceId := ProjectRepo.upd_workspaceId project;
                           ProjectRepo.set_userId := ProjectRepo.upd_userId project;
                           ProjectRepo.set_name := ProjectRepo.upd_name project;
                           ProjectRepo.set_description := ProjectRepo.upd_description project;
                           ProjectRepo.set_color := ProjectRepo.upd_color project;
                           ProjectRepo.set_completionPercentage :=
                             ProjectRepo.upd_completionPercentage project;
                           ProjectRepo.set_createdAt := None;
                           ProjectRepo.set_updatedAt := Some timestamp;
                           ProjectRepo.set_deleted := None |})
        | (w', Throw e) => (w', Throw e)
        end)
  /\ (forall w taskType,
      TaskTypeMappers.toDbInsert World now taskType w
      = match now w with
        | (w', Return timestamp) =>
            (w', Return {| TaskTypeRepo.ins_workspaceId := TaskTypeRepo.new_workspaceId taskType;
                           TaskTypeRepo.ins_userId := TaskTypeRepo.new_userId taskType;
                           TaskTypeRepo.ins_name := TaskTypeRepo.new_name taskType;
                           TaskTypeRepo.ins_icon := TaskTypeRepo.new_icon taskType;
                           TaskTypeRepo.ins_color := TaskTypeRepo.new_color taskType;
                           TaskTypeRepo.ins_isDefault := TaskTypeRepo.new_isDefault taskType;
                           TaskTypeRepo.ins_displayOrder :=
                             TaskTypeRepo.new_displayOrder taskType;
                           TaskTypeRepo.ins_createdAt := timestamp |})
        | (w', Throw e) => (w', Throw e)
        end)
  /\ (forall w1 w1' t1 w2 w2' t2 project,
      now w1 = (w1', Return t1) -> now w2 = (w2', Return t2) ->
      ((ProjectMappers.toDbInsert World now project w1).2
       = (ProjectMappers.toDbInsert World now project w2).2 <-> t1 = t2))
  /\ (forall w1 w1' t1 w2 w2' t2 project,
      now w1 = (w1', Return t1) -> now w2 = (w2', Return t2) ->
      ((ProjectMappers.toDbUpdate World now project w1).2
       = (ProjectMappers.toDbUpdate World now project w2).2 <-> t1 = t2))
  /\ (forall w1 w1' t1 w2 w2' t2 taskType,
      now w1 = (w1', Return t1) -> now w2 = (w2', Return t2) ->
      ((TaskTypeMappers.toDbInsert World now taskType w1).2
       = (TaskTypeMappers.toDbInsert World now taskType w2).2 <-> t1 = t2)).
Proof.
  split; [reflexivity|]. split; [reflexivity|]. split; [reflexivity|].
  split; [reflexivity|]. split; [reflexivity|]. split; [reflexivity|].
  split; [|split; [|split]].
  - intros w project. unfold ProjectMappers.toDbInsert, bind.
    destruct (now w) as [w' [timestamp|e]]; reflexivity.
  - intros w project. unfold ProjectMappers.toDbUpdate, bind.
    destruct (now w) as [w' [timestamp|e]]; reflexivity.
  - intros w taskType. unfold TaskTypeMappers.toDbInsert, bind.
    destruct (now w) as [w' [timestamp|e]]; reflexivity.
  - split; [|split].
    + intros w1 w1' t1 w2 w2' t2 project H1 H2.
      unfold ProjectMappers.toDbInsert, bind. rewrite H1, H2. simpl.
      split; [|by intros ->].
      intros Heq. injection Heq. auto.
    + intros w1 w1' t1 w2 w2' t2 project H1 H2.
      unfold ProjectMappers.toDbUpdate, bind. rewrite H1, H2. simpl.
      split; [|by intros ->].
      intros Heq. injection Heq. auto.
    + intros w1 w1' t1 w2 w2' t2 taskType H1 H2.
      unfold TaskTypeMappers.toDbInsert, bind. rewrite H1, H2. simpl.
      split; [|by intros ->].
      intros Heq. injection Heq. auto.
Qed.

End Calls.

(** Two inserts of the same project while the clock moves: both calls
    return, the table is as it was, and the rows carry the two readings. *)
Example toDbInsert_twice :
  let world := (["2024-03-04T09:00:00.000Z"; "2024-03-05T09:00:00.000Z"],
                [Sample.p1; Sample.p2]) in
  (let* first := ProjectMappers.toDbInsert _ Sample.ticking Sample.test_project in
   let* second := ProjectMappers.toDbInsert _ Sample.ticking Sample.test_project in
   ret (ProjectRepo.ins_createdAt first, ProjectRepo.ins_createdAt second,
        ProjectRepo.ins_name first, ProjectRepo.ins_name second)) world
  = (([], [Sample.p1; Sample.p2]),
     Return ("2024-03-04T09:00:00.000Z", "2024-03-05T09:00:00.000Z",
             "Test Project", "Test Project")).
Proof. reflexivity. Qed.

End MapperProps.

(** ** Auth provider: the session functions *)
Module AuthSessionProps.
Import Auth.

Section Sessions.
Variable Backend : Type.
Variable auth_signOut : Backend -> Backend * option Exn.
Variable auth_getSession : Backend -> Backend * AuthResponse.
Variable auth_refreshSession : Backend -> Backend * AuthResponse.

#[local] Abbreviation signOut := (signOut Backend auth_signOut).
#[local] Abbreviation getCurrentSession := (getCurrentSession Backend auth_getSession).
#[local] Abbreviation refreshSession := (refreshSession Backend auth_refreshSession).

Lemma getCurrentSession_run b :
  getCurrentSession b
  = ((auth_getSession b).1,
     Return (mapSession <$> data_session (auth_getSession b).2)).
Proof.
  unfold Auth.getCurrentSession, bind, answer.
  destruct (auth_getSession b) as [b' r]; simpl.
  destruct (data_session r); reflexivity.
Qed.

(** X1. Which session functions surface a backend error. [signOut] and
    [getCurrentSession] return normally whatever the backend answers: an
    error reported by sign-out or by the session lookup is dropped, and the
    result of [getCurrentSession] is the mapped session, or null, of the
    answer. [refreshSession] throws the reported error, also when the answer
    carries a session, and otherwise returns the mapped session or null. *)
Theorem session_functions_error_policy b :
  (signOut b = ((auth_signOut b).1, Return tt))
  /\ (getCurrentSession b
      = ((auth_getSession b).1,
         Return (mapSession <$> data_session (auth_getSession b).2)))
  /\ (let r := (auth_refreshSession b).2 in
      (exists e, error r = Some e /\ (refreshSession b).2 = Throw e)
      \/ (error r = None
          /\ (refreshSession b).2 = Return (mapSession <$> data_session r))).
Proof.
  split; [|split].
  - unfold Auth.signOut, bind, answer.
    destruct (auth_signOut b) as [b' e]; reflexivity.
  - apply getCurrentSession_run.
  - unfold Auth.refreshSession, bind, answer.
    destruct (auth_refreshSession b) as [b' r]; simpl.
    destruct (error r) as [e|].
    + left. by exists e.
    + right. split; [reflexivity|]. destruct (data_session r); reflexivity.
Qed.

(** X2. The connector and the provider read the same lookup alike:
    whenever [fetchCredentials] returns a credential, [getCurrentSession] on
    the same backend state returns a session with that token and that
    expiry, and whenever it returns null so does [getCurrentSession]. *)
Theorem credentials_agree_with_session powersyncUrl b c :
  (Connector.fetchCredentials powersyncUrl Backend auth_getSession b).2 = Return c ->
  match c with
  | Some c =>
      exists s, (getCurrentSession b).2 = Return (Some s)
                /\ accessToken s = Connector.token c
                /\ expiresAt s = Connector.expiresAt c
  | None => (getCurrentSession b).2 = Return None
  end.
Proof.
  rewrite getCurrentSession_run.
  unfold Connector.fetchCredentials, bind, answer.
  destruct (auth_getSession b) as [b' r]; simpl.
  destruct (error r); [discriminate|].
  destruct (data_session r) as [session|]; simpl; intros [= <-].
  - eexists. split; [reflexivity|]. split; reflexivity.
  - reflexivity.
Qed.

End Sessions.

Lemma credentials_agree_with_session_witness :
  exists s,
    (getCurrentSession _ Sample.session_of
       {| data_session := Some Sample.alice; error := None |}).2 = Return (Some s)
    /\ accessToken s = "jwt-1"
    /\ expiresAt s = Some (Instant 1700000000000).
Proof.
  exact (credentials_agree_with_session _ Sample.session_of "https://sync.example"
           {| data_session := Some Sample.alice; error := None |}
           (Some {| Connector.endpoint := "https://sync.example";
                    Connector.token := "jwt-1";
                    Connector.expiresAt := Some (Instant 1700000000000) |})
           eq_refl).
Defined.

(** A lookup that reports an error together with a session: the provider
    returns the session, the connector throws. *)
Example lookup_error_with_session :
  let b := {| data_session := Some Sample.alice; error := Some (AuthError "stale") |} in
  (getCurrentSession _ Sample.session_of b).2 = Return (Some (mapSession Sample.alice))
  /\ (Connector.fetchCredentials "https://sync.example" _ Sample.session_of b).2
     = Throw (AuthError "stale").
Proof. split; reflexivity. Qed.

(** X3. The expiry of a mapped session, for a backend expiry in whole
    epoch seconds: absent exactly when the backend gives no [expires_at] or
    gives 0; the instant of the seconds times 1000 when that lies within
    8.64e15 ms of the epoch, and the Invalid Date beyond. The access token
    and refresh token are passed through, the user id is the backend's, and
    the time zone is left empty. *)
Theorem mapSession_expiry session :
  (expiresAt (mapSession session) = None
   <-> expires_at session = None \/ expires_at session = Some 0)
  /\ (forall n, expires_at session = Some n -> n <> 0 ->
        -8640000000000 <= n <= 8640000000000 ->
        expiresAt (mapSession session) = Some (Instant (n * 1000)))
  /\ (forall n, expires_at session = Some n ->
        n < -8640000000000 \/ 8640000000000 < n ->
        expiresAt (mapSession session) = Some InvalidDate)
  /\ accessToken (mapSession session) = access_token session
  /\ refreshToken (mapSession session) = refresh_token session
  /\ id (session_user (mapSession session)) = su_id (user session)
  /\ timezone (session_user (mapSession session)) = "".
Proof.
  unfold mapSession; simpl. unfold date_of_epoch_seconds, truthy_number.
  split; [|split; [|split; [|repeat split]]].
  - destruct (expires_at session) as [[|n|n]|]; split;
      try (intros [H|H]); try discriminate; intros; auto.
  - intros n -> Hn Hrange.
    assert (Hms : new_Date (n * 1000) = Instant (n * 1000)).
    { unfold new_Date. destruct (Z.leb_spec (Z.abs (n * 1000)) 8640000000000000);
        [reflexivity|lia]. }
    destruct n; [contradiction|exact (f_equal Some Hms)..].
  - intros n -> Hrange.
    assert (Hms : new_Date (n * 1000) = InvalidDate).
    { unfold new_Date. destruct (Z.leb_spec (Z.abs (n * 1000)) 8640000000000000);
        [lia|reflexivity]. }
    destruct n; [lia|exact (f_equal Some Hms)..].
Qed.

Example mapSession_expiry_at_the_bound :
  date_of_epoch_seconds (Some 8640000000000) = Some (Instant 8640000000000000)
  /\ date_of_epoch_seconds (Some 8640000000001) = Some InvalidDate
  /\ date_of_epoch_seconds (Some (-8640000000001)) = Some InvalidDate.
Proof. repeat split; reflexivity. Qed.

End AuthSessionProps.

(** ** Sync connector: every remote store and every engine *)
Module UploadProps.
Import Connector.

Section Upload.
Variable Remote : Type.
Variable remote_exec : RemoteCall -> Remote -> Remote * option Exn.
Variable Local : Type.
Variable getNextCrudTransaction : M Local (option CrudTransaction).
Variable complete : CrudTransaction -> M Local unit.

#[local] Abbreviation World := (World Remote Local).
#[local] Abbreviation upload_op := (upload_op Remote remote_exec Local).
#[local] Abbreviation uploadData :=
  (uploadData Remote remote_exec Local getNextCrudTransaction complete).
#[local] Abbreviation accepted := (accepted Remote remote_exec).

(** Against any remote store, either every call of [ops] is accepted in
    turn, or there is a first call that is refused. *)
Lemma first_refusal (ops : list CrudEntry) : forall r,
  (exists r', accepted (remote_calls ops) r r')
  \/ (exists pre o post r1 r2 e,
        ops = pre ++ o :: post
        /\ accepted (remote_calls pre) r r1
        /\ remote_exec (remote_call o) r1 = (r2, Some e)).
Proof.
  induction ops as [|o ops IH]; intros r.
  - left. exists r. constructor.
  - destruct (remote_exec (remote_call o) r) as [r1 [e|]] eqn:Hex.
    + right. exists [], o, ops, r, r1, e. repeat split; [constructor|exact Hex].
    + destruct (IH r1) as [(r' & Hacc)|(pre & o' & post & ra & rb & e & -> & Hacc & Hex')].
      * left. exists r'. by apply (accepted_cons _ _ _ _ r r1 r').
      * right. exists (o :: pre), o', post, ra, rb, e.
        repeat split; [|exact Hex'].
        by apply (accepted_cons _ _ _ _ r r1 ra).
Qed.

(** X4. Without a pending batch [uploadData] is a no-op: it returns, makes
    no remote call, logs nothing and completes nothing; the remote store is
    as it was and the engine as the read left it. *)
Theorem uploadData_without_batch (w : World) l :
  getNextCrudTransaction (local w) = (l, Return None) ->
  uploadData w = ({| remote := remote w; local := l; trace := trace w |}, Return tt).
Proof.
  intros Hnext. unfold Connector.uploadData, bind, on_local.
  rewrite Hnext. reflexivity.
Qed.

(** X5. When the remote store accepts every call of the batch but
    [complete] throws, the error is logged and thrown again; the writes
    have reached the remote store (it is in the state after the whole
    batch), so the retry of this batch replays them all. *)
Theorem uploadData_complete_throws (w : World) l l' (t : CrudTransaction) r' e :
  getNextCrudTransaction (local w) = (l, Return (Some t)) ->
  accepted (remote_calls (crud t)) (remote w) r' ->
  complete t l = (l', Throw e) ->
  uploadData w
  = ({| remote := r'; local := l';
        trace := trace w ++ map Called (remote_calls (crud t))
                         ++ [Completed t;
                             ConsoleError "Upload failed, will retry:" e] |},
     Throw e).
Proof.
  intros Hnext Hacc Hdone.
  unfold Connector.uploadData, bind, on_local, try_catch. rewrite Hnext.
  set (w1 := {| remote := remote w; local := l; trace := trace w |}).
  rewrite (ConnectorProps.for_of_accepted _ _ _ (crud t) w1 r' Hacc).
  unfold transaction_complete; simpl. rewrite Hdone.
  unfold console_error, throw; simpl.
  rewrite <- !app_assoc. reflexivity.
Qed.

(** X6. Against any remote store and any engine, an upload of a pending
    batch goes one of three ways and no other. Either the remote store
    accepts every call of the batch, in order, and the upload then
    completes the batch and returns; or it accepts them all, the completion
    throws, and the upload logs and throws that error; or some call is the
    first to be refused, and then the calls made are those up to and
    including it, none after it, the batch is not completed, the engine is
    as the read left it, and the refusal is logged and thrown. *)
Theorem uploadData_stops_at_first_refusal (w : World) l (t : CrudTransaction) :
  getNextCrudTransaction (local w) = (l, Return (Some t)) ->
  (exists r',
      accepted (remote_calls (crud t)) (remote w) r'
      /\ ((exists l',
             complete t l = (l', Return tt)
             /\ uploadData w
                = ({| remote := r'; local := l';
                      trace := trace w ++ map Called (remote_calls (crud t))
                                       ++ [Completed t] |}, Return tt))
          \/ (exists l' e,
                complete t l = (l', Throw e)
                /\ uploadData w
                   = ({| remote := r'; local := l';
                         trace := trace w ++ map Called (remote_calls (crud t))
                                          ++ [Completed t;
                                              ConsoleError "Upload failed, will retry:" e] |},
                      Throw e))))
  \/ (exists pre o post r1 r2 e,
        crud t = pre ++ o :: post
        /\ accepted (remote_calls pre) (remote w) r1
        /\ remote_exec (remote_call o) r1 = (r2, Some e)
        /\ uploadData w
           = ({| remote := r2; local := l;
                 trace := trace w ++ map Called (remote_calls (pre ++ [o]))
                                  ++ [ConsoleError "Upload failed, will retry:" e] |},
              Throw e)).
Proof.
  intros Hnext.
  destruct (first_refusal (crud t) (remote w))
    as [(r' & Hacc)|(pre & o & post & r1 & r2 & e & Hcrud & Hacc & Hex)].
  - left. exists r'. split; [exact Hacc|].
    destruct (complete t l) as [l' [[]|e]] eqn:Hdone.
    + left. exists l'. split; [reflexivity|].
      unfold Connector.uploadData, bind, on_local, try_catch. rewrite Hnext.
      set (w1 := {| remote := remote w; local := l; trace := trace w |}).
      rewrite (ConnectorProps.for_of_accepted _ _ _ (crud t) w1 r' Hacc).
      unfold transaction_complete; simpl. rewrite Hdone.
      rewrite <- app_assoc. reflexivity.
    + right. exists l', e. split; [reflexivity|].
      unfold Connector.uploadData, bind, on_local, try_catch. rewrite Hnext.
      set (w1 := {| remote := remote w; local := l; trace := trace w |}).
      rewrite (ConnectorProps.for_of_accepted _ _ _ (crud t) w1 r' Hacc).
      unfold transaction_complete; simpl. rewrite Hdone.
      unfold console_error, throw; simpl.
      rewrite <- !app_assoc. reflexivity.
  - right. exists pre, o, post, r1, r2, e.
    split; [exact Hcrud|]. split; [exact Hacc|]. split; [exact Hex|].
    unfold Connector.uploadData, bind, on_local, try_catch. rewrite Hnext.
    set (w1 := {| remote := remote w; local := l; trace := trace w |}).
    rewrite Hcrud.
    rewrite (ConnectorProps.for_of_refused _ _ _ pre o post w1 r1 r2 e Hacc Hex).
    unfold console_error, throw; simpl.
    rewrite <- app_assoc. reflexivity.
Qed.

End Upload.

(** X7. A create is upserted under the id of the operation: the upserted
    row has [id] set to that id, also when the queued record holds another
    [id], and every other column is the record's. *)
Theorem upsert_carries_operation_id (o : CrudEntry) :
  op o = PUT ->
  exists values,
    remote_call o = Upsert (table o) values "id"
    /\ values !! "id" = Some (id o)
    /\ (forall column, column <> "id" ->
          values !! column = (opData o ≫= fun record => record !! column)).
Proof.
  intros Hop. unfold remote_call. rewrite Hop.
  exists (with_id (opData o) (id o)). split; [reflexivity|].
  unfold with_id. split.
  - apply lookup_insert_eq.
  - intros column Hne. rewrite lookup_insert_ne by congruence.
    destruct (opData o); simpl; [reflexivity|apply lookup_empty].
Qed.

Lemma uploadData_without_batch_witness :
  Connector.uploadData _ Sample.permissive _ Sample.next_batch Sample.pop_batch
    Sample.world_idle
  = (Sample.world_idle, Return tt).
Proof.
  exact (uploadData_without_batch _ Sample.permissive _ Sample.next_batch
           Sample.pop_batch Sample.world_idle [] eq_refl).
Defined.

Lemma uploadData_complete_throws_witness :
  (Connector.uploadData _ Sample.permissive _ Sample.next_batch Sample.stuck_batch
     Sample.world_A).2
  = Throw (EngineError "database is locked")
  /\ length (remote (Connector.uploadData _ Sample.permissive _ Sample.next_batch
                       Sample.stuck_batch Sample.world_A).1) = 3%nat.
Proof.
  assert (Hacc : accepted _ Sample.permissive
                   (remote_calls (crud Sample.batch_A)) []
                   (remote_calls (crud Sample.batch_A))).
  { eapply accepted_cons; [reflexivity|].
    eapply accepted_cons; [reflexivity|].
    eapply accepted_cons; [reflexivity|].
    apply accepted_nil. }
  pose proof (uploadData_complete_throws _ Sample.permissive _ Sample.next_batch
                Sample.stuck_batch Sample.world_A [Sample.batch_A] [Sample.batch_A]
                Sample.batch_A _ (EngineError "database is locked")
                eq_refl Hacc eq_refl) as Hrun.
  split.
  - exact (f_equal snd Hrun).
  - exact (f_equal (fun x => length (remote x.1)) Hrun).
Defined.

(** A remote store that refuses deletes, on [create A; update A;
    delete A]: a first refusal exists and the upload throws it. *)
Lemma uploadData_stops_at_first_refusal_witness :
  exists pre o post r2 e,
    crud Sample.batch_A = pre ++ o :: post
    /\ Sample.no_delete (remote_call o) (remote_calls pre) = (r2, Some e)
    /\ (Connector.uploadData _ Sample.no_delete _ Sample.next_batch
          Sample.pop_batch Sample.world_A).2 = Throw e.
Proof.
  destruct (uploadData_stops_at_first_refusal _ Sample.no_delete _
              Sample.next_batch Sample.pop_batch Sample.world_A
              [Sample.batch_A] Sample.batch_A eq_refl)
    as [(r' & Hacc & _)|(pre & o & post & r1 & r2 & e & Hcrud & Hacc & Hex & Hrun)].
  - exfalso. unfold remote_calls in Hacc. simpl in Hacc.
    inversion Hacc as [|c1 cs1 ra1 rb1 rc1 Hex1 Hrest1]; subst.
    inversion Hrest1 as [|c2 cs2 ra2 rb2 rc2 Hex2 Hrest2]; subst.
    inversion Hrest2 as [|c3 cs3 ra3 rb3 rc3 Hex3 Hrest3]; subst.
    discriminate Hex3.
  - exists pre, o, post, r2, e. split; [exact Hcrud|]. split.
    + assert (Hlog : forall cs r r', accepted _ Sample.no_delete cs r r' -> r' = r ++ cs).
      { induction 1 as [|c cs ra rb rc Hc _ IH]; [by rewrite app_nil_r|].
        rewrite IH. destruct c; try discriminate Hc;
          injection Hc as <-; by rewrite <- app_assoc. }
      rewrite (Hlog _ _ _ Hacc) in Hex. exact Hex.
    + exact (f_equal snd Hrun).
Defined.

Lemma upsert_carries_operation_id_witness :
  exists values,
    remote_call Sample.create_B = Upsert "projects" values "id"
    /\ values !! "id" = Some "B"
    /\ values !! "name" = Some "Beta".
Proof.
  destruct (upsert_carries_operation_id Sample.create_B eq_refl)
    as (values & Hcall & Hid & Hrest).
  exists values. split; [exact Hcall|]. split; [exact Hid|].
  rewrite (Hrest "name") by discriminate. reflexivity.
Defined.

End UploadProps.

(** ** Queries on the SQLite table *)
Module QueryProps.

Section Queries.
Context {Row : Type}.

Lemma place_Permutation before (x : Row) (rows : list Row) :
  Sql.place before x rows ≡ₚ x :: rows.
Proof.
  induction rows as [|y rest IH]; simpl; [reflexivity|].
  destruct (before x y); [reflexivity|].
  rewrite IH. apply Permutation_swap.
Qed.

Lemma order_by_Permutation before (rows : list Row) :
  Sql.order_by before rows ≡ₚ rows.
Proof.
  induction rows as [|x rest IH]; simpl; [reflexivity|].
  rewrite place_Permutation. by rewrite IH.
Qed.

Lemma place_Sorted before (x : Row) (rows : list Row) :
  Total (Sql.ordered before) ->
  Sorted (Sql.ordered before) rows ->
  Sorted (Sql.ordered before) (Sql.place before x rows).
Proof.
  intros Htotal. induction 1 as [|y rest Hrest IH Hhd]; simpl.
  - repeat constructor.
  - destruct (before x y) eqn:Hxy.
    + constructor; [by constructor|]. by constructor.
    + constructor; [exact IH|].
      assert (Hyx : Sql.ordered before y x).
      { destruct (Htotal x y) as [H|H]; [|exact H].
        unfold Sql.ordered in H. congruence. }
      destruct Hhd as [|z rest' Hyz]; simpl; [by constructor|].
      destruct (before x z); by constructor.
Qed.

Lemma order_by_Sorted before (rows : list Row) :
  Total (Sql.ordered before) ->
  Sorted (Sql.ordered before) (Sql.order_by before rows).
Proof.
  intros Htotal. induction rows as [|x rest IH]; simpl; [constructor|].
  by apply place_Sorted.
Qed.

Lemma findMany_permutation (cond : Row -> bool) before (tbl : list Row) rows :
  (Sql.findMany cond before tbl).2 = Return rows ->
  rows ≡ₚ List.filter cond tbl.
Proof. intros [= <-]. apply order_by_Permutation. Qed.

Lemma findMany_sorted (cond : Row -> bool) before (tbl : list Row) rows :
  Total (Sql.ordered before) ->
  (Sql.findMany cond before tbl).2 = Return rows ->
  Sorted (Sql.ordered before) rows.
Proof. intros Htotal [= <-]. by apply order_by_Sorted. Qed.

Lemma elem_of_filter_bool (cond : Row -> bool) (tbl : list Row) r :
  r ∈ List.filter cond tbl <-> r ∈ tbl /\ cond r = true.
Proof. rewrite !list_elem_of_In. apply List.filter_In. Qed.

(** Replacing the row at one position moves the number of matches by the
    difference between the old row and the new one. *)
Lemma length_filter_insert (cond : Row -> bool) (tbl : list Row) : forall k x y,
  tbl !! k = Some x ->
  (length (List.filter cond (<[k := y]> tbl)) + (if cond x then 1 else 0)
   = length (List.filter cond tbl) + (if cond y then 1 else 0))%nat.
Proof.
  induction tbl as [|z tbl IH]; intros k x y Hk; [discriminate|].
  destruct k as [|k]; simpl in *.
  - injection Hk as ->. destruct (cond x), (cond y); simpl; lia.
  - specialize (IH k x y Hk). destruct (cond z); simpl; lia.
Qed.

Lemma filter_map_same (cond : Row -> bool) (g : Row -> Row) (tbl : list Row) :
  (forall r, cond (g r) = cond r) ->
  List.filter cond (map g tbl) = map g (List.filter cond tbl).
Proof.
  intros Hc. induction tbl as [|x tbl IH]; simpl; [reflexivity|].
  rewrite Hc. destruct (cond x); simpl; by rewrite IH.
Qed.

End Queries.

Section Writes.
Context {Row Patch : Type}.
Variable primary_key : string.
Variable key : Row -> string.
Variable apply_patch : Patch -> Row -> Row.

(** A statement is applied as a whole or not at all. *)
Lemma update_all_or_nothing patch cond (tbl : list Row) :
  (Sql.update primary_key key apply_patch patch cond tbl
   = (Sql.updated apply_patch patch cond tbl, Return tt)
   /\ (Sql.keys key (Sql.updated apply_patch patch cond tbl) = Sql.keys key tbl
       \/ NoDup (Sql.keys key (Sql.updated apply_patch patch cond tbl))))
  \/ Sql.update primary_key key apply_patch patch cond tbl
     = (tbl, Throw (Sql.unique_failed primary_key)).
Proof.
  unfold Sql.update.
  destruct (bool_decide (Sql.keys key (Sql.updated apply_patch patch cond tbl)
                         = Sql.keys key tbl)) eqn:Hsame.
  - left. split; [reflexivity|]. left. by apply bool_decide_eq_true in Hsame.
  - destruct (bool_decide (NoDup (Sql.keys key
                (Sql.updated apply_patch patch cond tbl)))) eqn:Hnd.
    + left. split; [reflexivity|]. right. by apply bool_decide_eq_true in Hnd.
    + right. reflexivity.
Qed.

Lemma update_keeps_primary_key patch cond (tbl : list Row) :
  NoDup (Sql.keys key tbl) ->
  NoDup (Sql.keys key (Sql.update primary_key key apply_patch patch cond tbl).1)
  /\ length (Sql.update primary_key key apply_patch patch cond tbl).1 = length tbl.
Proof.
  intros Hkey.
  destruct (update_all_or_nothing patch cond tbl) as [[-> Hk]| ->]; simpl.
  - split; [|apply length_map]. destruct Hk as [->|Hk]; assumption.
  - by split.
Qed.

Lemma insert_keeps_primary_key row (tbl : list Row) :
  NoDup (Sql.keys key tbl) ->
  NoDup (Sql.keys key (Sql.insert primary_key key row tbl).1).
Proof.
  intros Hkey. unfold Sql.insert.
  destruct (bool_decide (key row ∈ Sql.keys key tbl)) eqn:Hin; simpl.
  - exact Hkey.
  - apply bool_decide_eq_false in Hin.
    unfold Sql.keys. rewrite List.map_app. simpl.
    apply NoDup_app. split; [exact Hkey|]. split.
    + intros x Hx Hx'. apply list_elem_of_singleton in Hx'. by subst x.
    + apply NoDup_singleton.
Qed.

End Writes.

(** Text order: [String.leb] is a total preorder. *)
Lemma leb_refl s : String.leb s s = true.
Proof. destruct (String.leb_total s s); assumption. Qed.

End QueryProps.

(** ** Project repository: lists, counts and what the writes keep *)
Module ProjectQueryProps.
Import ProjectRepo.

#[local] Abbreviation keys := (Sql.keys row_id).
#[local] Abbreviation by_id i := (fun r : ProjectRow => eq_str (row_id r) i).
#[local] Abbreviation live i :=
  (fun r : ProjectRow => eq_str (row_id r) i && eq_bool (row_deleted r) false).
#[local] Abbreviation of_user u :=
  (fun r : ProjectRow => eq_str (row_userId r) u && eq_bool (row_deleted r) false).
#[local] Abbreviation of_workspace w :=
  (fun r : ProjectRow => eq_str (row_workspaceId r) w && eq_bool (row_deleted r) false).

Lemma and_live_true (a b : string) (d : bool) :
  eq_str a b && eq_bool d false = true <-> a = b /\ d = false.
Proof.
  rewrite andb_true_iff, ProjectProps.eq_str_true. unfold eq_bool.
  destruct d; simpl; intuition congruence.
Qed.

#[local] Instance desc_createdAt_total : Total (Sql.ordered desc_createdAt).
Proof.
  intros a b. unfold Sql.ordered, desc_createdAt.
  destruct (String.leb_total (row_createdAt b) (row_createdAt a)); auto.
Qed.

Lemma count_sqlite u (tbl : list ProjectRow) :
  count u tbl = (tbl, Return (length (List.filter (of_user u) tbl))).
Proof. reflexivity. Qed.

Lemma countByWorkspace_sqlite w (tbl : list ProjectRow) :
  countByWorkspace w tbl = (tbl, Return (length (List.filter (of_workspace w) tbl))).
Proof. reflexivity. Qed.

(** X8. [findByUserId] reads without writing and returns the domain
    objects of exactly the stored rows of that user that are not deleted,
    each once per row, latest [createdAt] first; [count] of the user is the
    length of that list. *)
Theorem findByUserId_lists_live_projects u (tbl : list ProjectRow) :
  exists rows,
    findByUserId u tbl = (tbl, Return (map toDomain rows))
    /\ rows ≡ₚ List.filter (of_user u) tbl
    /\ (forall r, r ∈ rows <-> r ∈ tbl /\ row_userId r = u /\ row_deleted r = false)
    /\ Sorted (fun a b => String.leb (row_createdAt b) (row_createdAt a) = true) rows
    /\ count u tbl = (tbl, Return (length (map toDomain rows))).
Proof.
  exists (Sql.order_by desc_createdAt (List.filter (of_user u) tbl)).
  assert (Hperm := QueryProps.order_by_Permutation desc_createdAt
                     (List.filter (of_user u) tbl)).
  split; [reflexivity|]. split; [exact Hperm|]. split; [|split].
  - intros r. rewrite Hperm, QueryProps.elem_of_filter_bool, and_live_true.
    reflexivity.
  - apply QueryProps.order_by_Sorted, desc_createdAt_total.
  - rewrite count_sqlite, length_map, Hperm. reflexivity.
Qed.

(** X9. [findByWorkspaceId] returns the domain objects of exactly the
    stored rows of that workspace that are not deleted, whoever owns them,
    latest [createdAt] first; [countByWorkspace] is the length of that
    list. *)
Theorem findByWorkspaceId_lists_live_projects w (tbl : list ProjectRow) :
  exists rows,
    findByWorkspaceId w tbl = (tbl, Return (map toDomain rows))
    /\ rows ≡ₚ List.filter (of_workspace w) tbl
    /\ (forall r, r ∈ rows
                  <-> r ∈ tbl /\ row_workspaceId r = w /\ row_deleted r = false)
    /\ Sorted (fun a b => String.leb (row_createdAt b) (row_createdAt a) = true) rows
    /\ countByWorkspace w tbl = (tbl, Return (length (map toDomain rows))).
Proof.
  exists (Sql.order_by desc_createdAt (List.filter (of_workspace w) tbl)).
  assert (Hperm := QueryProps.order_by_Permutation desc_createdAt
                     (List.filter (of_workspace w) tbl)).
  split; [reflexivity|]. split; [exact Hperm|]. split; [|split].
  - intros r. rewrite Hperm, QueryProps.elem_of_filter_bool, and_live_true.
    reflexivity.
  - apply QueryProps.order_by_Sorted, desc_createdAt_total.
  - rewrite countByWorkspace_sqlite, length_map, Hperm. reflexivity.
Qed.

Example findByUserId_latest_first :
  findByUserId "user_1"
    [Sample.p1; flagged "2024-03-01T00:00:00.000Z" Sample.p1; Sample.p2]
  = ([Sample.p1; flagged "2024-03-01T00:00:00.000Z" Sample.p1; Sample.p2],
     Return [toDomain Sample.p2; toDomain Sample.p1]).
Proof. vm_compute. reflexivity. Qed.

Lemma delete_at now i (tbl : list ProjectRow) k r :
  NoDup (keys tbl) -> tbl !! k = Some r -> row_id r = i ->
  delete now i tbl = (<[k := flagged now r]> tbl, Return tt).
Proof.
  intros Hkey Hk Hid. rewrite ProjectProps.delete_sqlite. f_equal.
  apply list_eq. intros j. rewrite (list_lookup_fmap _ tbl j).
  destruct (decide (j = k)) as [->|Hne].
  - rewrite Hk; simpl. rewrite <- Hid, ProjectProps.eq_str_refl.
    rewrite list_lookup_insert_eq; [reflexivity|by eapply lookup_lt_Some].
  - rewrite list_lookup_insert_ne by congruence.
    destruct (tbl !! j) as [r'|] eqn:Hj; simpl; [|reflexivity].
    destruct (eq_str (row_id r') i) eqn:Hr'; [|reflexivity].
    apply ProjectProps.eq_str_true in Hr'. exfalso. apply Hne.
    apply (SqlProps.key_position row_id tbl j k r r' Hkey Hj Hk). congruence.
Qed.

Lemma delete_no_live now i (tbl : list ProjectRow) (cond : ProjectRow -> bool) :
  (forall r, r ∈ tbl -> row_id r = i -> row_deleted r = true) ->
  (forall r, row_deleted r = true -> cond r = false) ->
  (forall r, cond (flagged now r) = false) ->
  List.filter cond (delete now i tbl).1 = List.filter cond tbl.
Proof.
  intros Hdead Hcond Hflag. rewrite ProjectProps.delete_sqlite; simpl.
  induction tbl as [|x tbl IH]; simpl; [reflexivity|].
  rewrite IH by (intros r Hin; apply Hdead; by apply list_elem_of_further).
  destruct (eq_str (row_id x) i) eqn:Hx; [|reflexivity].
  apply ProjectProps.eq_str_true in Hx.
  rewrite Hflag, (Hcond x); [reflexivity|].
  apply Hdead; [apply list_elem_of_here|exact Hx].
Qed.

(** X10. Deleting a stored, live project lowers the count of its owner and
    the count of its workspace by one and leaves every other count as it
    was; deleting an id that no live row has leaves every count as it
    was. *)
Theorem delete_lowers_count now i (tbl : list ProjectRow) :
  NoDup (keys tbl) ->
  let tbl' := (delete now i tbl).1 in
  (forall k r u w n m,
      tbl !! k = Some r -> row_id r = i -> row_deleted r = false ->
      (count u tbl').2 = Return n ->
      (countByWorkspace w tbl').2 = Return m ->
      (count u tbl).2 = Return (if eq_str (row_userId r) u then S n else n)
      /\ (countByWorkspace w tbl).2
         = Return (if eq_str (row_workspaceId r) w then S m else m))
  /\ ((forall r, r ∈ tbl -> row_id r = i -> row_deleted r = true) ->
      forall u w,
        (count u tbl').2 = (count u tbl).2
        /\ (countByWorkspace w tbl').2 = (countByWorkspace w tbl).2).
Proof.
  intros Hkey tbl'. split.
  - intros k r u w n m Hk Hid Hlive. subst tbl'.
    rewrite (delete_at now i tbl k r Hkey Hk Hid). cbn [fst snd].
    rewrite !count_sqlite, !countByWorkspace_sqlite. cbn [fst snd].
    intros [= <-] [= <-].
    pose proof (QueryProps.length_filter_insert (of_user u) tbl k r
                  (flagged now r) Hk) as Hu.
    pose proof (QueryProps.length_filter_insert (of_workspace w) tbl k r
                  (flagged now r) Hk) as Hw.
    simpl in Hu, Hw. rewrite Hlive in Hu, Hw. rewrite !andb_false_r in Hu, Hw.
    rewrite !andb_true_r in Hu, Hw.
    split; f_equal.
    + destruct (eq_str (row_userId r) u); lia.
    + destruct (eq_str (row_workspaceId r) w); lia.
  - intros Hdead u w. subst tbl'.
    rewrite !count_sqlite, !countByWorkspace_sqlite. cbn [fst snd].
    rewrite (delete_no_live now i tbl (of_user u) Hdead),
            (delete_no_live now i tbl (of_workspace w) Hdead).
    + split; reflexivity.
    + intros r Hr. rewrite Hr. apply andb_false_r.
    + intros r. apply andb_false_r.
    + intros r Hr. rewrite Hr. apply andb_false_r.
    + intros r. apply andb_false_r.
Qed.

Lemma delete_lowers_count_witness :
  (count "user_1" [Sample.p1; Sample.p2]).2 = Return 2%nat
  /\ (count "user_1"
        (delete "2024-03-01T00:00:00.000Z" "p1" [Sample.p1; Sample.p2]).1).2
     = Return 1%nat.
Proof.
  assert (Hkey : NoDup (keys [Sample.p1; Sample.p2])).
  { apply (bool_decide_unpack _). vm_compute. exact I. }
  destruct (delete_lowers_count "2024-03-01T00:00:00.000Z" "p1"
              [Sample.p1; Sample.p2] Hkey) as [Hlive _].
  destruct (Hlive 0%nat Sample.p1 "user_1" "workspace_1" 1%nat 1%nat
              eq_refl eq_refl eq_refl eq_refl eq_refl) as [Hu _].
  split; [exact Hu|reflexivity].
Defined.

Lemma create_fresh generatedId now project (tbl : list ProjectRow) :
  generatedId ∉ keys tbl ->
  create generatedId now project tbl
  = (tbl ++ [values generatedId (toDbInsert now project)],
     Return (as_project generatedId project)).
Proof.
  intros Hfresh. unfold create, bind. simpl db_insert.
  rewrite SqlProps.insert_fresh by exact Hfresh.
  rewrite ProjectProps.findById_sqlite.
  rewrite SqlProps.find_app_no_match.
  - simpl. rewrite ProjectProps.eq_str_refl. reflexivity.
  - intros r Hin. apply ProjectProps.live_false. left. intros Heq.
    apply Hfresh. rewrite <- Heq. by apply SqlProps.key_elem_of.
Qed.

Lemma create_taken generatedId now project (tbl : list ProjectRow) :
  generatedId ∈ keys tbl ->
  create generatedId now project tbl
  = (tbl, Throw (SqliteError "UNIQUE constraint failed: projects.id")).
Proof.
  intros Htaken. unfold create, bind. simpl db_insert.
  rewrite SqlProps.insert_taken by exact Htaken. reflexivity.
Qed.

(** X11. A [create] under a fresh id raises by one the count of the
    project's user and of its workspace and no other count, and the new
    project is in the user's list; under an id already stored it throws the
    store's constraint error and leaves the table as it was. *)
Theorem create_raises_count generatedId now project (tbl : list ProjectRow) :
  (generatedId ∉ keys tbl ->
   let tbl' := (create generatedId now project tbl).1 in
   (forall u n, (count u tbl).2 = Return n ->
      (count u tbl').2
      = Return (if eq_str (new_userId project) u then S n else n))
   /\ (forall w n, (countByWorkspace w tbl).2 = Return n ->
      (countByWorkspace w tbl').2
      = Return (if eq_str (new_workspaceId project) w then S n else n))
   /\ (exists ps, (findByUserId (new_userId project) tbl').2 = Return ps
                  /\ as_project generatedId project ∈ ps))
  /\ (generatedId ∈ keys tbl ->
      create generatedId now project tbl
      = (tbl, Throw (SqliteError "UNIQUE constraint failed: projects.id"))).
Proof.
  split; [|apply create_taken].
  intros Hfresh tbl'. subst tbl'. rewrite (create_fresh _ _ _ _ Hfresh). cbn [fst snd].
  split; [|split].
  - intros u n. rewrite !count_sqlite. cbn [fst snd]. intros [= <-].
    rewrite List.filter_app, length_app; simpl.
    destruct (eq_str (new_userId project) u); simpl; f_equal; lia.
  - intros w n. rewrite !countByWorkspace_sqlite. cbn [fst snd]. intros [= <-].
    rewrite List.filter_app, length_app; simpl.
    destruct (eq_str (new_workspaceId project) w); simpl; f_equal; lia.
  - eexists. split; [reflexivity|].
    apply list_elem_of_fmap.
    exists (values generatedId (toDbInsert now project)). split; [reflexivity|].
    rewrite QueryProps.order_by_Permutation, QueryProps.elem_of_filter_bool.
    split.
    + apply elem_of_app. right. apply list_elem_of_here.
    + simpl. by rewrite ProjectProps.eq_str_refl.
Qed.

(** X12. Deleting twice is deleting once at the later time: the second
    [delete] only restamps [updatedAt] of the rows the first one flagged. *)
Theorem delete_twice_restamps now1 now2 i (tbl : list ProjectRow) :
  (do delete now1 i in delete now2 i) tbl = delete now2 i tbl.
Proof.
  unfold bind. rewrite (ProjectProps.delete_sqlite now1).
  rewrite !ProjectProps.delete_sqlite. f_equal.
  rewrite List.map_map. apply List.map_ext. intros r.
  destruct (eq_str (row_id r) i) eqn:Hr; simpl; rewrite Hr; reflexivity.
Qed.

Lemma create_raises_count_witness :
  (count "user_1"
     (create "p3" "2024-03-01T00:00:00.000Z" Sample.test_project
        [Sample.p1; Sample.p2]).1).2
  = Return 3%nat.
Proof.
  assert (Hfresh : "p3" ∉ keys [Sample.p1; Sample.p2]).
  { apply (bool_decide_unpack _). vm_compute. exact I. }
  destruct (create_raises_count "p3" "2024-03-01T00:00:00.000Z"
              Sample.test_project [Sample.p1; Sample.p2]) as [Hnew _].
  destruct (Hnew Hfresh) as (Hcount & _).
  exact (Hcount "user_1" 2%nat eq_refl).
Defined.

Lemma create_table generatedId now project (tbl : list ProjectRow) :
  (create generatedId now project tbl).1
  = (Sql.insert "projects.id" row_id (values generatedId (toDbInsert now project)) tbl).1.
Proof.
  unfold create, bind. simpl db_insert.
  destruct (Sql.insert _ _ _ tbl) as [tbl' [[]|e]]; [|reflexivity].
  rewrite ProjectProps.findById_sqlite.
  destruct (List.find _ tbl'); reflexivity.
Qed.

Lemma update_table now i updates (tbl : list ProjectRow) :
  (update now i updates tbl).1
  = (Sql.update "projects.id" row_id apply_patch (toDbUpdate now updates) (live i) tbl).1.
Proof.
  rewrite ProjectProps.update_sqlite.
  destruct (Sql.update _ _ _ _ _ tbl) as [tbl' [[]|e]]; [|reflexivity].
  rewrite ProjectProps.findById_sqlite.
  destruct (List.find _ tbl'); reflexivity.
Qed.

(** X13. The writes of the project repository keep the primary key: from a
    table in which no two rows share an id, [create], [update] and [delete]
    lead to such a table whatever their arguments and whether they return
    or throw. [update] and [delete] keep the number of rows; [create] adds
    at most one. *)
Theorem project_writes_keep_primary_key (tbl : list ProjectRow) :
  NoDup (keys tbl) ->
  forall generatedId now project i updates,
    (NoDup (keys (create generatedId now project tbl).1)
     /\ (length tbl <= length (create generatedId now project tbl).1 <= S (length tbl))%nat)
    /\ (NoDup (keys (update now i updates tbl).1)
        /\ length (update now i updates tbl).1 = length tbl)
    /\ (NoDup (keys (delete now i tbl).1)
        /\ length (delete now i tbl).1 = length tbl).
Proof.
  intros Hkey generatedId now project i updates. split; [|split].
  - rewrite create_table. split.
    + by apply QueryProps.insert_keeps_primary_key.
    + unfold Sql.insert. destruct (bool_decide _); simpl; [lia|].
      rewrite length_app. simpl. lia.
  - rewrite update_table. by apply QueryProps.update_keeps_primary_key.
  - unfold delete. simpl db_update. by apply QueryProps.update_keeps_primary_key.
Qed.

Lemma project_writes_keep_primary_key_witness :
  NoDup (keys (update "2024-03-01T00:00:00.000Z" "p1" (single (SetId "p2"))
                 [Sample.p1; Sample.p2]).1)
  /\ NoDup (keys (update "2024-03-01T00:00:00.000Z" "p1" (single (SetId "p9"))
                    [Sample.p1; Sample.p2]).1).
Proof.
  assert (Hkey : NoDup (keys [Sample.p1; Sample.p2])).
  { apply (bool_decide_unpack _). vm_compute. exact I. }
  split.
  - exact (proj1 (proj1 (proj2 (project_writes_keep_primary_key _ Hkey
             "p3" "2024-03-01T00:00:00.000Z" Sample.test_project "p1"
             (single (SetId "p2")))))).
  - exact (proj1 (proj1 (proj2 (project_writes_keep_primary_key _ Hkey
             "p3" "2024-03-01T00:00:00.000Z" Sample.test_project "p1"
             (single (SetId "p9")))))).
Defined.

(** X14. What [update] cannot do, whatever the updates and whether it
    returns or throws: every row keeps its position, its [createdAt] and its
    [deleted] flag, and a row that is deleted or has another id than the
    one given is left exactly as it was. *)
Theorem update_frame now i updates (tbl : list ProjectRow) j r :
  tbl !! j = Some r ->
  exists r',
    (update now i updates tbl).1 !! j = Some r'
    /\ row_createdAt r' = row_createdAt r
    /\ row_deleted r' = row_deleted r
    /\ (row_id r <> i \/ row_deleted r = true -> r' = r).
Proof.
  intros Hj. rewrite update_table.
  destruct (QueryProps.update_all_or_nothing "projects.id" row_id apply_patch
              (toDbUpdate now updates) (live i) tbl) as [[-> _]| ->]; simpl.
  - rewrite SqlProps.updated_lookup, Hj; simpl.
    destruct (live i r) eqn:Hlive.
    + eexists. split; [reflexivity|]. split; [reflexivity|].
      split; [reflexivity|].
      intros Hno. apply ProjectProps.live_false in Hno. congruence.
    + exists r. by repeat split.
  - exists r. by repeat split.
Qed.

Lemma update_frame_witness :
  exists r',
    (update "2024-03-01T00:00:00.000Z" "p1" (single (SetName "Updated"))
       [Sample.p1; Sample.p2]).1 !! 1%nat = Some r'
    /\ r' = Sample.p2.
Proof.
  destruct (update_frame "2024-03-01T00:00:00.000Z" "p1" (single (SetName "Updated"))
              [Sample.p1; Sample.p2] 1%nat Sample.p2 eq_refl)
    as (r' & Hr' & _ & _ & Hsame).
  exists r'. split; [exact Hr'|]. apply Hsame. left. discriminate.
Defined.

(** X24. A deleted project is in no list: after [delete] of an id, no
    project of that id is returned by [findByUserId] or by
    [findByWorkspaceId], for any user and any workspace, and [findById] of
    it returns null, whether or not the id was stored. *)
Theorem deleted_project_is_not_listed now i (tbl : list ProjectRow) :
  let tbl' := (delete now i tbl).1 in
  (forall u ps p, (findByUserId u tbl').2 = Return ps -> p ∈ ps -> id p <> i)
  /\ (forall w ps p, (findByWorkspaceId w tbl').2 = Return ps -> p ∈ ps -> id p <> i)
  /\ (findById i tbl').2 = Return None.
Proof.
  rewrite ProjectProps.delete_sqlite. cbn [fst].
  assert (Hgone : forall (cond : ProjectRow -> bool) r,
             (forall x, row_deleted x = true -> cond x = false) ->
             r ∈ Sql.order_by desc_createdAt
                   (List.filter cond
                      (map (fun r => if by_id i r then flagged now r else r) tbl)) ->
             row_id r <> i).
  { intros cond r Hcond Hr.
    rewrite QueryProps.order_by_Permutation, QueryProps.elem_of_filter_bool in Hr.
    destruct Hr as [Hin Hc]. apply list_elem_of_fmap in Hin as (x & -> & _).
    destruct (eq_str (row_id x) i) eqn:Hx.
    - rewrite Hcond in Hc by reflexivity. discriminate.
    - by apply ProjectProps.eq_str_false. }
  split; [|split].
  - intros u ps p [= <-] Hp. apply list_elem_of_fmap in Hp as (r & -> & Hr).
    apply (Hgone _ r) in Hr; [exact Hr|].
    intros x Hx. rewrite Hx. apply andb_false_r.
  - intros w ps p [= <-] Hp. apply list_elem_of_fmap in Hp as (r & -> & Hr).
    apply (Hgone _ r) in Hr; [exact Hr|].
    intros x Hx. rewrite Hx. apply andb_false_r.
  - rewrite ProjectProps.findById_sqlite. cbn [snd].
    rewrite SqlProps.find_no_match; [reflexivity|].
    intros r Hin. apply list_elem_of_fmap in Hin as (x & -> & _).
    apply ProjectProps.live_false.
    destruct (eq_str (row_id x) i) eqn:Hx; [by right|].
    left. by apply ProjectProps.eq_str_false.
Qed.

End ProjectQueryProps.

(** ** Task type repository: the other operations *)
Module TaskTypeQueryProps.
Import TaskTypeRepo.

#[local] Abbreviation keys := (Sql.keys row_id).
#[local] Abbreviation by_id i := (fun r : TaskTypeRow => eq_str (row_id r) i).
#[local] Abbreviation default_of u :=
  (fun r : TaskTypeRow => eq_str (row_userId r) u && eq_bool (row_isDefault r) true).

Lemma taskType_findById_sqlite i (tbl : list TaskTypeRow) :
  findById i tbl = (tbl, Return (toDomain <$> List.find (by_id i) tbl)).
Proof.
  unfold findById, bind; simpl. unfold Sql.findFirst.
  destruct (List.find _ tbl); reflexivity.
Qed.

Lemma findDefault_sqlite u (tbl : list TaskTypeRow) :
  findDefault u tbl = (tbl, Return (toDomain <$> List.find (default_of u) tbl)).
Proof.
  unfold findDefault, bind; simpl. unfold Sql.findFirst.
  destruct (List.find _ tbl); reflexivity.
Qed.

Lemma default_of_true u r :
  default_of u r = true <-> row_userId r = u /\ row_isDefault r = true.
Proof.
  rewrite andb_true_iff, TaskTypeProps.str_true. unfold eq_bool.
  destruct (row_isDefault r); simpl; intuition congruence.
Qed.

Lemma default_of_false u r :
  default_of u r = false <-> row_userId r <> u \/ row_isDefault r = false.
Proof.
  rewrite andb_false_iff, TaskTypeProps.str_false. unfold eq_bool.
  destruct (row_isDefault r); simpl; intuition congruence.
Qed.

Lemma taskType_delete_sqlite i (tbl : list TaskTypeRow) :
  delete i tbl = (List.filter (fun r => negb (eq_str (row_id r) i)) tbl, Return tt).
Proof. reflexivity. Qed.

Lemma filter_sublist {A} (c : A -> bool) (l : list A) :
  List.filter c l `sublist_of` l.
Proof.
  induction l as [|x l IH]; simpl; [constructor|].
  destruct (c x); by constructor.
Qed.

(** X15. [delete] of a task type is a hard delete that never throws: the
    rows of that id are gone from the table, [findById] of it returns null,
    and the rows of every other id remain, in their order; for an id that
    is not stored the table is as it was. *)
Theorem delete_removes_row i (tbl : list TaskTypeRow) :
  let tbl' := (delete i tbl).1 in
  (delete i tbl).2 = Return tt
  /\ (forall r, r ∈ tbl' <-> r ∈ tbl /\ row_id r <> i)
  /\ tbl' `sublist_of` tbl
  /\ findById i tbl' = (tbl', Return None)
  /\ (i ∉ keys tbl -> tbl' = tbl).
Proof.
  rewrite taskType_delete_sqlite. cbn [fst snd].
  split; [reflexivity|]. split; [|split; [|split]].
  - intros r. rewrite QueryProps.elem_of_filter_bool, negb_true_iff.
    by rewrite TaskTypeProps.str_false.
  - apply filter_sublist.
  - rewrite taskType_findById_sqlite. rewrite SqlProps.find_no_match; [reflexivity|].
    intros r Hin. apply QueryProps.elem_of_filter_bool in Hin as [_ Hne].
    by apply negb_true_iff in Hne.
  - intros Hfresh. induction tbl as [|x tbl IH]; [reflexivity|]. simpl.
    change (keys (x :: tbl)) with (row_id x :: keys tbl) in Hfresh.
    apply not_elem_of_cons in Hfresh as [Hx Hrest].
    assert (Hne : eq_str (row_id x) i = false)
      by (apply TaskTypeProps.str_false; congruence).
    rewrite Hne. simpl. f_equal. by apply IH.
Qed.

Lemma setDefault_at u t (tbl : list TaskTypeRow) k r :
  tbl !! k = Some r -> row_id r = t ->
  (setDefault u t tbl).1 !! k = Some (with_isDefault true r).
Proof.
  intros Hk Hid. rewrite TaskTypeProps.setDefault_sqlite. cbn [fst].
  rewrite (list_lookup_fmap _ tbl k), Hk. simpl.
  by rewrite (TaskTypeProps.marked_target u t r Hid).
Qed.

(** X16. After [setDefault u t] for a task type [t] that [u] owns,
    [findDefault u] returns [t], flagged default. *)
Theorem findDefault_after_setDefault u t (tbl : list TaskTypeRow) k r :
  NoDup (keys tbl) ->
  tbl !! k = Some r -> row_id r = t -> row_userId r = u ->
  (do setDefault u t in findDefault u) tbl
  = ((setDefault u t tbl).1, Return (Some (toDomain (with_isDefault true r)))).
Proof.
  intros Hkey Hk Hid Hu. unfold bind.
  pose proof (setDefault_at u t tbl k r Hk Hid) as Hat.
  rewrite TaskTypeProps.setDefault_sqlite in *. cbn [fst] in *.
  rewrite findDefault_sqlite.
  rewrite (SqlProps.find_first_match (default_of u) _ k (with_isDefault true r) Hat).
  - reflexivity.
  - apply default_of_true. by split.
  - intros j r' Hj Hne.
    rewrite (list_lookup_fmap _ tbl j) in Hj.
    destruct (tbl !! j) as [x|] eqn:Hx; [|discriminate].
    injection Hj as <-. apply default_of_false.
    rewrite TaskTypeProps.marked_userId.
    destruct (decide (row_userId x = u)) as [Hxu|Hxu]; [|by left].
    right. destruct (decide (row_id x = t)) as [Hxt|Hxt].
    + exfalso. apply Hne.
      apply (SqlProps.key_position row_id tbl j k r x Hkey Hx Hk). congruence.
    + by rewrite (TaskTypeProps.marked_own u t x Hxt Hxu).
Qed.

Lemma findDefault_after_setDefault_witness :
  (do setDefault "ua" "a2" in findDefault "ua") Sample.task_types
  = ([with_isDefault false Sample.a1; with_isDefault true Sample.a2;
      Sample.b1; Sample.b2],
     Return (Some (toDomain (with_isDefault true Sample.a2)))).
Proof.
  assert (Hkey : NoDup (keys Sample.task_types)).
  { apply (bool_decide_unpack _). vm_compute. exact I. }
  exact (findDefault_after_setDefault "ua" "a2" Sample.task_types 1%nat Sample.a2
           Hkey eq_refl eq_refl eq_refl).
Defined.

(** X17. After [setDefault u t] for a task type [t] that another user
    owns, [findDefault u] returns null: the caller is left without a
    default, whatever it had before. *)
Theorem findDefault_after_foreign_setDefault u v t (tbl : list TaskTypeRow) k r :
  NoDup (keys tbl) ->
  tbl !! k = Some r -> row_id r = t -> row_userId r = v -> v <> u ->
  (do setDefault u t in findDefault u) tbl
  = ((setDefault u t tbl).1, Return None).
Proof.
  intros Hkey Hk Hid Hv Hvu. unfold bind.
  rewrite TaskTypeProps.setDefault_sqlite. cbn [fst].
  rewrite findDefault_sqlite.
  rewrite SqlProps.find_no_match; [reflexivity|].
  intros r' Hin. apply list_elem_of_fmap in Hin as (x & -> & Hx).
  apply default_of_false. rewrite TaskTypeProps.marked_userId.
  destruct (decide (row_userId x = u)) as [Hxu|Hxu]; [|by left].
  right. destruct (decide (row_id x = t)) as [Hxt|Hxt].
  - exfalso. apply list_elem_of_lookup in Hx as [j Hj].
    assert (j = k) as ->
      by (apply (SqlProps.key_position row_id tbl j k r x Hkey Hj Hk); congruence).
    congruence.
  - by rewrite (TaskTypeProps.marked_own u t x Hxt Hxu).
Qed.

Lemma findDefault_after_foreign_setDefault_witness :
  (findDefault "ua" Sample.task_types).2 = Return (Some (toDomain Sample.a1))
  /\ ((do setDefault "ua" "b2" in findDefault "ua") Sample.task_types).2
     = Return None.
Proof.
  assert (Hkey : NoDup (keys Sample.task_types)).
  { apply (bool_decide_unpack _). vm_compute. exact I. }
  split; [reflexivity|].
  refine (f_equal snd (findDefault_after_foreign_setDefault "ua" "ub" "b2"
            Sample.task_types 3%nat Sample.b2 Hkey eq_refl eq_refl eq_refl _)).
  discriminate.
Defined.

Lemma with_isDefault_marked b u t r :
  with_isDefault b (marked u t r) = with_isDefault b r.
Proof.
  unfold marked. destruct (eq_str (row_id r) t); [reflexivity|].
  destruct (eq_str (row_userId r) u); reflexivity.
Qed.

Lemma marked_twice u t1 t2 r :
  (row_id r = t1 -> row_id r = t2 \/ row_userId r = u) ->
  marked u t2 (marked u t1 r) = marked u t2 r.
Proof.
  intros Hown.
  destruct (decide (row_id r = t2)) as [H2|H2].
  - rewrite (TaskTypeProps.marked_target u t2 r H2).
    rewrite TaskTypeProps.marked_target by (by rewrite TaskTypeProps.marked_id).
    apply with_isDefault_marked.
  - destruct (decide (row_userId r = u)) as [Hu|Hu].
    + rewrite (TaskTypeProps.marked_own u t2 r H2 Hu).
      rewrite TaskTypeProps.marked_own
        by (by rewrite ?TaskTypeProps.marked_id, ?TaskTypeProps.marked_userId).
      apply with_isDefault_marked.
    + rewrite (TaskTypeProps.marked_other u t2 r H2 Hu).
      assert (H1 : row_id r <> t1) by (intros H1; destruct (Hown H1); congruence).
      rewrite (TaskTypeProps.marked_other u t1 r H1 Hu).
      by apply TaskTypeProps.marked_other.
Qed.

(** X18. How calls of [setDefault] compose. Calling it twice with the same
    arguments is calling it once. When the first target is a task type of
    the caller, a second call for another target undoes the first: the two
    calls in sequence leave the table that the second alone would leave. *)
Theorem setDefault_last_call_wins u t1 t2 (tbl : list TaskTypeRow) :
  (do setDefault u t2 in setDefault u t2) tbl = setDefault u t2 tbl
  /\ ((forall r, r ∈ tbl -> row_id r = t1 -> row_userId r = u) ->
      (do setDefault u t1 in setDefault u t2) tbl = setDefault u t2 tbl).
Proof.
  split.
  - unfold bind. rewrite !TaskTypeProps.setDefault_sqlite. f_equal.
    rewrite List.map_map. apply List.map_ext. intros r.
    apply marked_twice. tauto.
  - intros Hown. unfold bind. rewrite !TaskTypeProps.setDefault_sqlite. f_equal.
    rewrite List.map_map. apply List.map_ext_in. intros r Hin.
    apply marked_twice. intros H1. right.
    apply Hown; [by apply list_elem_of_In|exact H1].
Qed.

Lemma setDefault_last_call_wins_witness :
  (do setDefault "ua" "a1" in setDefault "ua" "a2") Sample.task_types
  = setDefault "ua" "a2" Sample.task_types.
Proof.
  apply (proj2 (setDefault_last_call_wins "ua" "a1" "a2" Sample.task_types)).
  intros r Hr Hid.
  apply elem_of_cons in Hr as [->|Hr]; [reflexivity|].
  apply elem_of_cons in Hr as [->|Hr]; [discriminate Hid|].
  apply elem_of_cons in Hr as [->|Hr]; [discriminate Hid|].
  apply elem_of_cons in Hr as [->|Hr]; [discriminate Hid|].
  by apply elem_of_nil in Hr.
Defined.

(** When the first target belongs to someone else it stays flagged. *)
Example setDefault_foreign_target_stays :
  ((do setDefault "ua" "b2" in setDefault "ua" "a2") Sample.task_types).1
  = [with_isDefault false Sample.a1; with_isDefault true Sample.a2;
     Sample.b1; with_isDefault true Sample.b2].
Proof. reflexivity. Qed.

Lemma asc_spec a b :
  asc_displayOrder_name a b = true
  <-> (row_displayOrder a < row_displayOrder b
       \/ (row_displayOrder a = row_displayOrder b
           /\ String.leb (row_name a) (row_name b) = true)).
Proof.
  unfold asc_displayOrder_name.
  rewrite orb_true_iff, andb_true_iff, Z.ltb_lt, Z.eqb_eq. reflexivity.
Qed.

#[local] Instance asc_total : Total (Sql.ordered asc_displayOrder_name).
Proof.
  intros a b. unfold Sql.ordered. rewrite !asc_spec.
  destruct (Z.lt_trichotomy (row_displayOrder a) (row_displayOrder b))
    as [Hlt|[Heq|Hgt]]; [by left; left| |by right; left].
  destruct (String.leb_total (row_name a) (row_name b)); [left|right]; right;
    by split.
Qed.

Lemma Sorted_weaken {A} (R1 R2 : relation A) (l : list A) :
  (forall a b, R1 a b -> R2 a b) -> Sorted R1 l -> Sorted R2 l.
Proof.
  intros Himpl. induction 1 as [|a l _ IH Hhd]; constructor; [exact IH|].
  destruct Hhd; constructor. by apply Himpl.
Qed.

Lemma findMany_asc_sorted (cond : TaskTypeRow -> bool) (tbl : list TaskTypeRow) :
  Sorted (fun a b =>
            row_displayOrder a < row_displayOrder b
            \/ (row_displayOrder a = row_displayOrder b
                /\ String.leb (row_name a) (row_name b) = true))
    (Sql.order_by asc_displayOrder_name (List.filter cond tbl)).
Proof.
  apply (Sorted_weaken (Sql.ordered asc_displayOrder_name)).
  - intros a b. apply asc_spec.
  - apply QueryProps.order_by_Sorted, asc_total.
Qed.

Lemma isNull_true {A} (c : option A) : isNull c = true <-> c = None.
Proof. destruct c; simpl; split; congruence. Qed.

Lemma eq_nullable_true c w : eq_nullable c w = true <-> c = Some w.
Proof.
  destruct c as [c|]; simpl; [|split; congruence].
  rewrite TaskTypeProps.str_true. split; congruence.
Qed.

(** X19. [findByUser] reads without writing. Without a workspace it lists
    exactly the personal task types of the user (those with no workspace);
    with a workspace it lists those and every task type of that workspace,
    whoever owns it. An empty workspace id counts as none. The list is by
    [displayOrder], then by name. *)
Theorem findByUser_lists u workspaceId (tbl : list TaskTypeRow) :
  exists rows,
    findByUser u workspaceId tbl = (tbl, Return (map toDomain rows))
    /\ rows ≡ₚ List.filter (findByUser_conditions u workspaceId) tbl
    /\ (forall r, r ∈ rows
          <-> r ∈ tbl
              /\ ((row_userId r = u /\ row_workspaceId r = None)
                  \/ (exists w, workspaceId = Some w /\ w <> ""
                                /\ row_workspaceId r = Some w)))
    /\ Sorted (fun a b =>
                 row_displayOrder a < row_displayOrder b
                 \/ (row_displayOrder a = row_displayOrder b
                     /\ String.leb (row_name a) (row_name b) = true)) rows
    /\ findByUser u (Some "") tbl = findByUser u None tbl.
Proof.
  eexists. split; [reflexivity|].
  split; [apply QueryProps.order_by_Permutation|]. split; [|split].
  - intros r. rewrite QueryProps.order_by_Permutation, QueryProps.elem_of_filter_bool.
    apply and_iff_compat_l. unfold findByUser_conditions.
    destruct workspaceId as [[|c w]|]; simpl.
    + rewrite andb_true_iff, TaskTypeProps.str_true, isNull_true.
      split; [by left|]. intros [H|(w & [= <-] & Hne & _)]; [exact H|done].
    + rewrite orb_true_iff, andb_true_iff, TaskTypeProps.str_true, isNull_true,
        eq_nullable_true.
      split.
      * intros [H|H]; [by left|]. right. exists (String c w). by repeat split.
      * intros [H|(w' & [= <-] & _ & H)]; [by left|by right].
    + rewrite andb_true_iff, TaskTypeProps.str_true, isNull_true.
      split; [by left|]. intros [H|(w & Hw & _)]; [exact H|discriminate].
  - apply findMany_asc_sorted.
  - reflexivity.
Qed.

(** X20. [findByWorkspace] lists exactly the task types stored under that
    workspace, personal ones never, by [displayOrder], then by name. *)
Theorem findByWorkspace_lists w (tbl : list TaskTypeRow) :
  exists rows,
    findByWorkspace w tbl = (tbl, Return (map toDomain rows))
    /\ (forall r, r ∈ rows <-> r ∈ tbl /\ row_workspaceId r = Some w)
    /\ Sorted (fun a b =>
                 row_displayOrder a < row_displayOrder b
                 \/ (row_displayOrder a = row_displayOrder b
                     /\ String.leb (row_name a) (row_name b) = true)) rows.
Proof.
  eexists. split; [reflexivity|]. split.
  - intros r. rewrite QueryProps.order_by_Permutation, QueryProps.elem_of_filter_bool.
    by rewrite eq_nullable_true.
  - apply findMany_asc_sorted.
Qed.

Example findByUser_with_workspace :
  (findByUser "ua" (Some "workspace_1") (Sample.w1 :: Sample.task_types)).2
  = Return [toDomain Sample.w1; toDomain Sample.a1; toDomain Sample.a2].
Proof. vm_compute. reflexivity. Qed.

Lemma taskType_create_fresh generatedId now taskType (tbl : list TaskTypeRow) :
  generatedId ∉ keys tbl ->
  create generatedId now taskType tbl
  = (tbl ++ [values generatedId (toDbInsert now taskType)],
     Return (as_taskType generatedId taskType)).
Proof.
  intros Hfresh. unfold create, bind. simpl db_insert.
  rewrite SqlProps.insert_fresh by exact Hfresh.
  rewrite taskType_findById_sqlite.
  rewrite SqlProps.find_app_no_match.
  - simpl. unfold eq_str. rewrite bool_decide_eq_true_2 by reflexivity. reflexivity.
  - intros r Hin. apply TaskTypeProps.str_false. intros Heq.
    apply Hfresh. rewrite <- Heq. by apply SqlProps.key_elem_of.
Qed.

(** X21. [create] of a task type under a fresh id appends its row and
    returns the input fields under that id, and [findById] then returns the
    same object. It writes no other row: a task type created with
    [isDefault] true is added to the defaults its user already has. Under
    an id already stored it throws the store's constraint error and leaves
    the table as it was. *)
Theorem taskType_create_then_findById generatedId now taskType
    (tbl : list TaskTypeRow) :
  (generatedId ∉ keys tbl ->
   let row := values generatedId (toDbInsert now taskType) in
   create generatedId now taskType tbl
   = (tbl ++ [row], Return (as_taskType generatedId taskType))
   /\ findById generatedId (tbl ++ [row])
      = (tbl ++ [row], Return (Some (as_taskType generatedId taskType)))
   /\ defaults_of (new_userId taskType) (tbl ++ [row])
      = defaults_of (new_userId taskType) tbl
        ++ (if new_isDefault taskType then [row] else []))
  /\ (generatedId ∈ keys tbl ->
      create generatedId now taskType tbl
      = (tbl, Throw (SqliteError "UNIQUE constraint failed: task_types.id"))).
Proof.
  split.
  - intros Hfresh row. split; [by apply taskType_create_fresh|]. split.
    + rewrite taskType_findById_sqlite, SqlProps.find_app_no_match.
      * simpl. unfold eq_str. rewrite bool_decide_eq_true_2 by reflexivity.
        reflexivity.
      * intros r Hin. apply TaskTypeProps.str_false. intros Heq.
        apply Hfresh. rewrite <- Heq. by apply SqlProps.key_elem_of.
    + unfold defaults_of. rewrite filter_app. f_equal.
      rewrite filter_cons, filter_nil. subst row; simpl.
      destruct (new_isDefault taskType).
      * by rewrite decide_True.
      * rewrite decide_False; [reflexivity|]. intros [_ ?]. discriminate.
  - intros Htaken. unfold create, bind. simpl db_insert.
    rewrite SqlProps.insert_taken by exact Htaken. reflexivity.
Qed.

Lemma taskType_create_then_findById_witness :
  length (defaults_of "ua"
            (create "a3" "2024-03-01T00:00:00.000Z" Sample.new_default
               Sample.task_types).1) = 2%nat.
Proof.
  assert (Hfresh : "a3" ∉ keys Sample.task_types).
  { apply (bool_decide_unpack _). vm_compute. exact I. }
  destruct (taskType_create_then_findById "a3" "2024-03-01T00:00:00.000Z"
              Sample.new_default Sample.task_types) as [Hnew _].
  destruct (Hnew Hfresh) as (Hcreate & _ & Hdefaults).
  rewrite Hcreate. cbn [fst].
  etrans; [exact (f_equal length Hdefaults)|]. vm_compute. reflexivity.
Defined.

Lemma last_index_None i ids : last_index i ids = None <-> i ∉ ids.
Proof.
  induction ids as [|x rest IH]; simpl.
  - split; [intros _; apply not_elem_of_nil|reflexivity].
  - rewrite not_elem_of_cons. destruct (last_index i rest) as [n|].
    + split; [discriminate|]. intros [_ Hrest]. by apply IH in Hrest.
    + destruct (eq_str x i) eqn:Hx.
      * apply TaskTypeProps.str_true in Hx. split; [discriminate|].
        intros [Hne _]. congruence.
      * apply TaskTypeProps.str_false in Hx. split; [|reflexivity].
        intros _. split; [congruence|]. by apply IH.
Qed.

Lemma last_index_Some i ids : forall n,
  last_index i ids = Some n ->
  ids !! n = Some i /\ (forall m, (n < m)%nat -> ids !! m <> Some i).
Proof.
  induction ids as [|x rest IH]; intros n; simpl; [discriminate|].
  destruct (last_index i rest) as [j|] eqn:Hrest.
  - intros [= <-]. destruct (IH j eq_refl) as [Hj Hlast]. split; [exact Hj|].
    intros [|m] Hm; [lia|]. simpl. apply Hlast. lia.
  - destruct (eq_str x i) eqn:Hx; [|discriminate].
    apply TaskTypeProps.str_true in Hx. intros [= <-]. split; [by subst|].
    intros [|m] Hm; [lia|]. simpl. intros Hin.
    apply last_index_None in Hrest. apply Hrest.
    by apply list_elem_of_lookup_2 in Hin.
Qed.

Lemma last_index_last i ids n :
  ids !! n = Some i ->
  (forall m, ids !! m = Some i -> (m <= n)%nat) ->
  last_index i ids = Some n.
Proof.
  intros Hn Hlast. destruct (last_index i ids) as [j|] eqn:Hj.
  - destruct (last_index_Some i ids j Hj) as [Hji Hafter].
    f_equal. pose proof (Hlast j Hji).
    destruct (decide (j = n)) as [->|Hne]; [reflexivity|].
    exfalso. apply (Hafter n); [lia|exact Hn].
  - apply last_index_None in Hj. exfalso. apply Hj.
    by apply list_elem_of_lookup_2 in Hn.
Qed.

Lemma last_index_NoDup i ids n :
  NoDup ids -> ids !! n = Some i -> last_index i ids = Some n.
Proof.
  intros Hnd Hn. apply last_index_last; [exact Hn|].
  intros m Hm. rewrite (NoDup_lookup ids m n i Hnd Hm Hn). lia.
Qed.

Lemma with_displayOrder_twice n m r :
  with_displayOrder n (with_displayOrder m r) = with_displayOrder n r.
Proof. reflexivity. Qed.

(** The loop of [reorder] is never refused and rewrites each row in place:
    a listed row gets the index of the last occurrence of its id. *)
Lemma reorder_from_sqlite ids : forall n (tbl : list TaskTypeRow),
  reorder_from n ids tbl
  = (map (fun r => match last_index (row_id r) ids with
                   | Some j => with_displayOrder (n + Z.of_nat j) r
                   | None => r
                   end) tbl, Return tt).
Proof.
  induction ids as [|x rest IH]; intros n tbl; simpl.
  - by rewrite List.map_id.
  - unfold bind. simpl db_update.
    rewrite SqlProps.update_keeps_keys by reflexivity.
    rewrite IH. f_equal. unfold Sql.updated. rewrite List.map_map.
    apply List.map_ext. intros r.
    destruct (eq_str (row_id r) x) eqn:Hrx.
    + apply TaskTypeProps.str_true in Hrx. subst x. simpl.
      destruct (last_index (row_id r) rest) as [j|].
      * rewrite Nat2Z.inj_succ. unfold with_displayOrder; simpl. f_equal. lia.
      * unfold eq_str. rewrite bool_decide_eq_true_2 by reflexivity.
        change (apply_patch (displayOrder_patch n) r) with (with_displayOrder n r).
        unfold with_displayOrder; simpl. f_equal. lia.
    + destruct (last_index (row_id r) rest) as [j|].
      * rewrite Nat2Z.inj_succ. unfold with_displayOrder; simpl. f_equal. lia.
      * apply TaskTypeProps.str_false in Hrx.
        assert (Hxr : eq_str x (row_id r) = false)
          by (apply TaskTypeProps.str_false; congruence).
        by rewrite Hxr.
Qed.

Lemma reorder_sqlite ids (tbl : list TaskTypeRow) :
  reorder ids tbl = (map (reordered ids) tbl, Return tt).
Proof. unfold reorder. rewrite reorder_from_sqlite. reflexivity. Qed.

(** X22. [reorder] never throws and rewrites nothing but [displayOrder]:
    every row keeps its place and its other columns; a row whose id is not
    in the list is left as it was; a row whose id is in the list gets the
    index of the last place where its id occurs. Ids that are not stored
    are passed over. *)
Theorem reorder_sets_positions ids (tbl : list TaskTypeRow) :
  let tbl' := (reorder ids tbl).1 in
  (reorder ids tbl).2 = Return tt
  /\ length tbl' = length tbl
  /\ (forall k r, tbl !! k = Some r ->
        exists r',
          tbl' !! k = Some r'
          /\ r' = with_displayOrder (row_displayOrder r') r
          /\ (row_id r ∉ ids -> r' = r)
          /\ (forall n, ids !! n = Some (row_id r) ->
                (forall m, ids !! m = Some (row_id r) -> (m <= n)%nat) ->
                row_displayOrder r' = Z.of_nat n)).
Proof.
  rewrite reorder_sqlite. cbn [fst snd].
  split; [reflexivity|]. split; [apply length_map|].
  intros k r Hk. exists (reordered ids r).
  split; [by rewrite (list_lookup_fmap _ tbl k), Hk|].
  unfold reordered. split; [|split].
  - destruct (last_index (row_id r) ids); [reflexivity|by destruct r].
  - intros Hno. apply last_index_None in Hno. by rewrite Hno.
  - intros n Hn Hlast. by rewrite (last_index_last _ _ _ Hn Hlast).
Qed.

Example reorder_listed_twice :
  (reorder ["a2"; "zz"; "a1"; "a2"] Sample.task_types).1
  = [with_displayOrder 2 Sample.a1; with_displayOrder 3 Sample.a2;
     Sample.b1; Sample.b2].
Proof. reflexivity. Qed.

Lemma reordered_id ids r : row_id (reordered ids r) = row_id r.
Proof. unfold reordered. destruct (last_index (row_id r) ids); reflexivity. Qed.

Lemma reordered_conditions u workspaceId ids r :
  findByUser_conditions u workspaceId (reordered ids r)
  = findByUser_conditions u workspaceId r.
Proof.
  unfold reordered. destruct (last_index (row_id r) ids); [|reflexivity].
  unfold findByUser_conditions. destruct (truthy_string workspaceId); reflexivity.
Qed.

Lemma reordered_displayOrder ids r n :
  last_index (row_id r) ids = Some n ->
  row_displayOrder (reordered ids r) = Z.of_nat n.
Proof. intros Hn. unfold reordered. by rewrite Hn. Qed.

Lemma Sorted_seq a n : Sorted Z.le (Z.of_nat <$> seq a n).
Proof.
  revert a. induction n as [|n IH]; intros a; simpl; constructor; [apply IH|].
  destruct n; simpl; constructor. lia.
Qed.

Lemma fmap_inj_on {A B} (f : A -> B) (l1 l2 : list A) :
  (forall x y, x ∈ l1 -> y ∈ l2 -> f x = f y -> x = y) ->
  f <$> l1 = f <$> l2 -> l1 = l2.
Proof.
  revert l2. induction l1 as [|x l1 IH]; intros [|y l2] Hinj Heq;
    try discriminate; [reflexivity|].
  injection Heq as Hxy Hrest. f_equal.
  - apply Hinj; [apply list_elem_of_here..|exact Hxy].
  - apply IH; [|exact Hrest]. intros a b Ha Hb.
    apply Hinj; by apply list_elem_of_further.
Qed.

(** The listed position of an id, as a number. *)
Lemma positions_of_ids ids :
  NoDup ids ->
  (fun i => default 0 (Z.of_nat <$> last_index i ids)) <$> ids
  = Z.of_nat <$> seq 0 (length ids).
Proof.
  intros Hnd. apply list_eq. intros n. rewrite !list_lookup_fmap.
  destruct (ids !! n) as [i|] eqn:Hn; simpl.
  - rewrite (last_index_NoDup i ids n Hnd Hn). simpl.
    rewrite lookup_seq_lt by (by eapply lookup_lt_Some). reflexivity.
  - rewrite lookup_seq_ge by (by apply lookup_ge_None). reflexivity.
Qed.

Lemma filter_keys_NoDup (cond : TaskTypeRow -> bool) (tbl : list TaskTypeRow) :
  NoDup (keys tbl) -> NoDup (keys (List.filter cond tbl)).
Proof.
  intros Hkey. apply (sublist_NoDup _ (keys tbl)); [exact Hkey|].
  unfold Sql.keys. apply (fmap_sublist row_id), filter_sublist.
Qed.

(** X23. [reorder] then [findByUser]: when the list given to [reorder] is,
    without repetition, the ids of the personal task types of a user, the
    user's list comes back in exactly that order, with [displayOrder]
    0, 1, 2, ... *)
Theorem findByUser_after_reorder u ids (tbl : list TaskTypeRow) :
  NoDup (keys tbl) ->
  NoDup ids ->
  (forall i, i ∈ ids
             <-> exists r, r ∈ tbl /\ row_id r = i
                           /\ row_userId r = u /\ row_workspaceId r = None) ->
  exists ps,
    (do reorder ids in findByUser u None) tbl = ((reorder ids tbl).1, Return ps)
    /\ map id ps = ids
    /\ map displayOrder ps = Z.of_nat <$> seq 0 (length ids).
Proof.
  intros Hkey Hids Hlisted.
  set (cond := findByUser_conditions u None).
  set (idx := fun i => default 0 (Z.of_nat <$> last_index i ids)).
  set (before := Sql.ordered asc_displayOrder_name).
  set (rows := Sql.order_by asc_displayOrder_name
                (List.filter cond (map (reordered ids) tbl))).
  assert (Hcond : forall r, cond r = true <-> row_userId r = u /\ row_workspaceId r = None).
  { intros r. unfold cond, findByUser_conditions; simpl.
    by rewrite andb_true_iff, TaskTypeProps.str_true, isNull_true. }
  assert (Hfilter : List.filter cond (map (reordered ids) tbl)
                    = map (reordered ids) (List.filter cond tbl)).
  { apply QueryProps.filter_map_same. intros r. apply reordered_conditions. }
  assert (Hperm : rows ≡ₚ map (reordered ids) (List.filter cond tbl)).
  { unfold rows. rewrite QueryProps.order_by_Permutation, Hfilter. reflexivity. }
  (* the ids of the rows listed are the ids given *)
  assert (Hrow_ids : row_id <$> rows ≡ₚ ids).
  { rewrite Hperm.
    change (map (reordered ids) (List.filter cond tbl))
      with (reordered ids <$> List.filter cond tbl).
    rewrite <- list_fmap_compose.
    rewrite (list_fmap_ext (row_id ∘ reordered ids) row_id (List.filter cond tbl))
      by (intros; apply reordered_id).
    apply NoDup_Permutation; [by apply filter_keys_NoDup|exact Hids|].
    intros i. rewrite list_elem_of_fmap, Hlisted. split.
    - intros (r & -> & Hr). apply QueryProps.elem_of_filter_bool in Hr as [Hin Hc].
      apply Hcond in Hc as [Hu Hw]. by exists r.
    - intros (r & Hin & <- & Hu & Hw). exists r. split; [reflexivity|].
      apply QueryProps.elem_of_filter_bool. split; [exact Hin|]. by apply Hcond. }
  (* each listed row carries the position of its id *)
  assert (Hpos : row_displayOrder <$> rows = idx <$> (row_id <$> rows)).
  { rewrite <- list_fmap_compose. apply Forall_fmap_ext_1.
    apply Forall_forall. intros r' Hr'. rewrite Hperm in Hr'.
    apply list_elem_of_fmap in Hr' as (r & -> & Hr). simpl.
    rewrite reordered_id. unfold idx.
    assert (Hin : row_id r ∈ ids).
    { apply Hlisted. apply QueryProps.elem_of_filter_bool in Hr as [Hin Hc].
      apply Hcond in Hc as [Hu Hw]. by exists r. }
    destruct (last_index (row_id r) ids) as [n|] eqn:Hn.
    - simpl. by apply reordered_displayOrder.
    - apply last_index_None in Hn. contradiction. }
  assert (Hsorted : Sorted Z.le (row_displayOrder <$> rows)).
  { apply (Sorted_fmap row_displayOrder before).
    - intros a b Hab. apply asc_spec in Hab. lia.
    - apply QueryProps.order_by_Sorted, asc_total. }
  assert (Hidx : idx <$> (row_id <$> rows) = idx <$> ids).
  { apply (Sorted_unique Z.le).
    - by rewrite <- Hpos.
    - unfold idx. rewrite (positions_of_ids ids Hids). apply Sorted_seq.
    - by rewrite Hrow_ids. }
  assert (Horder : row_id <$> rows = ids).
  { apply (fmap_inj_on idx); [|exact Hidx].
    intros i j Hi Hj. rewrite Hrow_ids in Hi. unfold idx.
    destruct (last_index i ids) as [n|] eqn:Hn;
      [|apply last_index_None in Hn; contradiction].
    destruct (last_index j ids) as [m|] eqn:Hm;
      [|apply last_index_None in Hm; contradiction].
    simpl. intros Hnm. apply Nat2Z.inj in Hnm. subst m.
    apply last_index_Some in Hn as [Hn _]. apply last_index_Some in Hm as [Hm _].
    congruence. }
  exists (map toDomain rows). split; [|split].
  - unfold bind. rewrite reorder_sqlite. reflexivity.
  - rewrite List.map_map. exact Horder.
  - rewrite List.map_map.
    change (map (fun x => displayOrder (toDomain x)) rows)
      with (row_displayOrder <$> rows).
    rewrite Hpos, Hidx. unfold idx. by apply positions_of_ids.
Qed.

Lemma findByUser_after_reorder_witness :
  exists ps,
    ((do reorder ["a2"; "a1"] in findByUser "ua" None) Sample.task_types).2
    = Return ps
    /\ map id ps = ["a2"; "a1"].
Proof.
  assert (Hkey : NoDup (keys Sample.task_types)).
  { apply (bool_decide_unpack _). vm_compute. exact I. }
  assert (Hids : NoDup ["a2"; "a1"]).
  { apply (bool_decide_unpack _). vm_compute. exact I. }
  destruct (findByUser_after_reorder "ua" ["a2"; "a1"] Sample.task_types Hkey Hids)
    as (ps & Hrun & Horder & _).
  - intros i. split.
    + intros Hi. apply elem_of_cons in Hi as [->|Hi].
      * exists Sample.a2. split; [|by repeat split].
        apply list_elem_of_further, list_elem_of_here.
      * apply list_elem_of_singleton in Hi as ->.
        exists Sample.a1. split; [|by repeat split]. apply list_elem_of_here.
    + intros (r & Hr & <- & Hu & _).
      apply elem_of_cons in Hr as [->|Hr];
        [apply list_elem_of_further, list_elem_of_here|].
      apply elem_of_cons in Hr as [->|Hr]; [apply list_elem_of_here|].
      apply elem_of_cons in Hr as [->|Hr]; [discriminate Hu|].
      apply elem_of_cons in Hr as [->|Hr]; [discriminate Hu|].
      by apply elem_of_nil in Hr.
  - exists ps. split; [exact (f_equal snd Hrun)|exact Horder].
Defined.

Example findByUser_after_reorder_example :
  ((do reorder ["a2"; "a1"] in findByUser "ua" None) Sample.task_types).2
  = Return [toDomain (with_displayOrder 0 Sample.a2);
            toDomain (with_displayOrder 1 Sample.a1)].
Proof. vm_compute. reflexivity. Qed.

Lemma has_values updates :
  updates <> no_updates -> no_values (toDbUpdate updates) = false.
Proof.
  intros Hsome.
  destruct updates as [[?|] [?|] [?|] [?|] [?|] [?|] [?|] [?|]];
    try reflexivity.
  contradiction.
Qed.

Lemma taskType_update_sqlite i updates (tbl : list TaskTypeRow) :
  no_values (toDbUpdate updates) = false ->
  update i updates tbl
  = match Sql.update "task_types.id" row_id apply_patch (toDbUpdate updates) (by_id i) tbl with
    | (tbl', Return _) =>
        match List.find (by_id i) tbl' with
        | Some row => (tbl', Return (toDomain row))
        | None => (tbl', Throw (JsError "Task type not found"))
        end
    | (tbl', Throw e) => (tbl', Throw e)
    end.
Proof.
  intros Hsome. unfold update, set_where, bind. rewrite Hsome. simpl db_update.
  destruct (Sql.update _ _ _ _ _ tbl) as [tbl' [[]|e]]; [|reflexivity].
  rewrite taskType_findById_sqlite. destruct (List.find _ tbl'); reflexivity.
Qed.

(** An update with no key: nothing is written, the builder's error is
    thrown. *)
Lemma taskType_update_nothing i updates (tbl : list TaskTypeRow) :
  no_values (toDbUpdate updates) = true ->
  update i updates tbl = (tbl, Throw (JsError "No values to set")).
Proof. intros Hnone. unfold update, set_where, bind. by rewrite Hnone. Qed.

Lemma taskType_update_table i updates (tbl : list TaskTypeRow) :
  (update i updates tbl).1
  = if no_values (toDbUpdate updates) then tbl
    else (Sql.update "task_types.id" row_id apply_patch (toDbUpdate updates)
            (by_id i) tbl).1.
Proof.
  destruct (no_values (toDbUpdate updates)) eqn:Hvalues.
  - by rewrite taskType_update_nothing.
  - rewrite taskType_update_sqlite by exact Hvalues.
    destruct (Sql.update _ _ _ _ _ tbl) as [tbl' [[]|e]]; [|reflexivity].
    destruct (List.find _ tbl'); reflexivity.
Qed.

(** X25. [update] of a task type with at least one key and without the key
    [id] (an empty update is left out: the query builder has nothing to
    set). On a table with its primary key, for a stored id it rewrites that
    row only, with the provided columns and nothing else: no timestamp is
    touched and no other row, so setting [isDefault] this way clears no
    other default and makes no other row default. It returns the re-read
    object. For an id that is not
    stored it writes nothing and throws not-found. *)
Theorem taskType_update_rewrites_one_row i updates (tbl : list TaskTypeRow) :
  updates <> no_updates ->
  upd_id updates = None ->
  NoDup (keys tbl) ->
  (forall k r, tbl !! k = Some r -> row_id r = i ->
      let r' := apply_patch (toDbUpdate updates) r in
      update i updates tbl = (<[k := r']> tbl, Return (toDomain r'))
      /\ row_id r' = i
      /\ row_createdAt r' = row_createdAt r
      /\ (forall u x, x ∈ defaults_of u (<[k := r']> tbl) ->
                      x = r' \/ x ∈ defaults_of u tbl)
      /\ (forall u x, x ∈ defaults_of u tbl -> x <> r ->
                      x ∈ defaults_of u (<[k := r']> tbl)))
  /\ (i ∉ keys tbl ->
      update i updates tbl = (tbl, Throw (JsError "Task type not found"))).
Proof.
  intros Hsome Hnoid Hkey. apply has_values in Hsome. split.
  - intros k r Hk Hid r'.
    assert (Hr'id : row_id r' = i).
    { subst r'. unfold apply_patch, toDbUpdate; simpl. by rewrite Hnoid. }
    assert (Hothers : forall j x, tbl !! j = Some x -> j <> k -> by_id i x = false).
    { intros j x Hj Hne. apply TaskTypeProps.str_false. intros Hx. apply Hne.
      apply (SqlProps.key_position row_id tbl j k r x Hkey Hj Hk). congruence. }
    assert (Hupdated : Sql.updated apply_patch (toDbUpdate updates) (by_id i) tbl
                       = <[k := r']> tbl).
    { apply (SqlProps.updated_one apply_patch _ _ tbl k r Hk);
        [by apply TaskTypeProps.str_true|exact Hothers]. }
    split; [|split; [exact Hr'id|split; [reflexivity|split]]].
    + rewrite taskType_update_sqlite by exact Hsome.
      unfold Sql.update. rewrite Hupdated.
      assert (Hsame : keys (<[k := r']> tbl) = keys tbl).
      { unfold Sql.keys.
        change (map row_id (<[k := r']> tbl)) with (row_id <$> <[k := r']> tbl).
        rewrite list_fmap_insert, Hr'id. apply list_insert_id.
        rewrite list_lookup_fmap, Hk. simpl. by f_equal. }
      rewrite bool_decide_eq_true_2 by exact Hsame. cbv beta iota delta [orb].
      rewrite (SqlProps.find_first_match (by_id i) _ k r').
      * reflexivity.
      * apply list_lookup_insert_eq. by eapply lookup_lt_Some.
      * by apply TaskTypeProps.str_true.
      * intros j x Hj Hne. rewrite list_lookup_insert_ne in Hj by congruence.
        by apply (Hothers j).
    + intros u x Hx. unfold defaults_of in *.
      apply list_elem_of_filter in Hx as [Hd Hin].
      apply list_elem_of_lookup in Hin as [j Hj].
      destruct (decide (j = k)) as [->|Hne].
      * rewrite list_lookup_insert_eq in Hj by (by eapply lookup_lt_Some).
        left. congruence.
      * rewrite list_lookup_insert_ne in Hj by congruence.
        right. apply list_elem_of_filter. split; [exact Hd|].
        by eapply list_elem_of_lookup_2.
    + intros u x Hx Hxr. unfold defaults_of in *.
      apply list_elem_of_filter in Hx as [Hd Hin].
      apply list_elem_of_filter. split; [exact Hd|].
      apply list_elem_of_lookup in Hin as [j Hj].
      apply list_elem_of_lookup. exists j.
      rewrite list_lookup_insert_ne; [exact Hj|]. intros ->. congruence.
  - intros Habsent.
    assert (Hno : forall r, r ∈ tbl -> by_id i r = false).
    { intros r Hin. apply TaskTypeProps.str_false. intros Heq.
      apply Habsent. rewrite <- Heq. by apply SqlProps.key_elem_of. }
    rewrite taskType_update_sqlite by exact Hsome.
    rewrite (SqlProps.update_no_match _ _ _ _ _ _ Hno).
    by rewrite (SqlProps.find_no_match _ _ Hno).
Qed.

Lemma taskType_update_rewrites_one_row_witness :
  let flag := {| upd_id := None; upd_workspaceId := None; upd_userId := None;
                 upd_name := None; upd_icon := None; upd_color := None;
                 upd_isDefault := Some true; upd_displayOrder := None |} in
  update "a2" flag Sample.task_types
  = ([Sample.a1; with_isDefault true Sample.a2; Sample.b1; Sample.b2],
     Return (toDomain (with_isDefault true Sample.a2)))
  /\ update "zz" flag Sample.task_types
     = (Sample.task_types, Throw (JsError "Task type not found")).
Proof.
  intros flag.
  assert (Hkey : NoDup (keys Sample.task_types)).
  { apply (bool_decide_unpack _). vm_compute. exact I. }
  assert (Hflag : flag <> no_updates) by discriminate.
  split.
  - destruct (taskType_update_rewrites_one_row "a2" flag Sample.task_types
                Hflag eq_refl Hkey) as [Hrow _].
    exact (proj1 (Hrow 1%nat Sample.a2 eq_refl eq_refl)).
  - destruct (taskType_update_rewrites_one_row "zz" flag Sample.task_types
                Hflag eq_refl Hkey) as [_ Habsent].
    apply Habsent. apply (bool_decide_unpack _). vm_compute. exact I.
Defined.

(** X26. The writes of the task type repository keep the primary key: from
    a table in which no two rows share an id, [create], [update], [delete],
    [setDefault] and [reorder] lead to such a table, whatever their
    arguments and whether they return or throw. [update], [setDefault] and
    [reorder] keep the number of rows and the id at every position;
    [delete] removes rows and [create] adds at most one. *)
Theorem taskType_writes_keep_primary_key (tbl : list TaskTypeRow) :
  NoDup (keys tbl) ->
  forall generatedId now taskType i updates u ids,
    NoDup (keys (create generatedId now taskType tbl).1)
    /\ (NoDup (keys (update i updates tbl).1)
        /\ length (update i updates tbl).1 = length tbl)
    /\ (NoDup (keys (delete i tbl).1)
        /\ (length (delete i tbl).1 <= length tbl)%nat)
    /\ keys (setDefault u i tbl).1 = keys tbl
    /\ keys (reorder ids tbl).1 = keys tbl.
Proof.
  intros Hkey generatedId now taskType i updates u ids.
  split; [|split; [|split; [|split]]].
  - assert (Htable : (create generatedId now taskType tbl).1
                     = (Sql.insert "task_types.id" row_id
                          (values generatedId (toDbInsert now taskType)) tbl).1).
    { unfold create, bind. simpl db_insert.
      destruct (Sql.insert _ _ _ tbl) as [tbl' [[]|e]]; [|reflexivity].
      rewrite taskType_findById_sqlite. destruct (List.find _ tbl'); reflexivity. }
    rewrite Htable. by apply QueryProps.insert_keeps_primary_key.
  - rewrite taskType_update_table.
    destruct (no_values (toDbUpdate updates)); [by split|].
    by apply QueryProps.update_keeps_primary_key.
  - rewrite taskType_delete_sqlite. cbn [fst]. split.
    + by apply filter_keys_NoDup.
    + apply sublist_length, filter_sublist.
  - rewrite TaskTypeProps.setDefault_sqlite. cbn [fst].
    unfold Sql.keys. rewrite List.map_map. apply List.map_ext.
    intros r. apply TaskTypeProps.marked_id.
  - rewrite reorder_sqlite. cbn [fst].
    unfold Sql.keys. rewrite List.map_map. apply List.map_ext.
    intros r. apply reordered_id.
Qed.

Lemma taskType_writes_keep_primary_key_witness :
  NoDup (keys (create "a1" "2024-03-01T00:00:00.000Z" Sample.new_default
                 Sample.task_types).1)
  /\ keys (reorder ["b2"; "a1"] Sample.task_types).1 = ["a1"; "a2"; "b1"; "b2"].
Proof.
  assert (Hkey : NoDup (keys Sample.task_types)).
  { apply (bool_decide_unpack _). vm_compute. exact I. }
  destruct (taskType_writes_keep_primary_key Sample.task_types Hkey
              "a1" "2024-03-01T00:00:00.000Z" Sample.new_default "a1"
              no_updates "ua" ["b2"; "a1"]) as (Hcreate & _ & _ & _ & Hreorder).
  split; [exact Hcreate|exact Hreorder].
Defined.

(** Rows that tie on [displayOrder] and [name] come back in table order,
    and a row with a smaller key is moved ahead of them. *)
Example findByUser_keeps_ties_in_table_order :
  let bug i n : TaskTypeRow :=
    {| row_id := i; row_workspaceId := None; row_userId := "ua";
       row_name := "Bug"; row_icon := None; row_color := None;
       row_isDefault := false; row_displayOrder := n;
       row_createdAt := "2024-01-01T00:00:00.000Z" |} in
  (findByUser "ua" None [bug "t1" 1; bug "t2" 1; bug "t3" 1; bug "t0" 0]).2
  = Return (map toDomain [bug "t0" 0; bug "t1" 1; bug "t2" 1; bug "t3" 1]).
Proof. reflexivity. Qed.

(** An update that provides no field is refused before any statement is
    run: the table stays and the query builder's error is thrown, also for
    an id that is not stored. *)
Example update_without_values :
  update "a1" no_updates Sample.task_types
  = (Sample.task_types, Throw (JsError "No values to set"))
  /\ update "zz" no_updates Sample.task_types
     = (Sample.task_types, Throw (JsError "No values to set")).
Proof. split; reflexivity. Qed.

End TaskTypeQueryProps.
